(** * Scene Lab: scene store, in-memory export, build pipeline and
      build-validate-retry handler

    A shallow embedding of the server of decentraland/regenesis-scene-lab:

    - [adapters/scene-storage.ts]  (the scene store),
    - [logic/scene-export.ts]      (content-addressed export),
    - [logic/scene-build.ts] and [logic/build-workspace.ts] (build pipeline),
    - [controllers/handlers/ai-handler.ts] (the retrying prompt handler),
    - [controllers/handlers/] (the snapshot, realm, content and build
      handlers).

    JavaScript objects used as dictionaries ([SceneFiles], the [scenes] map,
    [hashedFiles]) are finite maps; [throw] is an explicit completion;
    the clock, the random source, the file system, the external libraries
    and the string methods that consult the Unicode tables ([toLowerCase],
    [trim]) are oracles. *)

From stdpp Require Import base option list strings gmap fin_maps pretty.
From Stdlib Require Import ZArith Ascii String.

Local Open Scope string_scope.

(** ** JavaScript values shared by all modules *)

(** A thrown [Error] object: its [name], its [message] and the optional
    [code] that Node's file-system errors carry. Every value thrown by the
    code or by the calls it makes is such an object, as it is for Node's
    own functions and for [throw new Error(...)]; a thrown [null] or
    [undefined] has no counterpart here. *)
Record JsError := mkError {
  err_name : string;
  err_message : string;
  err_code : option string
}.

(** [new Error(msg)] *)
Definition new_Error (msg : string) : JsError := mkError "Error" msg None.

(** [String(error)] / [`${error}`] for an [Error] object
    (Error.prototype.toString). *)
Definition String_of_error (e : JsError) : string :=
  if bool_decide (err_name e = "") then err_message e
  else if bool_decide (err_message e = "") then err_name e
  else err_name e ++ ": " ++ err_message e.

(** The outcome of evaluating a call: a value or a thrown error. *)
Inductive Completion (A : Type) : Type :=
| Return (a : A)
| Throw (e : JsError).
Arguments Return {A} a.
Arguments Throw {A} e.

(** [type SceneFiles = { [path: string]: string }] *)
Abbreviation SceneFiles := (gmap string string).

(** [{ ...a }]: a fresh object with the own properties of [a]. *)
Definition spread1 (a : SceneFiles) : SceneFiles := a.

(** [{ ...a, ...b }]: the properties of [b] win. *)
Definition spread2 (a b : SceneFiles) : SceneFiles := b ∪ a.

(** [Object.entries(files)]: one pair per own property. JavaScript lists
    the properties in the order of their insertion, which a finite map does
    not record: the list is the map's enumeration, and no statement below
    depends on the order of its pairs. *)
Definition Object_entries (files : SceneFiles) : list (string * string) :=
  map_to_list files.

(** JavaScript truthiness of a [string | undefined] property read. *)
Definition truthy (v : option string) : bool :=
  match v with
  | Some s => negb (bool_decide (s = ""))
  | None => false
  end.

(** [a || b] on [string | undefined]. *)
Definition js_or (a b : option string) : option string :=
  if truthy a then a else b.

(** ** scene-export.ts: types *)

Record Configurations := {
  networkId : Z;
  globalScenesUrn : list string;
  scenesUrn : list string;
  realmName : string
}.

Record Endpoint := { healthy : bool; publicUrl : string }.

Record Comms := {
  comms_healthy : bool;
  protocol : string;
  fixedAdapter : string
}.

Record AboutResponse := {
  about_healthy : bool;
  acceptingUsers : bool;
  configurations : Configurations;
  about_content : Endpoint;
  comms : Comms;
  lambdas : Endpoint;
  bff : Endpoint
}.

(** [Map<string, Buffer>]: hash -> bytes. A buffer is the UTF-8 byte
    string it was made from. *)
Abbreviation HashedFiles := (gmap string string).

Record ExportedScene := {
  entityId : string;
  hashedFiles : HashedFiles;
  about : AboutResponse
}.

(** ** types.ts *)

Inductive Role := user | assistant.

Record ConversationMessage := {
  msg_id : string;
  role : Role;
  content : string;
  timestamp : Z;
  filesSnapshot : SceneFiles
}.

Record Scene := {
  scene_id : string;
  scene_name : string;
  files : SceneFiles;
  builtFiles : option SceneFiles;
  conversation : list ConversationMessage;
  export : option ExportedScene;
  snapshotExports : gmap string ExportedScene;
  createdAt : Z;
  updatedAt : Z
}.

(** Assignments to the fields of a scene object. *)
Definition set_files (f : SceneFiles) (s : Scene) : Scene :=
  {| scene_id := scene_id s; scene_name := scene_name s; files := f;
     builtFiles := builtFiles s; conversation := conversation s;
     export := export s; snapshotExports := snapshotExports s;
     createdAt := createdAt s; updatedAt := updatedAt s |}.

Definition set_builtFiles (b : option SceneFiles) (s : Scene) : Scene :=
  {| scene_id := scene_id s; scene_name := scene_name s; files := files s;
     builtFiles := b; conversation := conversation s;
     export := export s; snapshotExports := snapshotExports s;
     createdAt := createdAt s; updatedAt := updatedAt s |}.

Definition set_conversation (c : list ConversationMessage) (s : Scene) : Scene :=
  {| scene_id := scene_id s; scene_name := scene_name s; files := files s;
     builtFiles := builtFiles s; conversation := c;
     export := export s; snapshotExports := snapshotExports s;
     createdAt := createdAt s; updatedAt := updatedAt s |}.

Definition set_updatedAt (t : Z) (s : Scene) : Scene :=
  {| scene_id := scene_id s; scene_name := scene_name s; files := files s;
     builtFiles := builtFiles s; conversation := conversation s;
     export := export s; snapshotExports := snapshotExports s;
     createdAt := createdAt s; updatedAt := t |}.

(** ** The server's mutable world

    [scenes] is the [Map<string, Scene>] closed over by the storage
    component. Scene objects are shared by reference: a scene returned by an
    operation is the object held in the map, so an assignment to one of its
    fields is an update of the map entry. [reads] counts the readings taken
    so far from the clock and the random source. *)
Record World := {
  scenes : gmap string Scene;
  reads : nat
}.

(** Effectful code over a state [S]: it ends with a value or a thrown
    error, and the state it leaves behind is kept in both cases. *)
Definition Eff (S A : Type) : Type := S → Completion A * S.

Definition m_ret {S A} (a : A) : Eff S A := λ w, (Return a, w).

Definition m_bind {S A B} (m : Eff S A) (k : A → Eff S B) : Eff S B :=
  λ w, match m w with
       | (Return a, w') => k a w'
       | (Throw e, w') => (Throw e, w')
       end.

Definition throw {S A} (e : JsError) : Eff S A := λ w, (Throw e, w).

(** [try { m } catch (error) { h error }] *)
Definition try_catch {S A} (m : Eff S A) (h : JsError → Eff S A) : Eff S A :=
  λ w, match m w with
       | (Return a, w') => (Return a, w')
       | (Throw e, w') => h e w'
       end.

(** [try { m } finally { f }]: [f] runs on both exits; if [f] throws,
    its error replaces the completion of [m]. *)
Definition try_finally {S A} (m : Eff S A) (f : Eff S unit) : Eff S A :=
  λ w, match m w with
       | (c, w') =>
           match f w' with
           | (Return _, w'') => (c, w'')
           | (Throw e, w'') => (Throw e, w'')
           end
       end.

(** [for (const x of l) { f x }] *)
Fixpoint for_each {S A} (l : list A) (f : A → Eff S unit) : Eff S unit :=
  match l with
  | [] => m_ret tt
  | x :: rest => m_bind (f x) (λ _, for_each rest f)
  end.

(** An awaited call whose outcome does not depend on the state. *)
Definition await {S A} (c : Completion A) : Eff S A := λ w, (c, w).

Notation "'let!' x ':=' m 'in' k" := (m_bind m (λ x, k))
  (at level 10, x pattern, m at level 100, k at level 200,
   format "'[v' 'let!'  x  ':='  m  'in' '/' k ']'").
Notation "m ';;;' k" := (m_bind m (λ _, k))
  (at level 100, k at level 200, right associativity).

Abbreviation M := (Eff World).

Module SceneStorage.
Section Store.

(** [clock n] is what the [n]-th reading of the clock returns
    ([new Date()], [Date.now()]), in milliseconds. *)
Variable clock : nat → Z.

Implicit Types (sceneId messageId : string).

Definition new_Date : M Z :=
  λ w, (Return (clock (reads w)),
        {| scenes := scenes w; reads := S (reads w) |}).

(** [scenes.get(sceneId)] *)
Definition scenes_get (sceneId : string) : M (option Scene) :=
  λ w, (Return (scenes w !! sceneId), w).

(** [scenes.set(sceneId, scene)] *)
Definition scenes_set (sceneId : string) (scene : Scene) : M unit :=
  λ w, (Return tt,
        {| scenes := <[sceneId := scene]> (scenes w); reads := reads w |}).

(** [scenes.delete(sceneId)] *)
Definition scenes_delete (sceneId : string) : M unit :=
  λ w, (Return tt,
        {| scenes := delete sceneId (scenes w); reads := reads w |}).

(** The errors thrown by the store. *)
Definition SceneNotFound (sceneId : string) : JsError :=
  new_Error ("Scene " ++ sceneId ++ " not found").

Definition MessageNotFound (messageId sceneId : string) : JsError :=
  new_Error ("Message " ++ messageId ++ " not found in scene " ++ sceneId).

(** [conversation.find((msg) => msg.id === messageId)] *)
Definition find_message (messageId : string)
    (conv : list ConversationMessage) : option ConversationMessage :=
  List.find (λ msg, bool_decide (msg_id msg = messageId)) conv.

Definition getScene (sceneId : string) : M (option Scene) :=
  scenes_get sceneId.

Definition updateScene (sceneId : string) (new_files : SceneFiles) : M Scene :=
  let! found := scenes_get sceneId in
  match found with
  | None => throw (SceneNotFound sceneId)
  | Some scene =>
      let scene := set_files new_files scene in
      let! now := new_Date in
      let scene := set_updatedAt now scene in
      scenes_set sceneId scene ;;;
      m_ret scene
  end.

Definition addConversationMessage (sceneId : string)
    (message : ConversationMessage) : M Scene :=
  let! found := scenes_get sceneId in
  match found with
  | None => throw (SceneNotFound sceneId)
  | Some scene =>
      let scene := set_conversation (conversation scene ++ [message]) scene in
      let! now := new_Date in
      let scene := set_updatedAt now scene in
      scenes_set sceneId scene ;;;
      m_ret scene
  end.

Definition resetConversation (sceneId : string) : M Scene :=
  let! found := scenes_get sceneId in
  match found with
  | None => throw (SceneNotFound sceneId)
  | Some scene =>
      let scene := set_conversation [] scene in
      let! now := new_Date in
      let scene := set_updatedAt now scene in
      scenes_set sceneId scene ;;;
      m_ret scene
  end.

Definition getMessageSnapshot (sceneId messageId : string) : M SceneFiles :=
  let! found := scenes_get sceneId in
  match found with
  | None => throw (SceneNotFound sceneId)
  | Some scene =>
      match find_message messageId (conversation scene) with
      | None => throw (MessageNotFound messageId sceneId)
      | Some message => m_ret (spread1 (filesSnapshot message))
      end
  end.

Definition revertToSnapshot (sceneId messageId : string) : M Scene :=
  let! found := scenes_get sceneId in
  match found with
  | None => throw (SceneNotFound sceneId)
  | Some scene =>
      match find_message messageId (conversation scene) with
      | None => throw (MessageNotFound messageId sceneId)
      | Some message =>
          let scene := set_files (spread1 (filesSnapshot message)) scene in
          let! now := new_Date in
          let scene := set_updatedAt now scene in
          scenes_set sceneId scene ;;;
          m_ret scene
      end
  end.

Definition deleteScene (sceneId : string) : M unit :=
  scenes_delete sceneId.

(** The rest of the closure: the random source read by [generateId] and
    the template registered at construction. [DEFAULT_TEMPLATE] stands for
    the five files of the constant of that name. *)
Variable random36 : nat → string.
Variable DEFAULT_TEMPLATE : SceneFiles.

(** [Math.random().toString(36).substring(2, 11)] *)
Definition random_suffix : M string :=
  λ w, (Return (random36 (reads w)),
        {| scenes := scenes w; reads := S (reads w) |}).

(** [templates], after [templates.set('default', DEFAULT_TEMPLATE)]. *)
Definition templates : gmap string SceneFiles :=
  {[ "default" := DEFAULT_TEMPLATE ]}.

Definition TemplateNotFound (templateId : string) : JsError :=
  new_Error ("Template " ++ templateId ++ " not found").

Definition generateId : M string :=
  let! now := new_Date in
  let! suffix := random_suffix in
  m_ret ("scene_" ++ pretty now ++ "_" ++ suffix).

Definition createFromTemplate (templateId name : string) : M Scene :=
  match templates !! templateId with
  | None => throw (TemplateNotFound templateId)
  | Some template =>
      let! id := generateId in
      let! created := new_Date in
      let! updated := new_Date in
      let scene :=
        {| scene_id := id; scene_name := name; files := spread1 template;
           builtFiles := None; conversation := []; export := None;
           snapshotExports := ∅; createdAt := created; updatedAt := updated |} in
      scenes_set id scene ;;;
      m_ret scene
  end.

(** [Array.from(scenes.values())] *)
Definition listScenes : M (list Scene) :=
  λ w, (Return (snd <$> map_to_list (scenes w)), w).

End Store.
End SceneStorage.

(** ** String helpers (String.prototype methods on byte strings)

    A string is the byte string of its UTF-8 encoding. The methods whose
    result depends on the Unicode tables, [toLowerCase] and [trim], are
    part of the environment of the code that calls them. *)

Definition string_map (f : ascii → ascii) (s : string) : string :=
  string_of_list_ascii (List.map f (list_ascii_of_string s)).

(** [s.startsWith('/')] *)
Definition startsWith_slash (s : string) : bool :=
  match s with
  | String c _ => Ascii.eqb c "/"
  | EmptyString => false
  end.

(** [s.slice(1)] *)
Definition slice1 (s : string) : string :=
  match s with
  | String _ rest => rest
  | EmptyString => EmptyString
  end.

(** [s.endsWith('/')] *)
Fixpoint endsWith_slash (s : string) : bool :=
  match s with
  | EmptyString => false
  | String c EmptyString => Ascii.eqb c "/"
  | String _ rest => endsWith_slash rest
  end.

(** [s.slice(0, -1)] *)
Fixpoint slice_0_m1 (s : string) : string :=
  match s with
  | EmptyString => EmptyString
  | String _ EmptyString => EmptyString
  | String c rest => String c (slice_0_m1 rest)
  end.

Module SceneExport.

(** [.replace(/\\/g, '/')] *)
Definition backslash_to_slash (c : ascii) : ascii :=
  if Ascii.eqb c "\" then "/"%char else c.

(** [.replace(/^\/+/, '')] *)
Fixpoint strip_leading_slashes (s : string) : string :=
  match s with
  | String c rest => if Ascii.eqb c "/" then strip_leading_slashes rest else s
  | EmptyString => EmptyString
  end.

Record ContentMapping := { file : string; hash : string }.

(** [EntityType.SCENE] *)
Inductive EntityType := SCENE.

(** [Omit<Entity, 'id'>], with [metadata] of the type [JSON.parse] returns. *)
Record Entity (JSON : Type) := {
  entity_content : list ContentMapping;
  pointers : list string;
  entity_timestamp : Z;
  entity_type : EntityType;
  metadata : JSON;
  version : string
}.
Arguments entity_content {JSON} e.
Arguments pointers {JSON} e.
Arguments entity_timestamp {JSON} e.
Arguments entity_type {JSON} e.
Arguments metadata {JSON} e.
Arguments version {JSON} e.

(** [Buffer.from(content, 'utf-8')] *)
Definition Buffer_from (content : string) : string := content.

Definition createAboutResponse (sceneId entityId baseUrl : string) : AboutResponse :=
  let normalizedBaseUrl :=
    if endsWith_slash baseUrl then slice_0_m1 baseUrl else baseUrl in
  let contentFilesUrl := normalizedBaseUrl ++ "/contents/" in
  {| about_healthy := true;
     acceptingUsers := true;
     configurations :=
       {| networkId := 0;
          globalScenesUrn := [];
          scenesUrn :=
            ["urn:decentraland:entity:" ++ entityId ++ "?=&baseUrl=" ++ contentFilesUrl];
          realmName := "scene-lab-" ++ sceneId |};
     about_content :=
       {| healthy := true; publicUrl := "https://peer.decentraland.org/content" |};
     comms :=
       {| comms_healthy := true; protocol := "v3"; fixedAdapter := "offline:offline" |};
     lambdas :=
       {| healthy := true; publicUrl := "https://peer.decentraland.org/lambdas" |};
     bff := {| healthy := false; publicUrl := "" |} |}.

Section InMemoryExport.

(** The external libraries: [hashV1] of @dcl/hashing and the JSON codec.
    [JSON_parse s] is [inr v] for the parsed value, or [inl msg] when
    [JSON.parse] throws a [SyntaxError] with message [msg]. *)
Variable JSON : Type.
Variable hashV1 : string → string.
Variable JSON_parse : string → string + JSON.
Variable JSON_stringify : Entity JSON → string.

(** [String.prototype.toLowerCase], which maps every cased letter of
    Unicode. *)
Variable toLowerCase : string → string.

Definition normalizeFilePath (filepath : string) : string :=
  toLowerCase (strip_leading_slashes (string_map backslash_to_slash filepath)).

Definition SyntaxError (msg : string) : JsError := mkError "SyntaxError" msg None.

(** Step 1, one iteration of the loop over the files. *)
Definition hash_file (acc : list ContentMapping * HashedFiles)
    (entry : string * string) : list ContentMapping * HashedFiles :=
  let '(contentMappings, hashedFiles) := acc in
  let '(filepath, content) := entry in
  let normalizedPath := normalizeFilePath filepath in
  let buffer := Buffer_from content in
  let hash := hashV1 buffer in
  ((contentMappings ++ [{| file := normalizedPath; hash := hash |}])%list,
   <[hash := buffer]> hashedFiles).

Definition hash_files (files : SceneFiles) : list ContentMapping * HashedFiles :=
  foldl hash_file ([], ∅) (Object_entries files).

(** Step 2: the [try] block reading [scene.json]. *)
Definition read_scene_json (files : SceneFiles) : Completion JSON :=
  let sceneJsonContent := js_or (files !! "scene.json") (files !! "/scene.json") in
  match sceneJsonContent with
  | Some text =>
      if truthy sceneJsonContent then
        match JSON_parse text with
        | inr value => Return value
        | inl msg => Throw (SyntaxError msg)
        end
      else Throw (new_Error "scene.json not found in scene files")
  | None => Throw (new_Error "scene.json not found in scene files")
  end.

(** Step 2 with its [catch], which wraps whatever was thrown. *)
Definition parse_scene_json (files : SceneFiles) : Completion JSON :=
  match read_scene_json files with
  | Return value => Return value
  | Throw error =>
      Throw (new_Error ("Failed to parse scene.json: " ++ String_of_error error))
  end.

(** Step 3: the manifest; [now] is the reading of [Date.now()]. *)
Definition make_entity (now : Z) (contentMappings : list ContentMapping)
    (sceneMetadata : JSON) : Entity JSON :=
  {| entity_content := contentMappings;
     pointers := [];
     entity_timestamp := now;
     entity_type := SCENE;
     metadata := sceneMetadata;
     version := "v3" |}.

Definition exportSceneInMemory (now : Z) (sceneId : string)
    (files : SceneFiles) (baseUrl : string) : Completion ExportedScene :=
  let '(contentMappings, hashedFiles) := hash_files files in
  match parse_scene_json files with
  | Throw error => Throw error
  | Return sceneMetadata =>
      let entity := make_entity now contentMappings sceneMetadata in
      let entityBuffer := Buffer_from (JSON_stringify entity) in
      let entityId := hashV1 entityBuffer in
      let hashedFiles := <[entityId := entityBuffer]> hashedFiles in
      let about := createAboutResponse sceneId entityId baseUrl in
      Return {| entityId := entityId; hashedFiles := hashedFiles; about := about |}
  end.

End InMemoryExport.
End SceneExport.

Module SceneBuild.

Record BuildResult := {
  success : bool;
  result_builtFiles : SceneFiles;
  stdout : string;
  stderr : string
}.

(** [error.message || String(error)] *)
Definition diagnostic (error : JsError) : string :=
  if bool_decide (err_message error = "") then String_of_error error
  else err_message error.

(** The result returned by the [catch] block of [buildScene]. *)
Definition build_failure (error : JsError) : BuildResult :=
  {| success := false; result_builtFiles := ∅; stdout := ""; stderr := diagnostic error |}.

(** [filepath.startsWith('/') ? filepath.slice(1) : filepath] *)
Definition strip_one_slash (filepath : string) : string :=
  if startsWith_slash filepath then slice1 filepath else filepath.

Definition assetExtensions : list string :=
  [".glb"; ".gltf"; ".png"; ".jpg"; ".jpeg"; ".gif"; ".mp3"; ".ogg"; ".wav"; ".json"].

(** [l.includes(x)] *)
Definition includes (l : list string) (x : string) : bool :=
  existsb (λ y, bool_decide (y = x)) l.

Section Build.

(** The file system [FS] and the calls into it, Node's [path] and [os]
    modules, [String.prototype.toLowerCase], the JSON parser and the SDK
    are the environment of a build. *)
Variable FS : Type.
Variable Components : Type.
Variable JSON : Type.
Variable os_tmpdir : string.
Variable path_join : list string → string.
Variable path_dirname : string → string.
Variable path_extname : string → string.
Variable toLowerCase : string → string.
Variable fs_mkdtemp : string → Eff FS string.
Variable fs_mkdir : string → Eff FS unit.
Variable fs_writeFile : string → string → Eff FS unit.
Variable fs_symlink : string → string → Eff FS unit.
Variable fs_readFile : string → Eff FS string.
Variable fs_rm : string → Eff FS unit.
Variable initComponents : Eff FS Components.
Variable sdkBuildScene : Components → string → JSON → Eff FS unit.
Variable JSON_parse : string → string + JSON.

(** What a build runs on: the module variable [nodeModulesPath] of
    build-workspace.ts, the local variable [tempDir] of [buildScene] (it is
    assigned inside [try] and read by [finally]) and the file system. *)
Record BuildState := {
  nodeModulesPath : option string;
  tempDir : option string;
  fs : FS
}.

Definition fs_call {A} (m : Eff FS A) : Eff BuildState A :=
  λ st, match m (fs st) with
        | (c, fs') =>
            (c, {| nodeModulesPath := nodeModulesPath st; tempDir := tempDir st; fs := fs' |})
        end.

(** [tempDir = v] *)
Definition assign_tempDir (v : option string) : Eff BuildState unit :=
  λ st, (Return tt, {| nodeModulesPath := nodeModulesPath st; tempDir := v; fs := fs st |}).

(** build-workspace.ts *)
Definition getNodeModulesPath : Eff BuildState string :=
  λ st, match nodeModulesPath st with
        | Some p =>
            if truthy (Some p) then (Return p, st)
            else (Throw (new_Error
                   "Build workspace not initialized. Call initializeBuildWorkspace() first."), st)
        | None =>
            (Throw (new_Error
               "Build workspace not initialized. Call initializeBuildWorkspace() first."), st)
        end.

Definition symlinkNodeModules (targetDir : string) : Eff BuildState unit :=
  let! sharedNodeModules := getNodeModulesPath in
  let symlinkPath := path_join [targetDir; "node_modules"] in
  try_catch (fs_call (fs_symlink sharedNodeModules symlinkPath))
    (λ error,
       if bool_decide (err_code error = Some "EEXIST") then m_ret tt
       else throw (new_Error ("Failed to create symlink: " ++ String_of_error error))).

(** Step 2: write every file below [dir]. *)
Definition write_files (dir : string) (files : SceneFiles) : Eff BuildState unit :=
  for_each (Object_entries files) (λ '(filepath, content),
    let normalizedPath := strip_one_slash filepath in
    let fullPath := path_join [dir; normalizedPath] in
    fs_call (fs_mkdir (path_dirname fullPath)) ;;;
    fs_call (fs_writeFile fullPath content)).

(** Step 6, one iteration of the loop over the files. *)
Definition copy_asset (builtFiles : SceneFiles) (entry : string * string) : SceneFiles :=
  let '(filepath, content) := entry in
  let normalizedPath := strip_one_slash filepath in
  let ext := toLowerCase (path_extname normalizedPath) in
  if bool_decide (ext = ".ts") || bool_decide (ext = ".tsx") then builtFiles
  else if bool_decide (normalizedPath = "scene.json") then <["scene.json" := content]> builtFiles
  else if includes assetExtensions ext then <[normalizedPath := content]> builtFiles
  else builtFiles.

(** The [try] block of [buildScene]. *)
Definition build_steps (sceneId : string) (files : SceneFiles) : Eff BuildState BuildResult :=
  let! dir := fs_call (fs_mkdtemp (path_join [os_tmpdir; "dcl-scene-" ++ sceneId ++ "-"])) in
  assign_tempDir (Some dir) ;;;
  write_files dir files ;;;
  symlinkNodeModules dir ;;;
  let! components := fs_call initComponents in
  let sceneJsonContent := js_or (files !! "scene.json") (files !! "/scene.json") in
  match sceneJsonContent with
  | Some text =>
      if truthy sceneJsonContent then
        match JSON_parse text with
        | inl msg => throw (mkError "SyntaxError" msg None)
        | inr sceneJson =>
            fs_call (sdkBuildScene components dir sceneJson) ;;;
            let indexJsPath := path_join [dir; "bin"; "index.js"] in
            let! indexJsContent :=
              try_catch (fs_call (fs_readFile indexJsPath))
                (λ error, throw (new_Error
                   ("Build output not found at bin/index.js: " ++ String_of_error error))) in
            let builtFiles := <["bin/index.js" := indexJsContent]> (∅ : SceneFiles) in
            let builtFiles := foldl copy_asset builtFiles (Object_entries files) in
            m_ret {| success := true; result_builtFiles := builtFiles;
                     stdout := "Build completed successfully"; stderr := "" |}
        end
      else throw (new_Error "scene.json not found in files")
  | None => throw (new_Error "scene.json not found in files")
  end.

(** The [finally] block of [buildScene]. *)
Definition cleanup : Eff BuildState unit :=
  λ st, match tempDir st with
        | Some dir =>
            if truthy (Some dir) then
              try_catch (fs_call (fs_rm dir)) (λ _, m_ret tt) st
            else (Return tt, st)
        | None => (Return tt, st)
        end.

Definition buildScene (sceneId : string) (files : SceneFiles) : Eff BuildState BuildResult :=
  assign_tempDir None ;;;
  try_finally
    (try_catch (build_steps sceneId files) (λ error, m_ret (build_failure error)))
    cleanup.

End Build.
End SceneBuild.

(** ** build-workspace.ts: the shared workspace *)
Module BuildWorkspace.
Import SceneBuild.

Section Workspace.

(** The file system and the calls into it, [os.homedir()], [path.join],
    the serialized [WORKSPACE_PACKAGE_JSON] and [execAsync('npm install')]
    run in a directory. *)
Variable FS : Type.
Variable os_homedir : string.
Variable path_join : list string → string.
Variable workspace_package_json : string.
Variable fs_mkdir : string → Eff FS unit.
Variable fs_writeFile : string → string → Eff FS unit.
Variable fs_access : string → Eff FS unit.
Variable fs_rm : string → Eff FS unit.
Variable npm_install : string → Eff FS (string * string).

(** The two module variables, [workspaceDir] here and [nodeModulesPath]
    in the state that the build runs on. *)
Record ModuleState := {
  workspaceDir : option string;
  build_state : BuildState FS
}.

Definition fs_op {A} (m : Eff FS A) : Eff ModuleState A :=
  λ st, match m (fs FS (build_state st)) with
        | (c, fs') =>
            (c, {| workspaceDir := workspaceDir st;
                   build_state :=
                     {| nodeModulesPath := nodeModulesPath FS (build_state st);
                        tempDir := tempDir FS (build_state st);
                        fs := fs' |} |})
        end.

(** [workspaceDir = v] *)
Definition assign_workspaceDir (v : option string) : Eff ModuleState unit :=
  λ st, (Return tt, {| workspaceDir := v; build_state := build_state st |}).

(** [nodeModulesPath = v] *)
Definition assign_nodeModulesPath (v : option string) : Eff ModuleState unit :=
  λ st, (Return tt,
         {| workspaceDir := workspaceDir st;
            build_state :=
              {| nodeModulesPath := v;
                 tempDir := tempDir FS (build_state st);
                 fs := fs FS (build_state st) |} |}).

(** The [try] block of [initializeBuildWorkspace]. *)
Definition initialize_steps : Eff ModuleState string :=
  let dir := path_join [os_homedir; ".dcl-scene-lab"; "build-workspace"] in
  assign_workspaceDir (Some dir) ;;;
  fs_op (fs_mkdir dir) ;;;
  let packageJsonPath := path_join [dir; "package.json"] in
  fs_op (fs_writeFile packageJsonPath workspace_package_json) ;;;
  let modules := path_join [dir; "node_modules"] in
  assign_nodeModulesPath (Some modules) ;;;
  let! found :=
    try_catch (fs_op (fs_access modules) ;;; m_ret true) (λ _, m_ret false) in
  if (found : bool) then m_ret modules
  else
    fs_op (npm_install dir) ;;;
    fs_op (fs_access modules) ;;;
    m_ret modules.

Definition initializeBuildWorkspace : Eff ModuleState string :=
  λ st,
    let run :=
      try_catch initialize_steps
        (λ error, throw (new_Error
           ("Failed to initialize build workspace: " ++ String_of_error error))) in
    match nodeModulesPath FS (build_state st) with
    | Some path => if truthy (Some path) then (Return path, st) else run st
    | None => run st
    end.

Definition cleanupWorkspace : Eff ModuleState unit :=
  λ st,
    match workspaceDir st with
    | Some dir =>
        if truthy (Some dir) then
          try_catch
            (fs_op (fs_rm dir) ;;;
             assign_workspaceDir None ;;;
             assign_nodeModulesPath None)
            (λ _, m_ret tt) st
        else (Return tt, st)
    | None => (Return tt, st)
    end.

End Workspace.
End BuildWorkspace.

Module AiHandler.
Import SceneStorage SceneBuild.

Definition MAX_BUILD_RETRIES : nat := 2.

(** What [aiService.generateSceneModification] resolves with. *)
Record Modification := {
  modified_files : SceneFiles;
  explanation : string
}.

Inductive ResponseBody :=
| ErrorBody (error : string)
| ModifiedBody (scene : Scene) (explanation : string) (buildRetries : nat)
| BuildFailedBody (scene : Scene) (explanation : string) (buildError : string)
    (buildRetries : nat) (buildFailed : bool).

Record Response := { status : nat; body : ResponseBody }.

(** A handler returns its response; [detached_export] is the call
    [sceneStorage.exportScene(sceneId, baseUrl)] that it starts without
    awaiting, which runs after the response is returned. *)
Record Outcome := {
  response : Response;
  detached_export : option (string * string)
}.

Definition respond (st : nat) (b : ResponseBody) : Outcome :=
  {| response := {| status := st; body := b |}; detached_export := None |}.

(** How one run of the [while] loop ends. *)
Inductive LoopExit :=
| Returned (out : Outcome)
| ConditionFalse
| OutOfFuel.

(** The prompt of a retry. *)
Definition retry_prompt (buildError prompt : string) : string :=
  "The previous changes caused TypeScript build errors. Please fix them.

Build errors:
" ++ buildError ++ "

Original request: " ++ prompt ++ "

Please fix ONLY the TypeScript errors while keeping the original intent of the changes.".

Definition line_feed : string := String (ascii_of_nat 10) EmptyString.

Definition build_warning : string :=
  line_feed ++ line_feed ++
  "⚠️ Warning: The changes have TypeScript errors and may not build correctly.".

Definition build_failed_note (retryCount : nat) : string :=
  line_feed ++ line_feed ++
  "⚠️ Warning: Build failed after " ++ pretty retryCount ++
  " retries. The code has TypeScript errors.".

Section Handler.

(** [trim] is [String.prototype.trim], which removes the white space and
    the line terminators of Unicode at both ends. [clock] and [random36]
    give the readings of the clock and of
    [Math.random().toString(36).substring(2, 11)]. The collaborator and the
    build pipeline are awaited calls; [aiService k] and [buildScene k] are
    the calls made when [retryCount] is [k]. *)
Variable trim : string → string.
Variable clock : nat → Z.
Variable random36 : nat → string.
Variable aiService :
  nat → string → SceneFiles → list ConversationMessage → Completion Modification.
Variable buildScene : nat → string → SceneFiles → Completion BuildResult.

Definition Date_now : M Z := new_Date clock.

Definition Math_random36 : M string :=
  λ w, (Return (random36 (reads w)),
        {| scenes := scenes w; reads := S (reads w) |}).

(** [`msg_${Date.now() + offset}_${Math.random()...}`] *)
Definition new_message_id (offset : Z) : M string :=
  let! now := Date_now in
  let! suffix := Math_random36 in
  m_ret ("msg_" ++ pretty (now + offset)%Z ++ "_" ++ suffix).

(** [updatedScene.builtFiles = b], where [updatedScene] is the object that
    the store holds under [sceneId]. *)
Definition assign_builtFiles (sceneId : string) (updatedScene : Scene)
    (b : option SceneFiles) : M Scene :=
  λ w, let scene := set_builtFiles b updatedScene in
       (Return scene,
        {| scenes := <[sceneId := scene]> (scenes w); reads := reads w |}).

(** The two appends and the commit shared by both terminal branches.
    [scene] is the object read at the start of the request; nothing has
    been assigned to it yet when its [files] are copied here. *)
Definition commit (sceneId prompt : string) (scene : Scene)
    (mergedFiles : SceneFiles) (assistantContent : string)
    (b : option SceneFiles) : M Scene :=
  let! userMessageId := new_message_id 0 in
  let! assistantMessageId := new_message_id 1 in
  let! userTimestamp := Date_now in
  let userMessage :=
    {| msg_id := userMessageId; role := user; content := prompt;
       timestamp := userTimestamp; filesSnapshot := spread1 (files scene) |} in
  addConversationMessage clock sceneId userMessage ;;;
  let! assistantTimestamp := Date_now in
  let assistantMessage :=
    {| msg_id := assistantMessageId; role := assistant; content := assistantContent;
       timestamp := assistantTimestamp; filesSnapshot := spread1 mergedFiles |} in
  addConversationMessage clock sceneId assistantMessage ;;;
  let! updatedScene := updateScene clock sceneId mergedFiles in
  assign_builtFiles sceneId updatedScene b.

(** [while (retryCount <= MAX_BUILD_RETRIES) { ... }]; each iteration that
    does not return increments [retryCount], and [fuel] bounds the number
    of iterations. *)
Fixpoint retry_loop (fuel : nat) (sceneId prompt : string) (scene : Scene)
    (retryCount : nat) (currentPrompt : string) : M LoopExit :=
  match fuel with
  | O => m_ret OutOfFuel
  | S fuel =>
      if Nat.leb retryCount MAX_BUILD_RETRIES then
        let! result :=
          await (aiService retryCount currentPrompt (files scene) (conversation scene)) in
        let mergedFiles := spread2 (files scene) (modified_files result) in
        let! buildResult := await (buildScene retryCount sceneId mergedFiles) in
        if success buildResult then
          let! updatedScene :=
            commit sceneId prompt scene mergedFiles (explanation result)
              (Some (result_builtFiles buildResult)) in
          let baseUrl := "http://localhost:3001/scenes/" ++ sceneId in
          m_ret (Returned
            {| response :=
                 {| status := 200;
                    body := ModifiedBody updatedScene (explanation result) retryCount |};
               detached_export := Some (sceneId, baseUrl) |})
        else
          let buildError := stderr buildResult in
          if Nat.ltb retryCount MAX_BUILD_RETRIES then
            retry_loop fuel sceneId prompt scene (S retryCount)
              (retry_prompt buildError prompt)
          else
            let! updatedScene :=
              commit sceneId prompt scene mergedFiles
                (explanation result ++ build_warning) None in
            m_ret (Returned (respond 200
              (BuildFailedBody updatedScene
                 (explanation result ++ build_failed_note retryCount)
                 buildError retryCount true)))
      else m_ret ConditionFalse
  end.

(** [!prompt || !prompt.trim()] for the [prompt] field of the request
    body ([None] when the body has none). *)
Definition prompt_missing (prompt : option string) : bool :=
  match prompt with
  | Some text => negb (truthy (Some text)) || negb (truthy (Some (trim text)))
  | None => true
  end.

(** [error.message || 'AI prompt failed'] *)
Definition failure_text (error : JsError) : string :=
  if bool_decide (err_message error = "") then "AI prompt failed"
  else err_message error.

(** The handler; [None] stands for a loop that ran out of [fuel], which
    the code cannot do. *)
Definition aiPromptHandler (sceneId : string) (prompt : option string)
    : M (option Outcome) :=
  try_catch
    (match prompt with
     | Some text =>
         if prompt_missing prompt then
           m_ret (Some (respond 400 (ErrorBody "Prompt is required")))
         else
           let! found := getScene sceneId in
           match found with
           | None => m_ret (Some (respond 404 (ErrorBody "Scene not found")))
           | Some scene =>
               let! exit :=
                 retry_loop (S (S MAX_BUILD_RETRIES)) sceneId text scene 0 text in
               match exit with
               | Returned out => m_ret (Some out)
               | ConditionFalse =>
                   m_ret (Some (respond 500
                     (ErrorBody "Unexpected error in build retry loop")))
               | OutOfFuel => m_ret None
               end
           end
     | None => m_ret (Some (respond 400 (ErrorBody "Prompt is required")))
     end)
    (λ error, m_ret (Some (respond 500 (ErrorBody (failure_text error))))).

End Handler.
End AiHandler.

(** ** scene-storage.ts: the two exporting operations *)

(** [scene.export = e] and [scene.snapshotExports.set(messageId, e)]. *)
Definition set_export (e : option ExportedScene) (s : Scene) : Scene :=
  {| scene_id := scene_id s; scene_name := scene_name s; files := files s;
     builtFiles := builtFiles s; conversation := conversation s;
     export := e; snapshotExports := snapshotExports s;
     createdAt := createdAt s; updatedAt := updatedAt s |}.

Definition set_snapshotExports (m : gmap string ExportedScene) (s : Scene) : Scene :=
  {| scene_id := scene_id s; scene_name := scene_name s; files := files s;
     builtFiles := builtFiles s; conversation := conversation s;
     export := export s; snapshotExports := m;
     createdAt := createdAt s; updatedAt := updatedAt s |}.

Module SceneStorageExport.
Import SceneStorage SceneExport SceneBuild.

Section Exporting.

(** The clock, the external libraries of the export,
    [String.prototype.toLowerCase], and the awaited [buildScene] of
    scene-build.ts. *)
Variable clock : nat → Z.
Variable JSON : Type.
Variable hashV1 : string → string.
Variable JSON_parse : string → string + JSON.
Variable JSON_stringify : Entity JSON → string.
Variable toLowerCase : string → string.
Variable buildScene : string → SceneFiles → Completion BuildResult.

(** [await exportSceneInMemory(sceneId, files, baseUrl)]: its [Date.now()]
    is read at step 3, which is reached only when step 2 has parsed the
    descriptor. *)
Definition await_export (sceneId : string) (exported_files : SceneFiles)
    (baseUrl : string) : M ExportedScene :=
  match parse_scene_json JSON JSON_parse exported_files with
  | Throw error => throw error
  | Return _ =>
      let! now := new_Date clock in
      await (exportSceneInMemory JSON hashV1 JSON_parse JSON_stringify toLowerCase
               now sceneId exported_files baseUrl)
  end.

Definition BuildFailed (diagnostics : string) : JsError :=
  new_Error ("Build failed: " ++ diagnostics).

(** An assignment to a field of the scene object held under [sceneId]:
    the object is shared with the map, so the map entry changes. *)
Definition assign (sceneId : string) (scene : Scene) : M unit :=
  λ w, (Return tt, {| scenes := <[sceneId := scene]> (scenes w); reads := reads w |}).

Definition exportScene (sceneId baseUrl : string) : M Scene :=
  let! found := scenes_get sceneId in
  match found with
  | None => throw (SceneNotFound sceneId)
  | Some scene =>
      let! (scene, built) :=
        match builtFiles scene with
        | Some built => m_ret (scene, built)
        | None =>
            let! buildResult := await (buildScene sceneId (files scene)) in
            if success buildResult then
              let scene := set_builtFiles (Some (result_builtFiles buildResult)) scene in
              assign sceneId scene ;;;
              m_ret (scene, result_builtFiles buildResult)
            else throw (BuildFailed (stderr buildResult))
        end in
      let! exported := await_export sceneId built baseUrl in
      let scene :=
        set_export (Some {| entityId := entityId exported;
                            hashedFiles := hashedFiles exported;
                            about := about exported |}) scene in
      let! now := new_Date clock in
      let scene := set_updatedAt now scene in
      scenes_set sceneId scene ;;;
      m_ret scene
  end.

Definition exportSnapshot (sceneId messageId baseUrl : string) : M Scene :=
  let! found := scenes_get sceneId in
  match found with
  | None => throw (SceneNotFound sceneId)
  | Some scene =>
      match find_message messageId (conversation scene) with
      | None => throw (MessageNotFound messageId sceneId)
      | Some message =>
          let! exported :=
            await_export (sceneId ++ "-" ++ messageId) (filesSnapshot message) baseUrl in
          let scene :=
            set_snapshotExports
              (<[messageId := {| entityId := entityId exported;
                                 hashedFiles := hashedFiles exported;
                                 about := about exported |}]> (snapshotExports scene))
              scene in
          let! now := new_Date clock in
          let scene := set_updatedAt now scene in
          scenes_set sceneId scene ;;;
          m_ret scene
      end
  end.

End Exporting.
End SceneStorageExport.

(** ** The HTTP handlers over the store

    snapshot-handler.ts, reset-conversation-handler.ts, realm-handler.ts,
    realm-snapshot-handler.ts, build-handler.ts and scenes-handler.ts. A
    handler takes the route parameters and the parsed request body. *)
Module Handlers.
Import SceneStorage SceneExport SceneBuild SceneStorageExport.

Inductive Payload :=
| ErrorPayload (error : string)
| BuildErrorPayload (error stderr stdout : string)
| ScenePayload (scene : Scene)
| SceneMessagePayload (scene : Scene) (message : string)
| FilesPayload (snapshot : SceneFiles)
| AboutPayload (about : AboutResponse)
| ContentPayload (bytes : string)
| BuiltPayload (success : bool) (message : string) (fileCount : nat) (stdout : string).

Record HttpResponse := {
  http_status : nat;
  http_headers : list (string * string);
  http_body : Payload
}.

(** [{ status, body }] *)
Definition reply (st : nat) (b : Payload) : HttpResponse :=
  {| http_status := st; http_headers := []; http_body := b |}.

(** [error.message || fallback] *)
Definition message_or (error : JsError) (fallback : string) : string :=
  if bool_decide (err_message error = "") then fallback else err_message error.

(** [text.includes(part)] *)
Definition includes_text (text part : string) : bool :=
  match String.index 0 part text with
  | Some _ => true
  | None => false
  end.

(** [text.startsWith(c)] for a one-character [c]. *)
Definition startsWith_char (c : ascii) (text : string) : bool :=
  match text with
  | String c0 _ => Ascii.eqb c0 c
  | EmptyString => false
  end.

Section WithStore.

(** [String.prototype.trim] and [String.prototype.toLowerCase], the clock,
    the random source, the template, the external libraries of the export
    and the awaited [buildScene]. *)
Variable trim : string → string.
Variable clock : nat → Z.
Variable random36 : nat → string.
Variable DEFAULT_TEMPLATE : SceneFiles.
Variable JSON : Type.
Variable hashV1 : string → string.
Variable JSON_parse : string → string + JSON.
Variable JSON_stringify : Entity JSON → string.
Variable toLowerCase : string → string.
Variable buildScene : string → SceneFiles → Completion BuildResult.

(** [getContentType] of realm-handler.ts and realm-snapshot-handler.ts. *)
Definition getContentType (hash bytes : string) : string :=
  let text := String.substring 0 100 bytes in
  if startsWith_char "{" (trim text) || startsWith_char "[" (trim text)
  then "application/json"
  else if includes_text text "export" || includes_text text "import"
          || includes_text text "function"
  then "application/javascript"
  else "application/octet-stream".

Local Abbreviation exportScene :=
  (exportScene clock JSON hashV1 JSON_parse JSON_stringify toLowerCase buildScene).
Local Abbreviation exportSnapshot :=
  (exportSnapshot clock JSON hashV1 JSON_parse JSON_stringify toLowerCase).

Definition getSnapshotHandler (sceneId messageId : string) : M HttpResponse :=
  try_catch
    (if truthy (Some messageId) then
       let! snapshot := getMessageSnapshot sceneId messageId in
       m_ret (reply 200 (FilesPayload snapshot))
     else m_ret (reply 400 (ErrorPayload "Message ID is required")))
    (λ error, m_ret (reply 500 (ErrorPayload (message_or error "Failed to get snapshot")))).

Definition revertSnapshotHandler (sceneId messageId : string) : M HttpResponse :=
  try_catch
    (if truthy (Some messageId) then
       let! scene := revertToSnapshot clock sceneId messageId in
       m_ret (reply 200
         (SceneMessagePayload scene ("Reverted to snapshot " ++ messageId)))
     else m_ret (reply 400 (ErrorPayload "Message ID is required")))
    (λ error, m_ret (reply 500 (ErrorPayload (message_or error "Failed to revert snapshot")))).

Definition resetConversationHandler (sceneId : string) : M HttpResponse :=
  try_catch
    (let! found := getScene sceneId in
     match found with
     | None => m_ret (reply 404 (ErrorPayload "Scene not found"))
     | Some _ =>
         let! updatedScene := resetConversation clock sceneId in
         m_ret (reply 200
           (SceneMessagePayload updatedScene "Conversation reset successfully"))
     end)
    (λ error, m_ret (reply 500
       (ErrorPayload (message_or error "Failed to reset conversation")))).

(** The scene with its live export, exported on demand: the common start
    of the two handlers of realm-handler.ts. [inl] is the response of an
    early return. *)
Definition exported_scene (sceneId : string) : M (HttpResponse + ExportedScene) :=
  let! found := getScene sceneId in
  match found with
  | None => m_ret (inl (reply 404 (ErrorPayload "Scene not found")))
  | Some scene =>
      match export scene with
      | Some e => m_ret (inr e)
      | None =>
          let baseUrl := "http://localhost:3001/scenes/" ++ sceneId in
          let! scene := exportScene sceneId baseUrl in
          match export scene with
          | Some e => m_ret (inr e)
          | None => m_ret (inl (reply 500 (ErrorPayload "Failed to export scene")))
          end
      end
  end.

Definition getRealmAboutHandler (sceneId : string) : M HttpResponse :=
  try_catch
    (let! found := exported_scene sceneId in
     match found with
     | inl early => m_ret early
     | inr e =>
         m_ret {| http_status := 200;
                  http_headers := [("Content-Type", "application/json");
                                   ("Cache-Control", "no-cache")];
                  http_body := AboutPayload (about e) |}
     end)
    (λ error, m_ret (reply 500 (ErrorPayload (message_or error "Failed to get realm about")))).

(** The response for [hashedFiles.get(hash)]; a [Buffer] is an object, so
    [!fileContent] holds only when the hash is not a key. *)
Definition serve_content (hashedFiles : HashedFiles) (hash : string) : HttpResponse :=
  match hashedFiles !! hash with
  | None => reply 404 (ErrorPayload "Content not found")
  | Some fileContent =>
      {| http_status := 200;
         http_headers := [("Content-Type", getContentType hash fileContent);
                          ("Cache-Control", "public, max-age=31536000, immutable")];
         http_body := ContentPayload fileContent |}
  end.

Definition getContentByHashHandler (sceneId hash : string) : M HttpResponse :=
  try_catch
    (let! found := exported_scene sceneId in
     match found with
     | inl early => m_ret early
     | inr e => m_ret (serve_content (hashedFiles e) hash)
     end)
    (λ error, m_ret (reply 500 (ErrorPayload (message_or error "Failed to serve content")))).

Definition getSnapshotRealmAboutHandler (sceneId messageId : string) : M HttpResponse :=
  try_catch
    (let! found := getScene sceneId in
     match found with
     | None => m_ret (reply 404 (ErrorPayload "Scene not found"))
     | Some scene =>
         if truthy (Some messageId) then
           let! snapshotExport :=
             match snapshotExports scene !! messageId with
             | Some e => m_ret (Some e)
             | None =>
                 let baseUrl := "http://localhost:3001/scenes/" ++ sceneId
                                ++ "/snapshots/" ++ messageId in
                 exportSnapshot sceneId messageId baseUrl ;;;
                 let! updatedScene := getScene sceneId in
                 m_ret (match updatedScene with
                        | Some updated => snapshotExports updated !! messageId
                        | None => None
                        end)
             end in
           match snapshotExport with
           | None => m_ret (reply 500 (ErrorPayload "Failed to export snapshot"))
           | Some e =>
               m_ret {| http_status := 200;
                        http_headers := [("Content-Type", "application/json");
                                         ("Cache-Control", "public, max-age=3600")];
                        http_body := AboutPayload (about e) |}
           end
         else m_ret (reply 400 (ErrorPayload "Message ID is required"))
     end)
    (λ error, m_ret (reply 500
       (ErrorPayload (message_or error "Failed to get snapshot realm about")))).

Definition getSnapshotContentByHashHandler (sceneId messageId hash : string)
    : M HttpResponse :=
  try_catch
    (let! found := getScene sceneId in
     match found with
     | None => m_ret (reply 404 (ErrorPayload "Scene not found"))
     | Some scene =>
         match snapshotExports scene !! messageId with
         | None => m_ret (reply 404 (ErrorPayload "Snapshot not exported yet"))
         | Some e => m_ret (serve_content (hashedFiles e) hash)
         end
     end)
    (λ error, m_ret (reply 500
       (ErrorPayload (message_or error "Failed to serve snapshot content")))).

(** build-handler.ts; the second component is the export that the handler
    starts without awaiting it. *)
Definition buildSceneHandler (sceneId : string)
    : M (HttpResponse * option (string * string)) :=
  try_catch
    (let! found := getScene sceneId in
     match found with
     | None => m_ret (reply 404 (ErrorPayload "Scene not found"), None)
     | Some scene =>
         let! buildResult := await (buildScene sceneId (files scene)) in
         if success buildResult then
           let scene := set_builtFiles (Some (result_builtFiles buildResult)) scene in
           assign sceneId scene ;;;
           let! now := new_Date clock in
           let scene := set_updatedAt now scene in
           assign sceneId scene ;;;
           updateScene clock sceneId (files scene) ;;;
           let baseUrl := "http://localhost:3001/scenes/" ++ sceneId in
           m_ret (reply 200
                    (BuiltPayload true "Scene built successfully"
                       (size (result_builtFiles buildResult)) (stdout buildResult)),
                  Some (sceneId, baseUrl))
         else
           m_ret (reply 500
                    (BuildErrorPayload "Build failed" (stderr buildResult)
                       (stdout buildResult)), None)
     end)
    (λ error, m_ret (reply 500 (ErrorPayload (message_or error "Failed to build scene")),
                     None)).

(** scenes-handler.ts; [templateId] and [name] are the optional fields of
    the request body. *)
Definition createSceneHandler (templateId name : option string)
    : M (HttpResponse * option (string * string)) :=
  try_catch
    (let templateId := default "default" templateId in
     let name := default "My Scene" name in
     let! scene := createFromTemplate clock random36 DEFAULT_TEMPLATE templateId name in
     let baseUrl := "http://localhost:3001/scenes/" ++ scene_id scene in
     m_ret (reply 200 (ScenePayload scene), Some (scene_id scene, baseUrl)))
    (λ error, m_ret (reply 500 (ErrorPayload (err_message error)), None)).

Definition updateSceneHandler (sceneId : string) (new_files : SceneFiles)
    : M HttpResponse :=
  try_catch
    (let! scene := updateScene clock sceneId new_files in
     m_ret (reply 200 (ScenePayload scene)))
    (λ error, m_ret (reply 500 (ErrorPayload (err_message error)))).

End WithStore.
End Handlers.

(** ** Concrete inputs

    A small world and stand-ins for the oracles, on which the definitions
    above are evaluated. *)

Definition sample_clock (n : nat) : Z := 1700000000000 + Z.of_nat n.

Definition template_files : SceneFiles :=
  <["scene.json" := "{}"]> (<["/src/index.ts" := "export function main() {}"]> ∅).

Definition edited_files : SceneFiles :=
  <["scene.json" := "{}"]> (<["/src/index.ts" := "export function main() { cube() }"]> ∅).

Definition compiled_files : SceneFiles :=
  <["bin/index.js" := "function main(){}"]> (<["scene.json" := "{}"]> ∅).

Definition first_message : ConversationMessage :=
  {| msg_id := "msg_1_aaa"; role := user; content := "add a cube";
     timestamp := 1; filesSnapshot := template_files |}.

Definition second_message : ConversationMessage :=
  {| msg_id := "msg_2_bbb"; role := assistant; content := "added a cube";
     timestamp := 2; filesSnapshot := edited_files |}.

Definition sample_about : AboutResponse :=
  SceneExport.createAboutResponse "scene_1" "bafk-entity" "http://localhost:3001/scenes/scene_1".

Definition sample_export : ExportedScene :=
  {| entityId := "bafk-entity";
     hashedFiles := <["bafk-entity" := "{}"]> ∅;
     about := sample_about |}.

(** A scene that was built and exported, with a two-entry history. *)
Definition built_scene : Scene :=
  {| scene_id := "scene_1"; scene_name := "My Scene"; files := edited_files;
     builtFiles := Some compiled_files;
     conversation := [first_message; second_message];
     export := Some sample_export; snapshotExports := ∅;
     createdAt := 0; updatedAt := 2 |}.

Definition built_world : World :=
  {| scenes := <["scene_1" := built_scene]> ∅; reads := 0 |}.

(** ** Vocabulary of the statements *)

(** The world after an operation that read the clock once and stored [sc]
    under [sceneId]. *)
Definition stored (sceneId : string) (sc : Scene) (w : World) : World :=
  {| scenes := <[sceneId := sc]> (scenes w); reads := S (reads w) |}.

(** The manifest entry that the export writes for one file. *)
Definition mapping_of (toLowerCase hashV1 : string → string) (entry : string * string)
    : SceneExport.ContentMapping :=
  {| SceneExport.file := SceneExport.normalizeFilePath toLowerCase entry.1;
     SceneExport.hash := hashV1 entry.2 |}.

(** The bundle after the loop of step 1 has stored one file. *)
Definition store_file (hashV1 : string → string) (hashedFiles : HashedFiles)
    (entry : string * string) : HashedFiles :=
  <[hashV1 entry.2 := entry.2]> hashedFiles.

(** [baseUrl] without one trailing slash, followed by [/contents/]. *)
Definition contentFilesUrl (baseUrl : string) : string :=
  (if endsWith_slash baseUrl then slice_0_m1 baseUrl else baseUrl) ++ "/contents/".

(** A path without backslash. *)
Definition no_backslash (path : string) : bool :=
  forallb (λ c, negb (Ascii.eqb c "\")) (list_ascii_of_string path).

(** Code of the build that leaves the module variable [nodeModulesPath]
    alone. *)
Definition keeps_workspace {FS A} (m : Eff (SceneBuild.BuildState FS) A) : Prop :=
  ∀ st c st', m st = (c, st') →
    SceneBuild.nodeModulesPath FS st' = SceneBuild.nodeModulesPath FS st.

(** The entries appended by a commit that starts when [n] readings have
    been taken, and the scene that it leaves in the store. *)
Definition user_entry (clock : nat → Z) (random36 : nat → string) (n : nat)
    (prompt : string) (before : SceneFiles) : ConversationMessage :=
  {| msg_id := "msg_" ++ pretty (clock n + 0)%Z ++ "_" ++ random36 (1 + n);
     role := user; content := prompt;
     timestamp := clock (4 + n); filesSnapshot := before |}.

Definition assistant_entry (clock : nat → Z) (random36 : nat → string) (n : nat)
    (text : string) (merged : SceneFiles) : ConversationMessage :=
  {| msg_id := "msg_" ++ pretty (clock (2 + n)%nat + 1)%Z ++ "_" ++ random36 (3 + n);
     role := assistant; content := text;
     timestamp := clock (6 + n); filesSnapshot := merged |}.

Definition committed_scene (clock : nat → Z) (random36 : nat → string) (n : nat)
    (prompt text : string) (merged : SceneFiles) (b : option SceneFiles)
    (sc : Scene) : Scene :=
  {| scene_id := scene_id sc; scene_name := scene_name sc;
     files := merged; builtFiles := b;
     conversation :=
       conversation sc ++ [user_entry clock random36 n prompt (files sc);
                           assistant_entry clock random36 n text merged];
     export := export sc; snapshotExports := snapshotExports sc;
     createdAt := createdAt sc; updatedAt := clock (8 + n) |}.

Definition committed_world (sceneId : string) (sc' : Scene) (w : World) : World :=
  {| scenes := <[sceneId := sc']> (scenes w); reads := 9 + reads w |}.

(** Stand-ins for the two built-ins, for the concrete inputs below, which
    are strings of ASCII characters: the lower-casing of the letters A to Z,
    and the removal of the characters TAB, LF, VT, FF, CR and SP at both
    ends. On ASCII strings they agree with [toLowerCase] and [trim]. *)
Definition lower_ascii (c : ascii) : ascii :=
  let n := nat_of_ascii c in
  if (Nat.leb 65 n && Nat.leb n 90)%bool then ascii_of_nat (n + 32) else c.

Definition ascii_toLowerCase (s : string) : string := string_map lower_ascii s.

Definition is_white_space (c : ascii) : bool :=
  let n := nat_of_ascii c in
  (Nat.leb 9 n && Nat.leb n 13 || Nat.eqb n 32)%bool.

Fixpoint trimStart (s : string) : string :=
  match s with
  | String c rest => if is_white_space c then trimStart rest else s
  | EmptyString => EmptyString
  end.

Definition string_rev (s : string) : string :=
  string_of_list_ascii (List.rev (list_ascii_of_string s)).

Definition ascii_trim (s : string) : string :=
  string_rev (trimStart (string_rev (trimStart s))).

(** Stand-ins for the external libraries: a parser that accepts the texts
    written between braces, a serializer that prints every field of the
    manifest, and a hash without collisions (it tags the bytes). *)
Definition toy_JSON_parse (text : string) : string + string :=
  match text with
  | String c _ => if Ascii.eqb c "{" then inr text else inl "Unexpected token"
  | EmptyString => inl "Unexpected end of JSON input"
  end.

Definition toy_stringify_mapping (m : SceneExport.ContentMapping) : string :=
  "{file:" ++ SceneExport.file m ++ ",hash:" ++ SceneExport.hash m ++ "}".

Definition toy_JSON_stringify (e : SceneExport.Entity string) : string :=
  "{content:[" ++ String.concat "," (toy_stringify_mapping <$> SceneExport.entity_content e)
  ++ "],pointers:[],timestamp:" ++ pretty (SceneExport.entity_timestamp e)
  ++ ",type:scene,metadata:" ++ SceneExport.metadata e ++ ",version:"
  ++ SceneExport.version e ++ "}".

Definition toy_hashV1 (bytes : string) : string := "bafkrei-" ++ bytes.

(** Stand-ins for the random source, the collaborator and the builds of
    one request: a collaborator that rewrites one file at every attempt, a
    pipeline whose third build succeeds and one whose builds all fail. *)
Definition sample_random36 (n : nat) : string := "r4nd0m" ++ pretty n.

Definition toy_modification (k : nat) : AiHandler.Modification :=
  {| AiHandler.modified_files :=
       <["/src/index.ts" := "export function main() { cube" ++ pretty k ++ "() }"]> ∅;
     AiHandler.explanation := "Added a cube" |}.

Definition toy_collaborator (k : nat) (prompt : string) (current : SceneFiles)
    (history : list ConversationMessage) : Completion AiHandler.Modification :=
  Return (toy_modification k).

Definition compiler_error : SceneBuild.BuildResult :=
  {| SceneBuild.success := false; SceneBuild.result_builtFiles := ∅;
     SceneBuild.stdout := ""; SceneBuild.stderr := "TS2304: Cannot find name." |}.

Definition compiled : SceneBuild.BuildResult :=
  {| SceneBuild.success := true; SceneBuild.result_builtFiles := compiled_files;
     SceneBuild.stdout := "Build completed successfully"; SceneBuild.stderr := "" |}.

Definition third_build_succeeds (k : nat) (sceneId : string) (merged : SceneFiles)
    : Completion SceneBuild.BuildResult :=
  Return (if Nat.ltb k 2 then compiler_error else compiled).

Definition every_build_fails (k : nat) (sceneId : string) (merged : SceneFiles)
    : Completion SceneBuild.BuildResult :=
  Return compiler_error.

(** Stand-ins for the environment of a build: a file system that counts
    the calls made to it, with a [mkdtemp] that works and one that is
    refused. *)
Definition toy_path_join (parts : list string) : string := String.concat "/" parts.

Definition toy_call {A} (a : A) : Eff nat A := λ calls, (Return a, S calls).

Definition toy_mkdtemp (prefix : string) : Eff nat string :=
  toy_call (prefix ++ "Xa81Qz").

Definition permission_denied : JsError :=
  mkError "Error" "EACCES: permission denied, mkdtemp" (Some "EACCES").

Definition refused_mkdtemp (prefix : string) : Eff nat string :=
  λ calls, (Throw permission_denied, calls).

(** A [mkdtemp] that throws an error whose message is empty. *)
Definition aborted_mkdtemp (prefix : string) : Eff nat string :=
  λ calls, (Throw (mkError "AbortError" "" None), calls).

Definition toy_buildScene (mkdtemp : string → Eff nat string)
    : string → SceneFiles → Eff (SceneBuild.BuildState nat) SceneBuild.BuildResult :=
  SceneBuild.buildScene nat unit string "/tmp" toy_path_join (λ p, p) (λ p, "")
    ascii_toLowerCase mkdtemp (λ _, toy_call tt) (λ _ _, toy_call tt) (λ _ _, toy_call tt)
    (λ _, toy_call "function main(){}") (λ _, toy_call tt) (toy_call tt)
    (λ _ _ _, toy_call tt) toy_JSON_parse.

Definition toy_export : Z → string → SceneFiles → string → Completion ExportedScene :=
  SceneExport.exportSceneInMemory string toy_hashV1 toy_JSON_parse toy_JSON_stringify
      ascii_toLowerCase.

(** A file set whose descriptor is present and empty. *)
Definition empty_descriptor_files : SceneFiles :=
  <["scene.json" := ""]> (<["/src/index.ts" := "export function main() {}"]> ∅).

(** Two files with the same bytes. *)
Definition twin_files : SceneFiles :=
  <["scene.json" := "{}"]> (<["/Models/Tree.glb" := "glTF"]> (<["models\copy.glb" := "glTF"]> ∅)).

(** Two files with the same bytes whose paths differ in case, separator
    and leading slash only. *)
Definition clash_files : SceneFiles :=
  <["scene.json" := "{}"]> (<["/Models/Tree.glb" := "glTF"]> (<["models\tree.glb" := "glTF"]> ∅)).

(** ** More concrete inputs *)

Definition third_message : ConversationMessage :=
  {| msg_id := "msg_3_ccc"; role := user; content := "undo the cube";
     timestamp := 3; filesSnapshot := template_files |}.

(** A scene that was never built, and builds for it: one that reports a
    compiler error, one that throws, and one whose output carries an empty
    descriptor. *)
Definition unbuilt_scene : Scene :=
  {| scene_id := "scene_2"; scene_name := "Draft"; files := template_files;
     builtFiles := None; conversation := [first_message];
     export := None; snapshotExports := ∅; createdAt := 0; updatedAt := 1 |}.

Definition unbuilt_world : World :=
  {| scenes := <["scene_2" := unbuilt_scene]> ∅; reads := 0 |}.

Definition failing_build (sceneId : string) (source : SceneFiles)
    : Completion SceneBuild.BuildResult := Return compiler_error.

Definition out_of_memory : JsError := new_Error "spawn ENOMEM".

Definition throwing_build (sceneId : string) (source : SceneFiles)
    : Completion SceneBuild.BuildResult := Throw out_of_memory.

Definition empty_descriptor_output : SceneBuild.BuildResult :=
  {| SceneBuild.success := true;
     SceneBuild.result_builtFiles :=
       <["bin/index.js" := "function main(){}"]> (<["scene.json" := ""]> ∅);
     SceneBuild.stdout := "Build completed successfully"; SceneBuild.stderr := "" |}.

Definition empty_descriptor_build (sceneId : string) (source : SceneFiles)
    : Completion SceneBuild.BuildResult := Return empty_descriptor_output.

Definition working_build (sceneId : string) (source : SceneFiles)
    : Completion SceneBuild.BuildResult := Return compiled.

(** The response of an [/about] endpoint that serves the bundle [e] with
    the given cache policy. *)
Definition about_reply (cache : string) (e : ExportedScene) : Handlers.HttpResponse :=
  {| Handlers.http_status := 200;
     Handlers.http_headers :=
       [("Content-Type", "application/json"); ("Cache-Control", cache)];
     Handlers.http_body := Handlers.AboutPayload (about e) |}.

(** A scene with an asset and a note beside its source, a toy
    [path.extname] (the suffix from the last dot on), an [rm] that fails and
    a [symlink] that finds the link in place or the disk full. *)
Definition asset_files : SceneFiles :=
  <["scene.json" := "{}"]>
    (<["/src/index.ts" := "export function main() {}"]>
       (<["/Models/Tree.GLB" := "glTF"]> (<["README.md" := "notes"]> ∅))).

Fixpoint toy_extname (path : string) : string :=
  match path with
  | EmptyString => EmptyString
  | String c rest =>
      match toy_extname rest with
      | EmptyString => if Ascii.eqb c "." then path else EmptyString
      | ext => ext
      end
  end.

Definition failing_rm (dir : string) : Eff nat unit :=
  λ calls, (Throw permission_denied, S calls).

Definition link_exists : JsError :=
  mkError "Error" "EEXIST: file already exists, symlink" (Some "EEXIST").

Definition disk_full : JsError :=
  mkError "Error" "ENOSPC: no space left on device, symlink" (Some "ENOSPC").

Definition toy_build (files : SceneFiles)
    : Eff (SceneBuild.BuildState nat) SceneBuild.BuildResult :=
  SceneBuild.buildScene nat unit string "/tmp" toy_path_join (λ p, p) toy_extname
    ascii_toLowerCase toy_mkdtemp (λ _, toy_call tt) (λ _ _, toy_call tt) (λ _ _, toy_call tt)
    (λ _, toy_call "function main(){}") (λ _, toy_call tt) (toy_call tt)
    (λ _ _ _, toy_call tt) toy_JSON_parse "scene_1" files.

Definition toy_workspace : SceneBuild.BuildState nat :=
  {| SceneBuild.nodeModulesPath := Some "/home/.dcl-scene-lab/build-workspace/node_modules";
     SceneBuild.tempDir := None; SceneBuild.fs := 0 |}.

(** A workspace whose [node_modules] directory is missing until the
    third call into the file system, and an installation that fails. *)
Definition no_such_directory : JsError :=
  mkError "Error" "ENOENT: no such file or directory, access" (Some "ENOENT").

Definition install_failed : JsError := new_Error "Command failed: npm install".

Definition access_after_install (dir : string) : Eff nat unit :=
  λ calls, if Nat.ltb calls 3 then (Throw no_such_directory, S calls)
           else (Return tt, S calls).

Definition toy_initialize
    (access : string → Eff nat unit) (install : string → Eff nat (string * string))
    : Eff (BuildWorkspace.ModuleState nat) string :=
  BuildWorkspace.initializeBuildWorkspace nat "/home" toy_path_join "{}"
    (λ _, toy_call tt) (λ _ _, toy_call tt) access install.

Definition fresh_module : BuildWorkspace.ModuleState nat :=
  {| BuildWorkspace.workspaceDir := None;
     BuildWorkspace.build_state :=
       {| SceneBuild.nodeModulesPath := None; SceneBuild.tempDir := None;
          SceneBuild.fs := 0 |} |}.

Definition ready_module (calls : nat) : BuildWorkspace.ModuleState nat :=
  {| BuildWorkspace.workspaceDir := Some "/home/.dcl-scene-lab/build-workspace";
     BuildWorkspace.build_state :=
       {| SceneBuild.nodeModulesPath :=
            Some "/home/.dcl-scene-lab/build-workspace/node_modules";
          SceneBuild.tempDir := None; SceneBuild.fs := calls |} |}.

(** Collaborators and builds for the requests of the AI handler: a build
    that works, one that works at the second attempt, one that runs out of
    memory at the second attempt; a collaborator that changes another file
    in its first answer, one that is down, and one that is down when asked
    again. *)
Definition always_compiles (k : nat) (sceneId : string) (merged : SceneFiles)
    : Completion SceneBuild.BuildResult :=
  Return compiled.

Definition second_build_succeeds (k : nat) (sceneId : string) (merged : SceneFiles)
    : Completion SceneBuild.BuildResult :=
  Return (if Nat.ltb k 1 then compiler_error else compiled).

Definition build_crashes (k : nat) (sceneId : string) (merged : SceneFiles)
    : Completion SceneBuild.BuildResult :=
  Throw out_of_memory.

Definition second_build_crashes (k : nat) (sceneId : string) (merged : SceneFiles)
    : Completion SceneBuild.BuildResult :=
  if Nat.ltb k 1 then Return compiler_error else Throw out_of_memory.

Definition helper_modification : AiHandler.Modification :=
  {| AiHandler.modified_files := <["/src/helper.ts" := "export const size = 1"]> ∅;
     AiHandler.explanation := "Added a helper" |}.

Definition fickle_collaborator (k : nat) (prompt : string) (current : SceneFiles)
    (history : list ConversationMessage) : Completion AiHandler.Modification :=
  Return (if Nat.ltb k 1 then helper_modification else toy_modification k).

Definition collaborator_down (k : nat) (prompt : string) (current : SceneFiles)
    (history : list ConversationMessage) : Completion AiHandler.Modification :=
  Throw out_of_memory.

Definition collaborator_down_on_retry (k : nat) (prompt : string) (current : SceneFiles)
    (history : list ConversationMessage) : Completion AiHandler.Modification :=
  if Nat.ltb k 1 then Return (toy_modification k) else Throw out_of_memory.

(** Code of the build that changes nothing but the file system: the module
    variable [nodeModulesPath] and the local [tempDir] are as before. *)
Definition keeps_variables {FS A} (m : Eff (SceneBuild.BuildState FS) A) : Prop :=
  ∀ st c st', m st = (c, st') →
    SceneBuild.nodeModulesPath FS st' = SceneBuild.nodeModulesPath FS st ∧
    SceneBuild.tempDir FS st' = SceneBuild.tempDir FS st.

(** The lower-cased extension that [buildScene] looks at. *)
Definition lower_ext (toLowerCase path_extname : string → string) (path : string)
    : string :=
  toLowerCase (path_extname path).

(** ** The scene store *)

Section StorageFacts.
Import SceneStorage.

Variable clock : nat → Z.

Implicit Types (w : World) (sc : Scene) (sceneId messageId : string).

Lemma getScene_stored sceneId sc w :
  getScene sceneId (stored sceneId sc w) = (Return (Some sc), stored sceneId sc w).
Proof.
  unfold getScene, scenes_get, stored; simpl.
  by rewrite lookup_insert_eq.
Qed.

Lemma stored_other sceneId other sc w :
  other ≠ sceneId → scenes (stored sceneId sc w) !! other = scenes w !! other.
Proof. intros Hne. unfold stored; simpl. by rewrite lookup_insert_ne. Qed.

Lemma find_message_none messageId (conv : list ConversationMessage) :
  (∀ e, e ∈ conv → msg_id e ≠ messageId) → find_message messageId conv = None.
Proof.
  unfold find_message. induction conv as [|m conv IH]; intros Hall; [done|].
  simpl. rewrite bool_decide_eq_false_2.
  - apply IH. intros e He. apply Hall. by right.
  - apply Hall. by left.
Qed.

Lemma find_message_unique (conv : list ConversationMessage) e :
  NoDup (msg_id <$> conv) → e ∈ conv → find_message (msg_id e) conv = Some e.
Proof.
  unfold find_message. induction conv as [|m conv IH]; intros Hnd He.
  - by apply elem_of_nil in He.
  - rewrite fmap_cons in Hnd. apply NoDup_cons in Hnd as [Hm Hnd].
    simpl. apply elem_of_cons in He as [->|He].
    + by rewrite bool_decide_eq_true_2.
    + rewrite bool_decide_eq_false_2; [by apply IH|].
      intros Heq. apply Hm. rewrite Heq. by apply list_elem_of_fmap_2.
Qed.

(** C1 (as amended). For an existing scene, [updateScene] stores the given
    file set as it is (nothing of the old one survives) and a following
    [getScene] returns it; [builtFiles], like every field but [files] and
    [updatedAt], is left as it was, and the other scenes are not touched.
    For an absent id it throws "Scene <id> not found" and the world is
    unchanged. *)
Theorem updateScene_replaces_files sceneId (F : SceneFiles) w :
  (∀ sc, scenes w !! sceneId = Some sc →
     let sc' := set_updatedAt (clock (reads w)) (set_files F sc) in
     updateScene clock sceneId F w = (Return sc', stored sceneId sc' w) ∧
     getScene sceneId (stored sceneId sc' w) = (Return (Some sc'), stored sceneId sc' w) ∧
     files sc' = F ∧
     builtFiles sc' = builtFiles sc ∧
     conversation sc' = conversation sc ∧
     export sc' = export sc ∧
     (∀ other, other ≠ sceneId →
        scenes (stored sceneId sc' w) !! other = scenes w !! other)) ∧
  (scenes w !! sceneId = None →
     updateScene clock sceneId F w = (Throw (SceneNotFound sceneId), w)).
Proof.
  split.
  - intros sc Hsc sc'. repeat split.
    + unfold updateScene, m_bind, scenes_get. by rewrite Hsc.
    + apply getScene_stored.
    + intros other Hne. by apply stored_other.
  - intros Hnone. unfold updateScene, m_bind, scenes_get. by rewrite Hnone.
Qed.

(** C2 (as amended). When [find] meets an entry [e] with the given id (the
    first one carrying it; the entry itself when ids are unique),
    [revertToSnapshot] sets [files] to [e]'s snapshot and [updatedAt] to
    the clock reading, and leaves the conversation, [builtFiles] and the
    live [export] as they were. When no entry has the id it throws
    "Message <id> not found in scene <scene>" and the world is unchanged. *)
Theorem revertToSnapshot_restores_files sceneId messageId w sc :
  scenes w !! sceneId = Some sc →
  (∀ e, find_message messageId (conversation sc) = Some e →
     let sc' := set_updatedAt (clock (reads w)) (set_files (filesSnapshot e) sc) in
     revertToSnapshot clock sceneId messageId w = (Return sc', stored sceneId sc' w) ∧
     getScene sceneId (stored sceneId sc' w) = (Return (Some sc'), stored sceneId sc' w) ∧
     files sc' = filesSnapshot e ∧
     updatedAt sc' = clock (reads w) ∧
     conversation sc' = conversation sc ∧
     builtFiles sc' = builtFiles sc ∧
     export sc' = export sc) ∧
  (∀ e, NoDup (msg_id <$> conversation sc) → e ∈ conversation sc →
     find_message (msg_id e) (conversation sc) = Some e) ∧
  ((∀ e, e ∈ conversation sc → msg_id e ≠ messageId) →
     revertToSnapshot clock sceneId messageId w
       = (Throw (MessageNotFound messageId sceneId), w)).
Proof.
  intros Hsc. split; [|split].
  - intros e He sc'. repeat split.
    + unfold revertToSnapshot, m_bind, scenes_get. by rewrite Hsc, He.
    + apply getScene_stored.
  - intros e Hnd He. by apply find_message_unique.
  - intros Hall. unfold revertToSnapshot, m_bind, scenes_get.
    by rewrite Hsc, (find_message_none _ _ Hall).
Qed.

(** C7. For an existing scene, [resetConversation] empties the
    conversation and leaves [files], [builtFiles] and [export] (and the
    snapshot exports) as they were; after it, [getMessageSnapshot] throws
    "Message <id> not found in scene <scene>" for every message id. *)
Theorem resetConversation_clears_history sceneId w sc :
  scenes w !! sceneId = Some sc →
  let sc' := set_updatedAt (clock (reads w)) (set_conversation [] sc) in
  resetConversation clock sceneId w = (Return sc', stored sceneId sc' w) ∧
  getScene sceneId (stored sceneId sc' w) = (Return (Some sc'), stored sceneId sc' w) ∧
  conversation sc' = [] ∧
  files sc' = files sc ∧
  builtFiles sc' = builtFiles sc ∧
  export sc' = export sc ∧
  snapshotExports sc' = snapshotExports sc ∧
  (∀ messageId,
     getMessageSnapshot sceneId messageId (stored sceneId sc' w)
       = (Throw (MessageNotFound messageId sceneId), stored sceneId sc' w)).
Proof.
  intros Hsc sc'. repeat split.
  - unfold resetConversation, m_bind, scenes_get. by rewrite Hsc.
  - apply getScene_stored.
  - intros messageId. unfold getMessageSnapshot, m_bind, scenes_get, stored; simpl.
    by rewrite lookup_insert_eq.
Qed.

(** C10. [deleteScene] returns normally for every id and world; the
    scenes map afterwards is the old one without that id, so every other
    scene is kept, deleting an absent id leaves the world as it is, and a
    second deletion of the same id changes nothing more. *)
Theorem deleteScene_idempotent sceneId w :
  let w' := {| scenes := delete sceneId (scenes w); reads := reads w |} in
  deleteScene sceneId w = (Return tt, w') ∧
  deleteScene sceneId w' = (Return tt, w') ∧
  scenes w' !! sceneId = None ∧
  (∀ other, other ≠ sceneId → scenes w' !! other = scenes w !! other) ∧
  (scenes w !! sceneId = None → w' = w).
Proof.
  intros w'. repeat split.
  - unfold deleteScene, scenes_delete, w'; simpl. by rewrite delete_delete_eq.
  - unfold w'; simpl. apply lookup_delete_eq.
  - intros other Hne. unfold w'; simpl. by apply lookup_delete_ne.
  - intros Hnone. unfold w'. destruct w as [sm r]; simpl in *.
    by rewrite delete_id.
Qed.

End StorageFacts.

(** ** The export builder *)

Lemma backslash_to_slash_normal c :
  negb (Ascii.eqb (SceneExport.backslash_to_slash c) "\") = true.
Proof. by destruct c as [[] [] [] [] [] [] [] []]. Qed.

Lemma strip_leading_slashes_chars (P : ascii → bool) s :
  forallb P (list_ascii_of_string s) = true →
  forallb P (list_ascii_of_string (SceneExport.strip_leading_slashes s)) = true.
Proof.
  induction s as [|c s IH]; [done|]. simpl. intros [Hc Hs]%andb_prop.
  destruct (Ascii.eqb c "/"); [by apply IH|]. simpl. by rewrite Hc, Hs.
Qed.

Lemma strip_leading_slashes_head s :
  startsWith_slash (SceneExport.strip_leading_slashes s) = false.
Proof.
  induction s as [|c s IH]; [done|]. simpl.
  destruct (Ascii.eqb c "/") eqn:Hc; [done|]. by simpl.
Qed.

Lemma forallb_map_compose {A B} (P : B → bool) (f : A → B) (l : list A) :
  forallb P (List.map f l) = forallb (λ x, P (f x)) l.
Proof. induction l as [|x l IH]; [done|]. simpl. by rewrite IH. Qed.

(** The path that [normalizeFilePath] hands to [toLowerCase] has no
    backslash. *)
Lemma slashed_no_backslash filepath :
  no_backslash (SceneExport.strip_leading_slashes
                  (string_map SceneExport.backslash_to_slash filepath)) = true.
Proof.
  unfold no_backslash. apply strip_leading_slashes_chars. unfold string_map.
  rewrite list_ascii_of_string_of_list_ascii, forallb_map_compose.
  apply forallb_forall. intros c _. apply backslash_to_slash_normal.
Qed.

(** A set made from a list has at most as many elements as the list. *)
Lemma size_list_to_set_le (l : list string) :
  (size (list_to_set l : gset string) ≤ List.length l)%nat.
Proof.
  induction l as [|x l IH]; [by rewrite list_to_set_nil, size_empty|].
  rewrite list_to_set_cons, size_union_alt, size_singleton. simpl.
  pose proof (subseteq_size (list_to_set l ∖ {[x]}) (list_to_set l : gset string)
                ltac:(apply subseteq_difference_l; reflexivity)).
  lia.
Qed.

Section ExportFacts.
Import SceneExport.

Variable JSON : Type.
Variable hashV1 : string → string.
Variable JSON_parse : string → string + JSON.
Variable JSON_stringify : Entity JSON → string.
Variable toLowerCase : string → string.

Local Abbreviation parse_scene_json := (parse_scene_json JSON JSON_parse).
Local Abbreviation exportSceneInMemory :=
  (exportSceneInMemory JSON hashV1 JSON_parse JSON_stringify toLowerCase).

Lemma foldl_hash_file (l : list (string * string)) cm (hf : HashedFiles) :
  foldl (hash_file hashV1 toLowerCase) (cm, hf) l
  = ((cm ++ (mapping_of toLowerCase hashV1 <$> l))%list, foldl (store_file hashV1) hf l).
Proof.
  revert cm hf. induction l as [|[p c] l IH]; intros cm hf; simpl.
  - by rewrite app_nil_r.
  - rewrite IH. by rewrite <- app_assoc.
Qed.

Lemma hash_files_eq (files : SceneFiles) :
  hash_files hashV1 toLowerCase files
  = (mapping_of toLowerCase hashV1 <$> Object_entries files,
     foldl (store_file hashV1) ∅ (Object_entries files)).
Proof. unfold hash_files. by rewrite foldl_hash_file. Qed.

Lemma dom_store_files (l : list (string * string)) (hf : HashedFiles) :
  dom (foldl (store_file hashV1) hf l)
  = dom hf ∪ list_to_set ((λ e, hashV1 e.2) <$> l).
Proof.
  revert hf. induction l as [|e l IH]; intros hf; simpl.
  - by rewrite (right_id_L ∅ (∪)).
  - rewrite IH. unfold store_file. rewrite dom_insert_L.
    by rewrite (comm_L (∪) _ (dom hf)), <- (assoc_L (∪)).
Qed.

Lemma lookup_store_files (l : list (string * string)) (hf : HashedFiles) c :
  (∀ s, hashV1 s = hashV1 c → s = c) →
  hf !! hashV1 c = Some c ∨ (∃ p, (p, c) ∈ l) →
  foldl (store_file hashV1) hf l !! hashV1 c = Some c.
Proof.
  intros Hinj. revert hf. induction l as [|[q d] l IH]; intros hf Hc; simpl.
  - destruct Hc as [Hc|[p Hp]]; [done|]. by apply elem_of_nil in Hp.
  - apply IH. unfold store_file; simpl.
    destruct (decide (hashV1 d = hashV1 c)) as [Heq|Hne].
    + left. rewrite Heq, (Hinj _ Heq). apply lookup_insert_eq.
    + destruct Hc as [Hc|[p Hp]].
      * left. by rewrite lookup_insert_ne.
      * apply elem_of_cons in Hp as [Hp|Hp]; [congruence|]. right. by exists p.
Qed.

Lemma exportSceneInMemory_eq now sceneId (files : SceneFiles) baseUrl :
  exportSceneInMemory now sceneId files baseUrl
  = match parse_scene_json files with
    | Throw error => Throw error
    | Return sceneMetadata =>
        let entity := make_entity JSON now (hash_files hashV1 toLowerCase files).1 sceneMetadata in
        let entityId := hashV1 (JSON_stringify entity) in
        Return {| entityId := entityId;
                  hashedFiles := <[entityId := JSON_stringify entity]>
                                   (hash_files hashV1 toLowerCase files).2;
                  about := createAboutResponse sceneId entityId baseUrl |}
    end.
Proof.
  unfold SceneExport.exportSceneInMemory.
  by destruct (hash_files hashV1 toLowerCase files) as [cm hf].
Qed.

Lemma string_length_app (a b : string) :
  String.length (a ++ b) = String.length a + String.length b.
Proof. induction a as [|x a IH]; [done|]. simpl. by rewrite IH. Qed.

Lemma string_app_inv_tail (a b r : string) : a ++ r = b ++ r → a = b.
Proof.
  intros Heq.
  assert (String.length a = String.length b) as Hlen.
  { apply (f_equal String.length) in Heq.
    rewrite !string_length_app in Heq. lia. }
  revert b Heq Hlen. induction a as [|x a IH]; intros [|y b] Heq Hlen; try done.
  simpl in *. injection Heq as -> Heq. f_equal. apply IH; [done|lia].
Qed.

(** The pointers of two exports agree exactly when their manifests have
    the same hash. *)
Lemma pointer_inj (id1 id2 url : string) :
  "urn:decentraland:entity:" ++ id1 ++ "?=&baseUrl=" ++ url
  = "urn:decentraland:entity:" ++ id2 ++ "?=&baseUrl=" ++ url → id1 = id2.
Proof.
  intros Heq. apply (inj (String.app _)) in Heq.
  by apply string_app_inv_tail in Heq.
Qed.

(** C3. For a file set whose descriptor parses, both exports return.
    They write the same content mappings and store the files under the
    same content hashes; each bundle has one more key, its [entityId], the
    hash of the manifest with the timestamp read by that export; each
    pointer embeds that [entityId] before the same content-fetch prefix.
    So, the timestamp of the manifest apart, the key sets and the pointers
    are identical: they are equal when the two manifests hash alike, as
    they do when both exports read the same timestamp, and the pointers
    differ exactly when the two [entityId]s differ. *)
Theorem export_twice_same_content now1 now2 sceneId (files : SceneFiles)
    baseUrl sceneMetadata :
  parse_scene_json files = Return sceneMetadata →
  let contentMappings := mapping_of toLowerCase hashV1 <$> Object_entries files in
  let contentKeys : gset string :=
    list_to_set ((λ e, hashV1 e.2) <$> Object_entries files) in
  let manifest now := JSON_stringify (make_entity JSON now contentMappings sceneMetadata) in
  let pointer id := "urn:decentraland:entity:" ++ id ++ "?=&baseUrl=" ++ contentFilesUrl baseUrl in
  ∃ e1 e2,
    exportSceneInMemory now1 sceneId files baseUrl = Return e1 ∧
    exportSceneInMemory now2 sceneId files baseUrl = Return e2 ∧
    entityId e1 = hashV1 (manifest now1) ∧
    entityId e2 = hashV1 (manifest now2) ∧
    dom (hashedFiles e1) = {[entityId e1]} ∪ contentKeys ∧
    dom (hashedFiles e2) = {[entityId e2]} ∪ contentKeys ∧
    scenesUrn (configurations (about e1)) = [pointer (entityId e1)] ∧
    scenesUrn (configurations (about e2)) = [pointer (entityId e2)] ∧
    (now1 = now2 → e1 = e2) ∧
    (entityId e1 = entityId e2 →
       dom (hashedFiles e1) = dom (hashedFiles e2) ∧
       scenesUrn (configurations (about e1)) = scenesUrn (configurations (about e2))) ∧
    (entityId e1 ≠ entityId e2 →
       scenesUrn (configurations (about e1)) ≠ scenesUrn (configurations (about e2))).
Proof.
  intros Hparse contentMappings contentKeys manifest pointer.
  rewrite !exportSceneInMemory_eq, Hparse, hash_files_eq. simpl.
  eexists _, _. split; [reflexivity|]. split; [reflexivity|]. simpl.
  rewrite !dom_insert_L, !dom_store_files, dom_empty_L, !(left_id_L ∅ (∪)).
  do 6 (split; [done|]). split; [|split].
  - by intros ->.
  - by intros ->.
  - intros Hne Heq. apply Hne.
    exact (pointer_inj _ _ _ (f_equal (λ l, default "" (head l)) Heq)).
Qed.

(** Two files with the same hash share one entry of the bundle. *)
Lemma store_files_shared (l l' : list (string * string)) e1 e2 :
  l ≡ₚ e1 :: e2 :: l' → hashV1 e1.2 = hashV1 e2.2 →
  (size (foldl (store_file hashV1) ∅ l) ≤ S (List.length l'))%nat.
Proof.
  intros Hperm Hhash.
  rewrite <- (size_dom (D := gset string)), dom_store_files, dom_empty_L, (left_id_L ∅ (∪)).
  rewrite Hperm, !fmap_cons, !list_to_set_cons, Hhash, (assoc_L (∪)), (idemp_L (∪)).
  rewrite size_union_alt, size_singleton.
  pose proof (subseteq_size
                (list_to_set ((λ e, hashV1 e.2) <$> l') ∖ {[hashV1 e2.2]})
                (list_to_set ((λ e, hashV1 e.2) <$> l') : gset string)
                ltac:(apply subseteq_difference_l; reflexivity)) as Hsub.
  pose proof (size_list_to_set_le ((λ e, hashV1 e.2) <$> l')) as Hle.
  rewrite length_fmap in Hle. lia.
Qed.

(** C6 (as amended). When two different paths of an exported file set
    hold the same bytes, both files get the same hash. The manifest, stored
    under [entityId], has one entry per file, and two entries at different
    positions carry that hash: one for each of the two paths, with the path
    turned into [toLowerCase] of the path with every backslash replaced by
    a slash and the leading slashes removed (a path without backslash and
    without leading slash). The two entries are equal as pairs exactly when
    the two normalized paths are equal. The bundle has that hash as a key
    and holds the two files in one entry: with the manifest it has at most
    as many entries as there are files; it holds the bytes under the hash
    unless other bytes hash alike. *)
Theorem identical_content_stored_once now sceneId (files : SceneFiles) baseUrl
    (p1 p2 c : string) sceneMetadata :
  files !! p1 = Some c → files !! p2 = Some c → p1 ≠ p2 →
  parse_scene_json files = Return sceneMetadata →
  let slashed p := strip_leading_slashes (string_map backslash_to_slash p) in
  let entry p := {| file := toLowerCase (slashed p); hash := hashV1 c |} in
  ∃ ex entity,
    exportSceneInMemory now sceneId files baseUrl = Return ex ∧
    entityId ex = hashV1 (JSON_stringify entity) ∧
    hashedFiles ex !! entityId ex = Some (JSON_stringify entity) ∧
    List.length (entity_content entity) = size files ∧
    (∃ i j, i ≠ j ∧
       entity_content entity !! i = Some (entry p1) ∧
       entity_content entity !! j = Some (entry p2)) ∧
    (entry p1 = entry p2 ↔ toLowerCase (slashed p1) = toLowerCase (slashed p2)) ∧
    no_backslash (slashed p1) = true ∧ startsWith_slash (slashed p1) = false ∧
    no_backslash (slashed p2) = true ∧ startsWith_slash (slashed p2) = false ∧
    hashV1 c ∈ dom (hashedFiles ex) ∧
    (size (hashedFiles ex) ≤ size files)%nat ∧
    ((∀ s, hashV1 s = hashV1 c → s = c) → hashedFiles ex !! hashV1 c = Some c).
Proof.
  intros H1 H2 Hne Hparse slashed entry.
  rewrite exportSceneInMemory_eq, Hparse, hash_files_eq. simpl.
  eexists _, (make_entity JSON now (mapping_of toLowerCase hashV1 <$> Object_entries files)
                sceneMetadata).
  split; [reflexivity|]. simpl.
  assert ((p1, c) ∈ Object_entries files) as Hin1 by by apply elem_of_map_to_list.
  assert ((p2, c) ∈ Object_entries files) as Hin2 by by apply elem_of_map_to_list.
  split; [done|]. split; [apply lookup_insert_eq|].
  split; [rewrite length_fmap; apply length_map_to_list|].
  split.
  { apply list_elem_of_lookup in Hin1 as [i Hi].
    apply list_elem_of_lookup in Hin2 as [j Hj].
    exists i, j. split; [congruence|].
    by rewrite !list_lookup_fmap, Hi, Hj. }
  split.
  { unfold entry. split; [by intros [= ->]|by intros ->]. }
  split; [apply slashed_no_backslash|]. split; [apply strip_leading_slashes_head|].
  split; [apply slashed_no_backslash|]. split; [apply strip_leading_slashes_head|].
  split.
  { rewrite dom_insert_L, dom_store_files.
    apply elem_of_union_r, elem_of_union_r, elem_of_list_to_set.
    by apply (list_elem_of_fmap_2 (λ e, hashV1 e.2) _ (p1, c)). }
  split.
  { assert (Object_entries files
            ≡ₚ (p1, c) :: (p2, c) :: map_to_list (delete p2 (delete p1 files))) as Hperm.
    { unfold Object_entries. rewrite <- (map_to_list_delete files p1 c H1).
      apply Permutation_skip.
      rewrite <- (map_to_list_delete (delete p1 files) p2 c); [done|].
      by rewrite lookup_delete_ne. }
    pose proof (store_files_shared _ _ _ _ Hperm eq_refl) as Hshared.
    rewrite length_map_to_list in Hshared.
    assert (size (delete p2 (delete p1 files)) = size files - 2)%nat as Hsize.
    { rewrite map_size_delete_Some by (exists c; by rewrite lookup_delete_ne).
      rewrite map_size_delete_Some by by exists c. lia. }
    assert (2 ≤ size files)%nat as Htwo.
    { apply Permutation_length in Hperm. unfold Object_entries in Hperm.
      rewrite length_map_to_list in Hperm. simpl in Hperm. lia. }
    rewrite map_size_insert.
    match goal with |- context [match ?o with _ => _ end] => destruct o end;
      unfold id; lia. }
  intros Hinj.
  destruct (decide (hashV1 (JSON_stringify
    (make_entity JSON now (mapping_of toLowerCase hashV1 <$> Object_entries files)
       sceneMetadata))
    = hashV1 c)) as [Heq|Hneq].
  - rewrite <- Heq at 1. rewrite lookup_insert_eq. f_equal. by apply Hinj.
  - rewrite lookup_insert_ne by done. apply lookup_store_files; [done|].
    right. by exists p1.
Qed.

(** C8 (as amended). The descriptor is the text under ["scene.json"] or,
    when that is absent or empty, the text under ["/scene.json"]. When
    that text is absent or empty, the export throws "Failed to parse
    scene.json: Error: scene.json not found in scene files"; when it is
    not parsable, the export throws the parser's error behind the same
    prefix. Both are plain [Error]s, told apart by their messages, and the
    export returns a bundle only when the text is non-empty and parses. *)
Theorem export_requires_descriptor now sceneId (files : SceneFiles) baseUrl :
  let descriptor := js_or (files !! "scene.json") (files !! "/scene.json") in
  let missing :=
    new_Error "Failed to parse scene.json: Error: scene.json not found in scene files" in
  let invalid msg :=
    new_Error ("Failed to parse scene.json: " ++ String_of_error (SyntaxError msg)) in
  (files !! "scene.json" = None → files !! "/scene.json" = None →
     exportSceneInMemory now sceneId files baseUrl = Throw missing) ∧
  (truthy descriptor = false →
     exportSceneInMemory now sceneId files baseUrl = Throw missing) ∧
  (∀ text msg, descriptor = Some text → text ≠ "" → JSON_parse text = inl msg →
     exportSceneInMemory now sceneId files baseUrl = Throw (invalid msg)) ∧
  (∀ msg, invalid msg ≠ missing) ∧
  (∀ ex, exportSceneInMemory now sceneId files baseUrl = Return ex →
     ∃ text value, descriptor = Some text ∧ text ≠ "" ∧ JSON_parse text = inr value).
Proof.
  intros descriptor missing invalid.
  assert (truthy descriptor = false →
          exportSceneInMemory now sceneId files baseUrl = Throw missing) as Hmissing.
  { intros Hfalsy. rewrite exportSceneInMemory_eq.
    unfold SceneExport.parse_scene_json, read_scene_json. fold descriptor.
    rewrite Hfalsy. by destruct descriptor. }
  split; [|split; [done|split; [|split]]].
  - intros Ha Hb. apply Hmissing. unfold descriptor. by rewrite Ha, Hb.
  - intros text msg Hd Hne Hp. rewrite exportSceneInMemory_eq.
    unfold SceneExport.parse_scene_json, read_scene_json. fold descriptor.
    rewrite Hd. simpl. rewrite bool_decide_eq_false_2 by done. simpl.
    by rewrite Hp.
  - intros msg. unfold invalid, missing, String_of_error, SyntaxError; simpl.
    case_bool_decide; intros [=].
  - intros ex. rewrite exportSceneInMemory_eq.
    unfold SceneExport.parse_scene_json, read_scene_json. fold descriptor.
    destruct descriptor as [text|]; [|done]. simpl.
    case_bool_decide as Hempty; simpl; [done|].
    destruct (JSON_parse text) as [msg|value] eqn:Hp; [done|].
    intros _. by exists text, value.
Qed.

End ExportFacts.

(** ** The build pipeline *)

Section BuildFacts.
Import SceneBuild.

Variable FS : Type.
Variable Components : Type.
Variable JSON : Type.
Variable os_tmpdir : string.
Variable path_join : list string → string.
Variable path_dirname : string → string.
Variable path_extname : string → string.
Variable toLowerCase : string → string.
Variable fs_mkdtemp : string → Eff FS string.
Variable fs_mkdir : string → Eff FS unit.
Variable fs_writeFile : string → string → Eff FS unit.
Variable fs_symlink : string → string → Eff FS unit.
Variable fs_readFile : string → Eff FS string.
Variable fs_rm : string → Eff FS unit.
Variable initComponents : Eff FS Components.
Variable sdkBuildScene : Components → string → JSON → Eff FS unit.
Variable JSON_parse : string → string + JSON.

Local Abbreviation State := (BuildState FS).
Local Abbreviation keeps_workspace := (@keeps_workspace FS).
Local Abbreviation write_files :=
  (write_files FS path_join path_dirname fs_mkdir fs_writeFile).
Local Abbreviation build_steps :=
  (build_steps FS Components JSON os_tmpdir path_join path_dirname path_extname toLowerCase
     fs_mkdtemp fs_mkdir fs_writeFile fs_symlink fs_readFile initComponents
     sdkBuildScene JSON_parse).
Local Abbreviation buildScene :=
  (buildScene FS Components JSON os_tmpdir path_join path_dirname path_extname toLowerCase
     fs_mkdtemp fs_mkdir fs_writeFile fs_symlink fs_readFile fs_rm initComponents
     sdkBuildScene JSON_parse).

Lemma keeps_fs_call {A} (m : Eff FS A) : keeps_workspace (fs_call FS m).
Proof.
  intros st c st'. unfold fs_call. destruct (m (fs FS st)) as [c0 fs'].
  by intros [= <- <-].
Qed.

Lemma keeps_bind {A B} (m : Eff State A) (k : A → Eff State B) :
  keeps_workspace m → (∀ a, keeps_workspace (k a)) → keeps_workspace (m_bind m k).
Proof.
  intros Hm Hk st c st'. unfold m_bind.
  destruct (m st) as [[a|e] st1] eqn:Hrun.
  - intros Hrun'. rewrite (Hk a _ _ _ Hrun'). by eapply Hm.
  - intros [= <- <-]. by eapply Hm.
Qed.

Lemma keeps_for_each {A} (l : list A) (f : A → Eff State unit) :
  (∀ x, keeps_workspace (f x)) → keeps_workspace (for_each l f).
Proof.
  intros Hf. induction l as [|x l IH]; simpl.
  - by intros st c st' [= <- <-].
  - apply keeps_bind; [apply Hf|]. intros _. apply IH.
Qed.

Lemma keeps_write_files dir (files : SceneFiles) :
  keeps_workspace (write_files dir files).
Proof.
  apply keeps_for_each. intros [filepath text].
  apply keeps_bind; [apply keeps_fs_call|]. intros _. apply keeps_fs_call.
Qed.

(** The [finally] block returns on every state. *)
Lemma cleanup_returns (st : State) :
  ∃ st', cleanup FS fs_rm st = (Return tt, st').
Proof.
  unfold cleanup. destruct (tempDir FS st) as [dir|]; [|by eexists].
  destruct (truthy (Some dir)); [|by eexists].
  unfold try_catch, fs_call, m_ret.
  destruct (fs_rm dir (fs FS st)) as [[[]|e] fs']; by eexists.
Qed.

(** The [try] block returns only the successful result. *)
Lemma build_steps_success sceneId (files : SceneFiles) (st st' : State) r :
  build_steps sceneId files st = (Return r, st') → success r = true.
Proof.
  unfold SceneBuild.build_steps, m_bind, try_catch, throw, m_ret.
  repeat (match goal with
          | |- context [match ?m ?s with _ => _ end] =>
              destruct (m s) as [[?|?] ?]
          | |- context [match js_or ?a ?b with _ => _ end] => destruct (js_or a b)
          | |- context [if ?b then _ else _] => destruct b
          | |- context [match JSON_parse ?t with _ => _ end] =>
              destruct (JSON_parse t)
          end; try (intros [= <- <-]; done); try done).
Qed.

(** Without an initialized workspace the [try] block throws. *)
Lemma build_steps_uninitialized sceneId (files : SceneFiles) (st : State) :
  nodeModulesPath FS st = None →
  ∃ error st', build_steps sceneId files st = (Throw error, st').
Proof.
  intros Hnone. unfold SceneBuild.build_steps, m_bind at 1.
  destruct (fs_call FS (fs_mkdtemp _) st) as [[dir|e] st1] eqn:Hmk; [|by eexists _, _].
  apply keeps_fs_call in Hmk. unfold m_bind at 1, assign_tempDir at 1. cbv beta.
  unfold m_bind at 1.
  match goal with
  | |- context [SceneBuild.write_files _ _ _ _ _ _ _ ?s] => set (st2 := s)
  end.
  destruct (write_files dir files st2) as [[[]|e] st3] eqn:Hwr; [|by eexists _, _].
  apply keeps_write_files in Hwr. subst st2. simpl in Hwr.
  unfold m_bind at 1, symlinkNodeModules, m_bind at 1, getNodeModulesPath.
  rewrite Hwr, Hmk, Hnone. by eexists _, _.
Qed.

(** [error.message || String(error)] is the message when there is one,
    and otherwise the name of the error. *)
Lemma build_failure_eq (error : JsError) :
  build_failure error
  = {| success := false; result_builtFiles := ∅; stdout := "";
       stderr := if bool_decide (err_message error = "") then err_name error
                 else err_message error |}.
Proof.
  unfold build_failure, diagnostic, String_of_error. f_equal.
  destruct (bool_decide_reflect (err_message error = "")) as [Hmsg|Hmsg]; [|done].
  destruct (bool_decide_reflect (err_name error = "")) as [Hname|Hname]; [|done].
  by rewrite Hmsg, Hname.
Qed.

(** C9. With an environment whose calls throw [Error] objects,
    [buildScene] returns a [BuildResult] from every state of the
    environment: the result of the [try] block when that block returns
    (then [success] is [true]), and otherwise the failure result made from
    the thrown error, with [success = false], no built files, an empty
    [stdout] and, in [stderr], the error's message, or the error's name
    when the message is empty. In particular a failing [mkdtemp] is
    returned as the failure result of its error, and an uninitialized
    [nodeModulesPath] as the failure result whose [stderr] is "Build
    workspace not initialized. Call initializeBuildWorkspace() first.". *)
Theorem buildScene_never_throws sceneId (files : SceneFiles) (st : State) :
  let started :=
    {| nodeModulesPath := nodeModulesPath FS st; tempDir := None; fs := fs FS st |} in
  let failure error :=
    {| success := false; result_builtFiles := ∅; stdout := "";
       stderr := if bool_decide (err_message error = "") then err_name error
                 else err_message error |} in
  let result :=
    match (build_steps sceneId files started).1 with
    | Return r => r
    | Throw error => failure error
    end in
  (∃ st', buildScene sceneId files st = (Return result, st')) ∧
  (success result = true ∨
   ∃ error, (build_steps sceneId files started).1 = Throw error ∧
     result = failure error) ∧
  (∀ error fs',
     fs_mkdtemp (path_join [os_tmpdir; "dcl-scene-" ++ sceneId ++ "-"]) (fs FS st)
       = (Throw error, fs') →
     result = failure error) ∧
  (nodeModulesPath FS st = None → success result = false) ∧
  (∀ dir fs1 st2,
     nodeModulesPath FS st = None →
     fs_mkdtemp (path_join [os_tmpdir; "dcl-scene-" ++ sceneId ++ "-"]) (fs FS st)
       = (Return dir, fs1) →
     write_files dir files
       {| nodeModulesPath := None; tempDir := Some dir; fs := fs1 |} = (Return tt, st2) →
     result
     = {| success := false; result_builtFiles := ∅; stdout := "";
          stderr := "Build workspace not initialized. Call initializeBuildWorkspace() first."
       |}).
Proof.
  intros started failure result. split; [|split; [|split; [|split]]].
  - unfold SceneBuild.buildScene, m_bind at 1, assign_tempDir. fold started.
    unfold try_finally, try_catch, result.
    destruct (build_steps sceneId files started) as [[r|error] st1]; simpl.
    + destruct (cleanup_returns st1) as [st' ->]. by eexists.
    + destruct (cleanup_returns st1) as [st' ->]. rewrite build_failure_eq. by eexists.
  - unfold result.
    destruct (build_steps sceneId files started) as [[r|error] st1] eqn:Hrun; simpl.
    + left. by eapply build_steps_success.
    + right. by exists error.
  - intros error fs' Hmk. unfold result, SceneBuild.build_steps, m_bind at 1, fs_call.
    simpl. by rewrite Hmk.
  - intros Hnone. unfold result.
    destruct (build_steps_uninitialized sceneId files started Hnone)
      as (error & st' & ->). done.
  - intros dir fs1 st2 Hnone Hmk Hwr.
    unfold result, SceneBuild.build_steps, m_bind at 1, fs_call. simpl.
    rewrite Hmk. unfold m_bind at 1, assign_tempDir at 1. cbv beta. simpl.
    unfold m_bind at 1. rewrite Hnone, Hwr.
    assert (nodeModulesPath FS st2 = None) as Hst2.
    { by apply keeps_write_files in Hwr. }
    unfold m_bind at 1, symlinkNodeModules, m_bind at 1, getNodeModulesPath.
    by rewrite Hst2.
Qed.

End BuildFacts.

(** ** The build-validate-retry handler *)

Section HandlerFacts.
Import SceneStorage SceneBuild AiHandler.
Local Open Scope nat_scope.

Variable trim : string → string.
Variable clock : nat → Z.
Variable random36 : nat → string.
Variable aiService :
  nat → string → SceneFiles → list ConversationMessage → Completion Modification.
Variable buildScene : nat → string → SceneFiles → Completion BuildResult.

Local Abbreviation commit := (commit clock random36).
Local Abbreviation retry_loop := (retry_loop clock random36 aiService buildScene).
Local Abbreviation prompt_missing := (prompt_missing trim).
Local Abbreviation aiPromptHandler :=
  (aiPromptHandler trim clock random36 aiService buildScene).
Local Abbreviation committed := (committed_scene clock random36).

Implicit Types (w : World) (sc : Scene) (sceneId prompt cp : string) (k fuel : nat).

Lemma addConversationMessage_stored sceneId message w sc :
  scenes w !! sceneId = Some sc →
  addConversationMessage clock sceneId message w
  = (let sc' :=
       {| scene_id := scene_id sc; scene_name := scene_name sc; files := files sc;
          builtFiles := builtFiles sc;
          conversation := conversation sc ++ [message];
          export := export sc; snapshotExports := snapshotExports sc;
          createdAt := createdAt sc; updatedAt := clock (reads w) |} in
     (Return sc', stored sceneId sc' w)).
Proof.
  intros Hsc. unfold addConversationMessage, m_bind, scenes_get. by rewrite Hsc.
Qed.

Lemma updateScene_stored sceneId (F : SceneFiles) w sc :
  scenes w !! sceneId = Some sc →
  updateScene clock sceneId F w
  = (let sc' :=
       {| scene_id := scene_id sc; scene_name := scene_name sc; files := F;
          builtFiles := builtFiles sc; conversation := conversation sc;
          export := export sc; snapshotExports := snapshotExports sc;
          createdAt := createdAt sc; updatedAt := clock (reads w) |} in
     (Return sc', stored sceneId sc' w)).
Proof.
  intros Hsc. unfold updateScene, m_bind, scenes_get. by rewrite Hsc.
Qed.

Lemma new_message_id_reads offset w :
  new_message_id clock random36 offset w
  = (Return ("msg_" ++ pretty (clock (reads w) + offset)%Z ++ "_" ++ random36 (S (reads w))),
     {| scenes := scenes w; reads := S (S (reads w)) |}).
Proof. reflexivity. Qed.

Ltac scene_fields :=
  cbn [scenes reads scene_id scene_name files builtFiles conversation export
       snapshotExports createdAt updatedAt].

Lemma commit_spec sceneId prompt sc merged text b w :
  scenes w !! sceneId = Some sc →
  let sc' := committed (reads w) prompt text merged b sc in
  commit sceneId prompt sc merged text b w
  = (Return sc', committed_world sceneId sc' w).
Proof.
  intros Hsc sc'. destruct w as [sm r]. cbn [scenes reads] in *.
  unfold AiHandler.commit.
  unfold m_bind at 1. rewrite new_message_id_reads.
  unfold m_bind at 1. rewrite new_message_id_reads. scene_fields.
  unfold m_bind at 1, Date_now, new_Date at 1. scene_fields.
  unfold m_bind at 1.
  rewrite (addConversationMessage_stored _ _ _ sc) by done.
  cbv zeta. unfold stored at 1. scene_fields.
  unfold m_bind at 1, new_Date at 1. scene_fields.
  unfold m_bind at 1.
  erewrite addConversationMessage_stored by apply lookup_insert_eq.
  cbv zeta. unfold stored at 1. scene_fields.
  unfold m_bind at 1.
  erewrite updateScene_stored by apply lookup_insert_eq.
  cbv zeta. unfold stored at 1, assign_builtFiles, set_builtFiles. scene_fields.
  rewrite !insert_insert_eq, <- app_assoc. reflexivity.
Qed.

(** One iteration of the loop, by the outcome of its two awaited calls. *)
Lemma iteration_collaborator_throws fuel sceneId prompt sc k cp w error :
  k ≤ MAX_BUILD_RETRIES →
  aiService k cp (files sc) (conversation sc) = Throw error →
  retry_loop (S fuel) sceneId prompt sc k cp w = (Throw error, w).
Proof.
  intros Hk Hai. simpl. rewrite (leb_correct _ _ Hk).
  unfold m_bind at 1, await. by rewrite Hai.
Qed.

Lemma iteration_build_throws fuel sceneId prompt sc k cp w m error :
  k ≤ MAX_BUILD_RETRIES →
  aiService k cp (files sc) (conversation sc) = Return m →
  buildScene k sceneId (spread2 (files sc) (modified_files m)) = Throw error →
  retry_loop (S fuel) sceneId prompt sc k cp w = (Throw error, w).
Proof.
  intros Hk Hai Hb. simpl. rewrite (leb_correct _ _ Hk).
  unfold m_bind at 1, await. rewrite Hai. unfold m_bind at 1. by rewrite Hb.
Qed.

Lemma iteration_build_succeeds fuel sceneId prompt sc k cp w m b :
  scenes w !! sceneId = Some sc →
  k ≤ MAX_BUILD_RETRIES →
  aiService k cp (files sc) (conversation sc) = Return m →
  buildScene k sceneId (spread2 (files sc) (modified_files m)) = Return b →
  success b = true →
  let sc' := committed (reads w) prompt (explanation m)
               (spread2 (files sc) (modified_files m)) (Some (result_builtFiles b)) sc in
  retry_loop (S fuel) sceneId prompt sc k cp w
  = (Return (Returned
       {| response := {| status := 200; body := ModifiedBody sc' (explanation m) k |};
          detached_export := Some (sceneId, "http://localhost:3001/scenes/" ++ sceneId) |}),
     committed_world sceneId sc' w).
Proof.
  intros Hsc Hk Hai Hb Hok sc'. simpl. rewrite (leb_correct _ _ Hk).
  unfold m_bind at 1, await. rewrite Hai. unfold m_bind at 1. rewrite Hb, Hok.
  unfold m_bind at 1. by rewrite (commit_spec _ _ _ _ _ _ _ Hsc).
Qed.

Lemma iteration_build_fails_retry fuel sceneId prompt sc k cp w m b :
  k < MAX_BUILD_RETRIES →
  aiService k cp (files sc) (conversation sc) = Return m →
  buildScene k sceneId (spread2 (files sc) (modified_files m)) = Return b →
  success b = false →
  retry_loop (S fuel) sceneId prompt sc k cp w
  = retry_loop fuel sceneId prompt sc (S k) (retry_prompt (stderr b) prompt) w.
Proof.
  intros Hk Hai Hb Hok. simpl. rewrite leb_correct by lia.
  unfold m_bind at 1, await. rewrite Hai. unfold m_bind at 1. rewrite Hb, Hok.
  by rewrite (proj2 (Nat.ltb_lt _ _) Hk).
Qed.

Lemma iteration_build_fails_last fuel sceneId prompt sc k cp w m b :
  scenes w !! sceneId = Some sc →
  k = MAX_BUILD_RETRIES →
  aiService k cp (files sc) (conversation sc) = Return m →
  buildScene k sceneId (spread2 (files sc) (modified_files m)) = Return b →
  success b = false →
  let sc' := committed (reads w) prompt (explanation m ++ build_warning)
               (spread2 (files sc) (modified_files m)) None sc in
  retry_loop (S fuel) sceneId prompt sc k cp w
  = (Return (Returned (respond 200
       (BuildFailedBody sc' (explanation m ++ build_failed_note k) (stderr b) k true))),
     committed_world sceneId sc' w).
Proof.
  intros Hsc -> Hai Hb Hok sc'. simpl.
  unfold m_bind at 1, await. rewrite Hai. unfold m_bind at 1. rewrite Hb, Hok.
  unfold m_bind at 1. by rewrite (commit_spec _ _ _ _ _ _ _ Hsc).
Qed.

(** The loop either leaves the world as it is and returns no response, or
    commits once and returns a response with status 200; it runs out of
    fuel only when given less than the iterations left. *)
Lemma retry_loop_outcome fuel sceneId prompt sc k cp w :
  scenes w !! sceneId = Some sc →
  ∃ c w', retry_loop fuel sceneId prompt sc k cp w = (c, w') ∧
    ((w' = w ∧ (∀ out, c ≠ Return (Returned out)) ∧
      (c = Return OutOfFuel → fuel ≤ S MAX_BUILD_RETRIES - k))
     ∨ (∃ out text merged b,
          c = Return (Returned out) ∧ status (response out) = 200 ∧
          w' = committed_world sceneId (committed (reads w) prompt text merged b sc) w)).
Proof.
  intros Hsc. revert k cp. induction fuel as [|fuel IH]; intros k cp.
  { eexists _, _. split; [reflexivity|]. left. repeat split; [done|]. intros _. lia. }
  destruct (decide (k ≤ MAX_BUILD_RETRIES)) as [Hk|Hk].
  2: { eexists _, _. split.
       { simpl. rewrite leb_correct_conv by lia. reflexivity. }
       left. repeat split; done. }
  destruct (aiService k cp (files sc) (conversation sc)) as [m|error] eqn:Hai.
  2: { rewrite (iteration_collaborator_throws _ _ _ _ _ _ _ _ Hk Hai).
       eexists _, _. split; [reflexivity|]. left. repeat split; done. }
  destruct (buildScene k sceneId (spread2 (files sc) (modified_files m)))
    as [b|error] eqn:Hb.
  2: { rewrite (iteration_build_throws _ _ _ _ _ _ _ _ _ Hk Hai Hb).
       eexists _, _. split; [reflexivity|]. left. repeat split; done. }
  destruct (success b) eqn:Hok.
  { rewrite (iteration_build_succeeds _ _ _ _ _ _ _ _ _ Hsc Hk Hai Hb Hok).
    eexists _, _. split; [reflexivity|]. right. by eexists _, _, _, _. }
  destruct (decide (k < MAX_BUILD_RETRIES)) as [Hlt|Hlast].
  - rewrite (iteration_build_fails_retry _ _ _ _ _ _ _ _ _ Hlt Hai Hb Hok).
    destruct (IH (S k) (retry_prompt (stderr b) prompt))
      as (c & w' & -> & [(-> & Hno & Hfuel)|Hcommit]).
    + eexists _, _. split; [reflexivity|]. left. repeat split; [done|].
      intros Hc. specialize (Hfuel Hc). lia.
    + eexists _, _. split; [reflexivity|]. by right.
  - assert (k = MAX_BUILD_RETRIES) as Hmax by lia.
    rewrite (iteration_build_fails_last _ _ _ _ _ _ _ _ _ Hsc Hmax Hai Hb Hok).
    eexists _, _. split; [reflexivity|]. right. by eexists _, _, _, _.
Qed.

(** The handler returns a response on every input: without touching the
    world and with a status other than 200, or after one commit. *)
Lemma aiPromptHandler_outcome sceneId (prompt : option string) w :
  ∃ out w', aiPromptHandler sceneId prompt w = (Return (Some out), w') ∧
    ((w' = w ∧ status (response out) ≠ 200)
     ∨ (∃ sc ptext text merged b,
          scenes w !! sceneId = Some sc ∧ prompt = Some ptext ∧
          status (response out) = 200 ∧
          w' = committed_world sceneId (committed (reads w) ptext text merged b sc) w)).
Proof.
  unfold AiHandler.aiPromptHandler, try_catch.
  destruct prompt as [ptext|]; [|eexists _, _; split; [reflexivity|by left]].
  destruct (prompt_missing (Some ptext)); [eexists _, _; split; [reflexivity|by left]|].
  unfold m_bind at 1, getScene, scenes_get.
  destruct (scenes w !! sceneId) as [sc|] eqn:Hsc;
    [|eexists _, _; split; [reflexivity|by left]].
  unfold m_bind at 1.
  destruct (retry_loop_outcome (S (S MAX_BUILD_RETRIES)) sceneId ptext sc 0 ptext w Hsc)
    as (c & w' & -> & [(-> & Hno & Hfuel)|(out & text & merged & b & -> & Hst & ->)]).
  - destruct c as [[out| |]|error].
    + by destruct (Hno out).
    + eexists _, _; split; [reflexivity|by left].
    + specialize (Hfuel eq_refl). lia.
    + eexists _, _; split; [reflexivity|by left].
  - eexists _, _. split; [reflexivity|]. right. by eexists _, _, _, _, _.
Qed.

(** C4. The handler returns a response on every input and every outcome
    of the collaborator and of the builds. It leaves the other scenes
    alone, and the conversation of the scene afterwards is the old one
    followed by nothing (then the world is unchanged and the status is not
    200) or by exactly one user entry and one assistant entry, whatever the
    number of attempts. When the builds of attempts 1 and 2 fail and the
    build of attempt 3 succeeds, the response has status 200 and reports
    [buildRetries = 2], one user entry and one assistant entry are
    appended, and [builtFiles] holds the output of the third build. *)
Theorem one_entry_pair_per_request sceneId (prompt : option string) w :
  (∃ out w',
     aiPromptHandler sceneId prompt w = (Return (Some out), w') ∧
     (∀ other, other ≠ sceneId → scenes w' !! other = scenes w !! other) ∧
     (scenes w !! sceneId = None → w' = w) ∧
     (∀ sc, scenes w !! sceneId = Some sc →
        ∃ sc' appended,
          scenes w' !! sceneId = Some sc' ∧
          conversation sc' = (conversation sc ++ appended)%list ∧
          ((appended = [] ∧ w' = w ∧ status (response out) ≠ 200) ∨
           (∃ u a, appended = [u; a] ∧ role u = user ∧ role a = assistant ∧
                   prompt = Some (content u) ∧ filesSnapshot u = files sc ∧
                   filesSnapshot a = files sc' ∧ status (response out) = 200)))) ∧
  (∀ text sc m0 m1 m2 b0 b1 b2,
     prompt = Some text → prompt_missing prompt = false →
     scenes w !! sceneId = Some sc →
     aiService 0 text (files sc) (conversation sc) = Return m0 →
     buildScene 0 sceneId (spread2 (files sc) (modified_files m0)) = Return b0 →
     success b0 = false →
     aiService 1 (retry_prompt (stderr b0) text) (files sc) (conversation sc)
       = Return m1 →
     buildScene 1 sceneId (spread2 (files sc) (modified_files m1)) = Return b1 →
     success b1 = false →
     aiService 2 (retry_prompt (stderr b1) text) (files sc) (conversation sc)
       = Return m2 →
     buildScene 2 sceneId (spread2 (files sc) (modified_files m2)) = Return b2 →
     success b2 = true →
     let merged := spread2 (files sc) (modified_files m2) in
     let sc' := committed (reads w) text (explanation m2) merged
                  (Some (result_builtFiles b2)) sc in
     aiPromptHandler sceneId prompt w
     = (Return (Some
          {| response :=
               {| status := 200; body := ModifiedBody sc' (explanation m2) 2 |};
             detached_export :=
               Some (sceneId, "http://localhost:3001/scenes/" ++ sceneId) |}),
        committed_world sceneId sc' w) ∧
     scenes (committed_world sceneId sc' w) !! sceneId = Some sc' ∧
     conversation sc'
     = (conversation sc ++
        [user_entry clock random36 (reads w) text (files sc);
         assistant_entry clock random36 (reads w) (explanation m2) merged])%list ∧
     builtFiles sc' = Some (result_builtFiles b2)).
Proof.
  split.
  - destruct (aiPromptHandler_outcome sceneId prompt w)
      as (out & w' & Hrun & [(-> & Hst)|(sc & ptext & text & merged & b & Hsc & -> & Hst & ->)]).
    + exists out, w. split; [done|]. split; [done|]. split; [done|].
      intros sc Hsc. exists sc, []. rewrite app_nil_r. repeat split; [done|]. by left.
    + eexists out, _. split; [done|]. split; [|split].
      * intros other Hne. unfold committed_world; simpl. by rewrite lookup_insert_ne.
      * intros Hnone. congruence.
      * intros sc0 Hsc0. assert (sc0 = sc) as -> by congruence.
        eexists _, _. split; [apply lookup_insert_eq|]. split; [reflexivity|].
        right. by eexists _, _.
  - intros text sc m0 m1 m2 b0 b1 b2 -> Hprompt Hsc Ha0 Hb0 Hf0 Ha1 Hb1 Hf1 Ha2 Hb2 Hok
      merged sc'.
    split; [|split; [apply lookup_insert_eq|done]].
    unfold AiHandler.aiPromptHandler, try_catch. rewrite Hprompt.
    unfold m_bind at 1, getScene, scenes_get. rewrite Hsc. unfold m_bind at 1.
    change (S (S MAX_BUILD_RETRIES)) with 4.
    rewrite (iteration_build_fails_retry 3 _ _ _ 0 _ _ _ _ ltac:(unfold MAX_BUILD_RETRIES; lia)
        Ha0 Hb0 Hf0).
    rewrite (iteration_build_fails_retry 2 _ _ _ 1 _ _ _ _ ltac:(unfold MAX_BUILD_RETRIES; lia)
        Ha1 Hb1 Hf1).
    by rewrite (iteration_build_succeeds 1 _ _ _ 2 _ _ _ _ Hsc ltac:(done) Ha2 Hb2 Hok).
Qed.

(** C5. When the builds of all three attempts fail (the bound is two
    retries), the handler still appends one user entry, with the original
    prompt and the files before the modification, and one assistant entry,
    whose content is the last explanation followed by the warning that the
    changes have TypeScript errors; it stores as the scene's files the old
    files overlaid with the files of the last answer and leaves
    [builtFiles] absent; the response has status 200 and carries the last
    build's diagnostic text, [buildRetries = 2], [buildFailed = true] and
    the explanation followed by the note that the build failed after 2
    retries. *)
Theorem build_failure_is_committed sceneId w text sc m0 m1 m2 b0 b1 b2 :
  prompt_missing (Some text) = false →
  scenes w !! sceneId = Some sc →
  aiService 0 text (files sc) (conversation sc) = Return m0 →
  buildScene 0 sceneId (spread2 (files sc) (modified_files m0)) = Return b0 →
  success b0 = false →
  aiService 1 (retry_prompt (stderr b0) text) (files sc) (conversation sc) = Return m1 →
  buildScene 1 sceneId (spread2 (files sc) (modified_files m1)) = Return b1 →
  success b1 = false →
  aiService 2 (retry_prompt (stderr b1) text) (files sc) (conversation sc) = Return m2 →
  buildScene 2 sceneId (spread2 (files sc) (modified_files m2)) = Return b2 →
  success b2 = false →
  let merged := spread2 (files sc) (modified_files m2) in
  let warned := explanation m2 ++ "

⚠️ Warning: The changes have TypeScript errors and may not build correctly." in
  let sc' := committed (reads w) text warned merged None sc in
  MAX_BUILD_RETRIES = 2 ∧
  aiPromptHandler sceneId (Some text) w
  = (Return (Some
       {| response :=
            {| status := 200;
               body := BuildFailedBody sc' (explanation m2 ++ "

⚠️ Warning: Build failed after 2 retries. The code has TypeScript errors.") (stderr b2) 2 true |};
          detached_export := None |}),
     committed_world sceneId sc' w) ∧
  scenes (committed_world sceneId sc' w) !! sceneId = Some sc' ∧
  (∃ u a,
     conversation sc' = (conversation sc ++ [u; a])%list ∧
     role u = user ∧ content u = text ∧ filesSnapshot u = files sc ∧
     role a = assistant ∧ content a = warned ∧ filesSnapshot a = files sc') ∧
  (∀ path, files sc' !! path
           = match modified_files m2 !! path with
             | Some changed => Some changed
             | None => files sc !! path
             end) ∧
  builtFiles sc' = None.
Proof.
  intros Hprompt Hsc Ha0 Hb0 Hf0 Ha1 Hb1 Hf1 Ha2 Hb2 Hf2 merged warned sc'.
  split; [done|]. split; [|split; [apply lookup_insert_eq|]].
  - unfold AiHandler.aiPromptHandler, try_catch. rewrite Hprompt.
    unfold m_bind at 1, getScene, scenes_get. rewrite Hsc. unfold m_bind at 1.
    change (S (S MAX_BUILD_RETRIES)) with 4.
    rewrite (iteration_build_fails_retry 3 _ _ _ 0 _ _ _ _ ltac:(unfold MAX_BUILD_RETRIES; lia)
        Ha0 Hb0 Hf0).
    rewrite (iteration_build_fails_retry 2 _ _ _ 1 _ _ _ _ ltac:(unfold MAX_BUILD_RETRIES; lia)
        Ha1 Hb1 Hf1).
    rewrite (iteration_build_fails_last 1 _ _ _ 2 _ _ _ _ Hsc eq_refl Ha2 Hb2 Hf2).
    reflexivity.
  - split; [by eexists _, _|]. split; [|done].
    intros path. unfold sc', committed_scene, merged, spread2; simpl.
    destruct (modified_files m2 !! path) as [changed|] eqn:Hpath.
    + by apply lookup_union_Some_l.
    + by apply lookup_union_r.
Qed.

End HandlerFacts.

(** ** The statements on concrete inputs *)

Section Instances.
Import SceneStorage SceneExport SceneBuild AiHandler.

(** [updateScene] on the built scene and on an unknown id. *)
Lemma updateScene_replaces_files_witness :
  (scenes built_world !! "scene_1" = Some built_scene ∧
   ∃ sc', updateScene sample_clock "scene_1" template_files built_world
          = (Return sc', stored "scene_1" sc' built_world) ∧
          files sc' = template_files) ∧
  (scenes built_world !! "scene_9" = None ∧
   updateScene sample_clock "scene_9" template_files built_world
   = (Throw (SceneNotFound "scene_9"), built_world)).
Proof.
  assert (scenes built_world !! "scene_1" = Some built_scene) as Hsc by reflexivity.
  assert (scenes built_world !! "scene_9" = None) as Hnone by reflexivity.
  split.
  - split; [exact Hsc|].
    destruct (updateScene_replaces_files sample_clock "scene_1" template_files built_world)
      as [Hpresent _].
    destruct (Hpresent built_scene Hsc) as (Hrun & _ & Hfiles & _).
    eexists. split; [exact Hrun|exact Hfiles].
  - split; [exact Hnone|].
    exact (proj2 (updateScene_replaces_files sample_clock "scene_9" template_files
                    built_world) Hnone).
Defined.

(** C1 as stated fails: after [updateScene] on a built scene, [getScene]
    returns the new files together with the old [builtFiles]. *)
Lemma updateScene_keeps_builtFiles :
  ∃ sc' w',
    updateScene sample_clock "scene_1" template_files built_world = (Return sc', w') ∧
    getScene "scene_1" w' = (Return (Some sc'), w') ∧
    files sc' = template_files ∧
    builtFiles sc' = Some compiled_files ∧
    builtFiles sc' ≠ None.
Proof.
  pose (sc' := set_updatedAt (sample_clock 0) (set_files template_files built_scene)).
  exists sc', (stored "scene_1" sc' built_world).
  split; [vm_compute; reflexivity|]. split; [apply getScene_stored|].
  repeat split; done.
Qed.

(** [revertToSnapshot] to the first entry of the built scene. *)
Lemma revertToSnapshot_restores_files_witness :
  scenes built_world !! "scene_1" = Some built_scene ∧
  find_message "msg_1_aaa" (conversation built_scene) = Some first_message ∧
  (∃ sc', revertToSnapshot sample_clock "scene_1" "msg_1_aaa" built_world
          = (Return sc', stored "scene_1" sc' built_world) ∧
          files sc' = template_files ∧
          conversation sc' = [first_message; second_message]) ∧
  revertToSnapshot sample_clock "scene_1" "msg_3_ccc" built_world
  = (Throw (MessageNotFound "msg_3_ccc" "scene_1"), built_world).
Proof.
  assert (scenes built_world !! "scene_1" = Some built_scene) as Hsc by reflexivity.
  assert (find_message "msg_1_aaa" (conversation built_scene) = Some first_message)
    as Hfind by reflexivity.
  split; [exact Hsc|]. split; [exact Hfind|].
  destruct (revertToSnapshot_restores_files sample_clock "scene_1" "msg_1_aaa"
              built_world built_scene Hsc) as (Hfound & _ & _).
  destruct (revertToSnapshot_restores_files sample_clock "scene_1" "msg_3_ccc"
              built_world built_scene Hsc) as (_ & _ & Habsent).
  split.
  - destruct (Hfound first_message Hfind) as (Hrun & _ & Hfiles & _ & Hconv & _).
    eexists. split; [exact Hrun|]. split; [exact Hfiles|exact Hconv].
  - apply Habsent. intros e He.
    apply elem_of_cons in He as [->|He]; [discriminate|].
    apply elem_of_cons in He as [->|He]; [discriminate|].
    by apply elem_of_nil in He.
Defined.

(** C2 as stated fails: after a revert of a built and exported scene, the
    files are the snapshot's, and [builtFiles] and [export] are still the
    ones of the files before the revert. *)
Lemma revertToSnapshot_keeps_build_and_export :
  ∃ sc' w',
    revertToSnapshot sample_clock "scene_1" "msg_1_aaa" built_world = (Return sc', w') ∧
    getScene "scene_1" w' = (Return (Some sc'), w') ∧
    files sc' = filesSnapshot first_message ∧
    builtFiles sc' = Some compiled_files ∧
    export sc' = Some sample_export ∧
    builtFiles sc' ≠ None ∧ export sc' ≠ None.
Proof.
  pose (sc' := set_updatedAt (sample_clock 0)
                 (set_files (filesSnapshot first_message) built_scene)).
  exists sc', (stored "scene_1" sc' built_world).
  split; [vm_compute; reflexivity|]. split; [apply getScene_stored|].
  repeat split; done.
Qed.

(** [resetConversation] on the built scene. *)
Lemma resetConversation_clears_history_witness :
  scenes built_world !! "scene_1" = Some built_scene ∧
  ∃ sc', resetConversation sample_clock "scene_1" built_world
         = (Return sc', stored "scene_1" sc' built_world) ∧
         conversation sc' = [] ∧
         builtFiles sc' = Some compiled_files ∧
         getMessageSnapshot "scene_1" "msg_1_aaa" (stored "scene_1" sc' built_world)
         = (Throw (MessageNotFound "msg_1_aaa" "scene_1"), stored "scene_1" sc' built_world).
Proof.
  assert (scenes built_world !! "scene_1" = Some built_scene) as Hsc by reflexivity.
  split; [exact Hsc|].
  destruct (resetConversation_clears_history sample_clock "scene_1" built_world
              built_scene Hsc) as (Hrun & _ & Hconv & _ & Hbuilt & _ & _ & Hsnap).
  eexists. split; [exact Hrun|]. split; [exact Hconv|]. split; [exact Hbuilt|].
  exact (Hsnap "msg_1_aaa").
Defined.

(** [deleteScene] of an id that the store does not hold. *)
Lemma deleteScene_idempotent_witness :
  scenes built_world !! "scene_9" = None ∧
  deleteScene "scene_9" built_world = (Return tt, built_world).
Proof.
  assert (scenes built_world !! "scene_9" = None) as Hnone by reflexivity.
  split; [exact Hnone|].
  destruct (deleteScene_idempotent "scene_9" built_world) as (Hrun & _ & _ & _ & Hsame).
  rewrite Hrun. exact (f_equal (pair (Return tt)) (Hsame Hnone)).
Defined.

Lemma union_swap (K : gset string) (a b : string) :
  ({[a]} ∪ K) ∪ {[b]} = ({[b]} ∪ K) ∪ {[a]}.
Proof. apply set_eq. intros x. rewrite !elem_of_union. tauto. Qed.

Lemma toy_hashV1_inj (a b : string) : toy_hashV1 a = toy_hashV1 b → a = b.
Proof. unfold toy_hashV1. apply (inj (String.app _)). Qed.

(** Two exports of the template at different times. *)
Lemma export_twice_same_content_witness :
  parse_scene_json string toy_JSON_parse template_files = Return "{}" ∧
  ∃ e1 e2,
    toy_export 1000 "scene_1" template_files "http://localhost:3001/scenes/scene_1/"
      = Return e1 ∧
    toy_export 2000 "scene_1" template_files "http://localhost:3001/scenes/scene_1/"
      = Return e2 ∧
    dom (hashedFiles e1) ∪ {[entityId e2]} = dom (hashedFiles e2) ∪ {[entityId e1]}.
Proof.
  assert (parse_scene_json string toy_JSON_parse template_files = Return "{}")
    as Hparse by reflexivity.
  split; [exact Hparse|].
  destruct (export_twice_same_content string toy_hashV1 toy_JSON_parse toy_JSON_stringify
      ascii_toLowerCase
              1000 2000 "scene_1" template_files
              "http://localhost:3001/scenes/scene_1/" "{}" Hparse)
    as (e1 & e2 & H1 & H2 & _ & _ & Hd1 & Hd2 & _).
  exists e1, e2. split; [exact H1|]. split; [exact H2|].
  rewrite Hd1, Hd2. apply union_swap.
Defined.

(** Two models with the same bytes, at paths that differ in case and
    separators. *)
Lemma identical_content_stored_once_witness :
  twin_files !! "/Models/Tree.glb" = Some "glTF" ∧
  twin_files !! "models\copy.glb" = Some "glTF" ∧
  "/Models/Tree.glb" ≠ "models\copy.glb" ∧
  parse_scene_json string toy_JSON_parse twin_files = Return "{}" ∧
  ∃ ex entity i j,
    toy_export 1000 "scene_1" twin_files "http://localhost:3001/scenes/scene_1"
      = Return ex ∧
    hashedFiles ex !! entityId ex = Some (toy_JSON_stringify entity) ∧
    i ≠ j ∧
    entity_content entity !! i
      = Some {| file := "models/tree.glb"; hash := "bafkrei-glTF" |} ∧
    entity_content entity !! j
      = Some {| file := "models/copy.glb"; hash := "bafkrei-glTF" |} ∧
    hashedFiles ex !! "bafkrei-glTF" = Some "glTF" ∧
    (size (hashedFiles ex) ≤ 3)%nat.
Proof.
  assert (twin_files !! "/Models/Tree.glb" = Some "glTF") as H1 by reflexivity.
  assert (twin_files !! "models\copy.glb" = Some "glTF") as H2 by reflexivity.
  assert ("/Models/Tree.glb" ≠ "models\copy.glb") as Hne by discriminate.
  assert (parse_scene_json string toy_JSON_parse twin_files = Return "{}")
    as Hparse by reflexivity.
  do 4 (split; [assumption|]).
  destruct (identical_content_stored_once string toy_hashV1 toy_JSON_parse
              toy_JSON_stringify ascii_toLowerCase 1000 "scene_1" twin_files
              "http://localhost:3001/scenes/scene_1" _ _ _ _ H1 H2 Hne Hparse)
    as (ex & entity & Hrun & _ & Hmanifest & _ & (i & j & Hij & Hi & Hj) & _ & _ & _ & _ & _
        & _ & Hsize & Hbytes).
  exists ex, entity, i, j. split; [exact Hrun|]. split; [exact Hmanifest|].
  split; [exact Hij|]. split; [exact Hi|]. split; [exact Hj|].
  split; [|exact Hsize].
  apply Hbytes. intros s. apply toy_hashV1_inj.
Defined.

(** C6 as stated fails: the two paths of [clash_files] are different and
    hold the same bytes, and the manifest has no two distinct entries for
    them: every entry that carries their hash is the pair of the one path
    that both normalize to. *)
Lemma same_normalized_path_same_entry :
  clash_files !! "/Models/Tree.glb" = Some "glTF" ∧
  clash_files !! "models\tree.glb" = Some "glTF" ∧
  "/Models/Tree.glb" ≠ "models\tree.glb" ∧
  ∃ ex entity,
    toy_export 1000 "scene_1" clash_files "http://localhost:3001/scenes/scene_1"
      = Return ex ∧
    hashedFiles ex !! entityId ex = Some (toy_JSON_stringify entity) ∧
    List.length (entity_content entity) = 3%nat ∧
    (∀ m, m ∈ entity_content entity → hash m = "bafkrei-glTF" →
       m = {| file := "models/tree.glb"; hash := "bafkrei-glTF" |}) ∧
    ¬ ∃ m1 m2, m1 ∈ entity_content entity ∧ m2 ∈ entity_content entity ∧
               hash m1 = "bafkrei-glTF" ∧ hash m2 = "bafkrei-glTF" ∧ m1 ≠ m2.
Proof.
  split; [reflexivity|]. split; [reflexivity|]. split; [discriminate|].
  pose (entity := make_entity string 1000
                    (mapping_of ascii_toLowerCase toy_hashV1 <$> Object_entries clash_files)
                    "{}").
  assert (entity_content entity
          = [{| file := "models/tree.glb"; hash := "bafkrei-glTF" |};
             {| file := "scene.json"; hash := "bafkrei-{}" |};
             {| file := "models/tree.glb"; hash := "bafkrei-glTF" |}]) as Hcontent
    by (vm_compute; reflexivity).
  assert (∀ m, m ∈ entity_content entity → hash m = "bafkrei-glTF" →
               m = {| file := "models/tree.glb"; hash := "bafkrei-glTF" |}) as Hsame.
  { rewrite Hcontent. intros m Hm Hhash.
    apply elem_of_cons in Hm as [->|Hm]; [reflexivity|].
    apply elem_of_cons in Hm as [->|Hm]; [discriminate Hhash|].
    apply elem_of_cons in Hm as [->|Hm]; [reflexivity|].
    apply elem_of_nil in Hm. destruct Hm. }
  eexists _, entity. split.
  { unfold toy_export. rewrite exportSceneInMemory_eq.
    replace (parse_scene_json string toy_JSON_parse clash_files)
      with (Return (A := string) "{}") by reflexivity.
    rewrite hash_files_eq. reflexivity. }
  split; [apply lookup_insert_eq|].
  split; [rewrite Hcontent; reflexivity|].
  split; [exact Hsame|].
  intros (m1 & m2 & Hm1 & Hm2 & Hh1 & Hh2 & Hne). apply Hne.
  rewrite (Hsame m1 Hm1 Hh1), (Hsame m2 Hm2 Hh2). reflexivity.
Qed.

(** An export without a descriptor, and one whose descriptor is not JSON. *)
Lemma export_requires_descriptor_witness :
  (compiled_files !! "scene.json" = Some "{}" ∧
   (∅ : SceneFiles) !! "scene.json" = None ∧ (∅ : SceneFiles) !! "/scene.json" = None ∧
   toy_export 1000 "scene_1" ∅ "http://localhost:3001/scenes/scene_1"
   = Throw (new_Error
       "Failed to parse scene.json: Error: scene.json not found in scene files")) ∧
  (js_or (({[ "/scene.json" := "main: bin/index.js" ]} : SceneFiles) !! "scene.json")
         (({[ "/scene.json" := "main: bin/index.js" ]} : SceneFiles) !! "/scene.json")
   = Some "main: bin/index.js" ∧
   toy_JSON_parse "main: bin/index.js" = inl "Unexpected token" ∧
   toy_export 1000 "scene_1" {[ "/scene.json" := "main: bin/index.js" ]}
     "http://localhost:3001/scenes/scene_1"
   = Throw (new_Error "Failed to parse scene.json: SyntaxError: Unexpected token")).
Proof.
  split.
  - split; [reflexivity|]. split; [reflexivity|]. split; [reflexivity|].
    destruct (export_requires_descriptor string toy_hashV1 toy_JSON_parse
                toy_JSON_stringify ascii_toLowerCase 1000 "scene_1" ∅
                "http://localhost:3001/scenes/scene_1") as (Habsent & _).
    exact (Habsent eq_refl eq_refl).
  - split; [reflexivity|]. split; [reflexivity|].
    destruct (export_requires_descriptor string toy_hashV1 toy_JSON_parse
                toy_JSON_stringify ascii_toLowerCase 1000 "scene_1" {[ "/scene.json" :=
                    "main: bin/index.js" ]}
                "http://localhost:3001/scenes/scene_1") as (_ & _ & Hinvalid & _).
    exact (Hinvalid "main: bin/index.js" "Unexpected token" eq_refl
             ltac:(discriminate) eq_refl).
Defined.

(** C8 as stated fails: a descriptor that is present and empty is not
    parsable, and the export reports it as not found. *)
Lemma empty_descriptor_reported_missing :
  empty_descriptor_files !! "scene.json" = Some "" ∧
  toy_JSON_parse "" = inl "Unexpected end of JSON input" ∧
  toy_export 1000 "scene_1" empty_descriptor_files "http://localhost:3001/scenes/scene_1"
  = Throw (new_Error
      "Failed to parse scene.json: Error: scene.json not found in scene files") ∧
  ∀ msg,
    toy_export 1000 "scene_1" empty_descriptor_files "http://localhost:3001/scenes/scene_1"
    ≠ Throw (new_Error
        ("Failed to parse scene.json: " ++ String_of_error (SyntaxError msg))).
Proof.
  split; [reflexivity|]. split; [reflexivity|].
  assert (toy_export 1000 "scene_1" empty_descriptor_files
            "http://localhost:3001/scenes/scene_1"
          = Throw (new_Error
              "Failed to parse scene.json: Error: scene.json not found in scene files"))
    as Hrun by (vm_compute; reflexivity).
  split; [exact Hrun|]. intros msg. rewrite Hrun.
  unfold String_of_error, SyntaxError; simpl. case_bool_decide; intros [=].
Qed.

(** A build whose [mkdtemp] is refused, one whose [mkdtemp] throws an
    error without a message, and a build before the workspace was
    initialized. *)
Lemma buildScene_never_throws_witness :
  (∃ st', toy_buildScene refused_mkdtemp "scene_1" template_files
            {| nodeModulesPath := Some "/home/.dcl-scene-lab/build-workspace/node_modules";
               tempDir := None; fs := 0 |}
          = (Return {| success := false; result_builtFiles := ∅; stdout := "";
                       stderr := "EACCES: permission denied, mkdtemp" |}, st')) ∧
  (∃ st', toy_buildScene aborted_mkdtemp "scene_1" template_files
            {| nodeModulesPath := Some "/home/.dcl-scene-lab/build-workspace/node_modules";
               tempDir := None; fs := 0 |}
          = (Return {| success := false; result_builtFiles := ∅; stdout := "";
                       stderr := "AbortError" |}, st')) ∧
  (∃ st', toy_buildScene toy_mkdtemp "scene_1" template_files
            {| nodeModulesPath := None; tempDir := None; fs := 0 |}
          = (Return {| success := false; result_builtFiles := ∅; stdout := "";
                       stderr :=
                           "Build workspace not initialized. Call initializeBuildWorkspace() first."
                    |}, st')).
Proof.
  split; [|split].
  - pose proof (buildScene_never_throws nat unit string "/tmp" toy_path_join (λ p, p)
      (λ p, "") ascii_toLowerCase refused_mkdtemp (λ _, toy_call tt) (λ _ _, toy_call tt)
      (λ _ _, toy_call tt) (λ _, toy_call "function main(){}") (λ _, toy_call tt)
      (toy_call tt) (λ _ _ _, toy_call tt) toy_JSON_parse "scene_1" template_files
      {| nodeModulesPath := Some "/home/.dcl-scene-lab/build-workspace/node_modules";
         tempDir := None; fs := 0 |}) as Hthm.
    cbv zeta in Hthm. destruct Hthm as ([st' Hrun] & _ & Hmk & _).
    exists st'. rewrite (Hmk permission_denied 0 eq_refl) in Hrun. exact Hrun.
  - pose proof (buildScene_never_throws nat unit string "/tmp" toy_path_join (λ p, p)
      (λ p, "") ascii_toLowerCase aborted_mkdtemp (λ _, toy_call tt) (λ _ _, toy_call tt)
      (λ _ _, toy_call tt) (λ _, toy_call "function main(){}") (λ _, toy_call tt)
      (toy_call tt) (λ _ _ _, toy_call tt) toy_JSON_parse "scene_1" template_files
      {| nodeModulesPath := Some "/home/.dcl-scene-lab/build-workspace/node_modules";
         tempDir := None; fs := 0 |}) as Hthm.
    cbv zeta in Hthm. destruct Hthm as ([st' Hrun] & _ & Hmk & _).
    exists st'. rewrite (Hmk (mkError "AbortError" "" None) 0 eq_refl) in Hrun. exact Hrun.
  - pose proof (buildScene_never_throws nat unit string "/tmp" toy_path_join (λ p, p)
      (λ p, "") ascii_toLowerCase toy_mkdtemp (λ _, toy_call tt) (λ _ _, toy_call tt)
      (λ _ _, toy_call tt) (λ _, toy_call "function main(){}") (λ _, toy_call tt)
      (toy_call tt) (λ _ _ _, toy_call tt) toy_JSON_parse "scene_1" template_files
      {| nodeModulesPath := None; tempDir := None; fs := 0 |}) as Hthm.
    cbv zeta in Hthm. destruct Hthm as ([st' Hrun] & _ & _ & _ & Huninit).
    exists st'.
    rewrite (Huninit (toy_path_join ["/tmp"; "dcl-scene-scene_1-"] ++ "Xa81Qz") 1
               {| nodeModulesPath := None;
                  tempDir := Some (toy_path_join ["/tmp"; "dcl-scene-scene_1-"] ++ "Xa81Qz");
                  fs := 5 |} eq_refl eq_refl ltac:(vm_compute; reflexivity)) in Hrun.
    exact Hrun.
Defined.

(** A request whose third build succeeds. *)
Lemma one_entry_pair_per_request_witness :
  prompt_missing ascii_trim (Some "add a cube") = false ∧
  scenes built_world !! "scene_1" = Some built_scene ∧
  success compiler_error = false ∧ success compiled = true ∧
  ∃ sc' w',
    aiPromptHandler ascii_trim sample_clock sample_random36 toy_collaborator third_build_succeeds
      "scene_1" (Some "add a cube") built_world
    = (Return (Some
         {| response := {| status := 200; body := ModifiedBody sc' "Added a cube" 2 |};
            detached_export :=
              Some ("scene_1", "http://localhost:3001/scenes/scene_1") |}), w') ∧
    scenes w' !! "scene_1" = Some sc' ∧
    List.length (conversation sc') = 4%nat ∧
    builtFiles sc' = Some compiled_files.
Proof.
  assert (prompt_missing ascii_trim (Some "add a cube") = false) as Hprompt by reflexivity.
  assert (scenes built_world !! "scene_1" = Some built_scene) as Hsc by reflexivity.
  split; [exact Hprompt|]. split; [exact Hsc|].
  split; [reflexivity|]. split; [reflexivity|].
  destruct (one_entry_pair_per_request ascii_trim sample_clock sample_random36 toy_collaborator
              third_build_succeeds "scene_1" (Some "add a cube") built_world)
    as [_ Hthird].
  destruct (Hthird "add a cube" built_scene (toy_modification 0) (toy_modification 1)
              (toy_modification 2) compiler_error compiler_error compiled
              eq_refl Hprompt Hsc eq_refl eq_refl eq_refl eq_refl eq_refl eq_refl
              eq_refl eq_refl eq_refl)
    as (Hrun & Hstored & Hconv & Hbuilt).
  eexists _, _. split; [exact Hrun|]. split; [exact Hstored|].
  split; [|exact Hbuilt]. rewrite Hconv. reflexivity.
Defined.

(** A request all of whose builds fail. *)
Lemma build_failure_is_committed_witness :
  prompt_missing ascii_trim (Some "add a cube") = false ∧
  scenes built_world !! "scene_1" = Some built_scene ∧
  success compiler_error = false ∧
  ∃ sc' w' u a,
    aiPromptHandler ascii_trim sample_clock sample_random36 toy_collaborator every_build_fails
      "scene_1" (Some "add a cube") built_world
    = (Return (Some
         {| response :=
              {| status := 200;
                 body := BuildFailedBody sc' "Added a cube

⚠️ Warning: Build failed after 2 retries. The code has TypeScript errors."
                           "TS2304: Cannot find name." 2 true |};
            detached_export := None |}), w') ∧
    scenes w' !! "scene_1" = Some sc' ∧
    conversation sc' = [first_message; second_message; u; a] ∧
    content u = "add a cube" ∧ filesSnapshot u = edited_files ∧
    content a = "Added a cube

⚠️ Warning: The changes have TypeScript errors and may not build correctly." ∧
    files sc' !! "/src/index.ts" = Some "export function main() { cube2() }" ∧
    files sc' !! "scene.json" = Some "{}" ∧
    builtFiles sc' = None.
Proof.
  assert (prompt_missing ascii_trim (Some "add a cube") = false) as Hprompt by reflexivity.
  assert (scenes built_world !! "scene_1" = Some built_scene) as Hsc by reflexivity.
  split; [exact Hprompt|]. split; [exact Hsc|]. split; [reflexivity|].
  destruct (build_failure_is_committed ascii_trim sample_clock sample_random36
              toy_collaborator every_build_fails "scene_1" built_world "add a cube"
              built_scene
              (toy_modification 0) (toy_modification 1) (toy_modification 2)
              compiler_error compiler_error compiler_error
              Hprompt Hsc eq_refl eq_refl eq_refl eq_refl eq_refl eq_refl
              eq_refl eq_refl eq_refl)
    as (_ & Hrun & Hstored & (u & a & Hconv & _ & Hu & Hbefore & _ & Ha & _) & Hfiles & Hbuilt).
  eexists _, _, u, a. split; [exact Hrun|]. split; [exact Hstored|].
  split; [exact Hconv|]. split; [exact Hu|]. split; [exact Hbefore|].
  split; [exact Ha|].
  split; [exact (Hfiles "/src/index.ts")|]. split; [exact (Hfiles "scene.json")|].
  exact Hbuilt.
Defined.

End Instances.

(** ** More of the scene store *)

Section StorageMore.
Import SceneStorage.

Variable clock : nat → Z.
Variable random36 : nat → string.
Variable DEFAULT_TEMPLATE : SceneFiles.

Implicit Types (w : World) (sc : Scene) (sceneId messageId : string).

Lemma find_message_app_l messageId (conv : list ConversationMessage) message e :
  find_message messageId conv = Some e →
  find_message messageId (conv ++ [message]) = Some e.
Proof.
  unfold find_message. induction conv as [|m conv IH]; [done|]. simpl.
  destruct (bool_decide (msg_id m = messageId)); [done|]. apply IH.
Qed.

Lemma find_message_app_r (conv : list ConversationMessage) message :
  (∀ e, e ∈ conv → msg_id e ≠ msg_id message) →
  find_message (msg_id message) (conv ++ [message]) = Some message.
Proof.
  unfold find_message. induction conv as [|m conv IH]; intros Hfresh; simpl.
  - by rewrite bool_decide_eq_true_2.
  - rewrite bool_decide_eq_false_2.
    + apply IH. intros e He. apply Hfresh. by right.
    + apply Hfresh. by left.
Qed.

(** X1. [createFromTemplate] with an id other than ["default"] throws
    "Template <id> not found" and leaves the world as it is, without
    reading the clock or the random source. With ["default"] it stores,
    under a fresh id made of the clock and the random source, a scene that
    holds the template's files, an empty conversation, no built files and
    no export; [getScene] then returns it and every other id is
    untouched. *)
Theorem createFromTemplate_creates_or_fails templateId name w :
  (templateId ≠ "default" →
     createFromTemplate clock random36 DEFAULT_TEMPLATE templateId name w
     = (Throw (TemplateNotFound templateId), w)) ∧
  (templateId = "default" →
     let id := "scene_" ++ pretty (clock (reads w)) ++ "_" ++ random36 (S (reads w)) in
     let sc :=
       {| scene_id := id; scene_name := name; files := DEFAULT_TEMPLATE;
          builtFiles := None; conversation := []; export := None;
          snapshotExports := ∅;
          createdAt := clock (2 + reads w); updatedAt := clock (3 + reads w) |} in
     let w' := {| scenes := <[id := sc]> (scenes w); reads := 4 + reads w |} in
     createFromTemplate clock random36 DEFAULT_TEMPLATE templateId name w
     = (Return sc, w') ∧
     getScene id w' = (Return (Some sc), w') ∧
     (∀ other, other ≠ id → scenes w' !! other = scenes w !! other)).
Proof.
  split.
  - intros Hne. unfold createFromTemplate, templates.
    by rewrite lookup_singleton_ne.
  - intros -> id sc w'. split; [|split].
    + unfold createFromTemplate, templates. by rewrite lookup_singleton_eq.
    + unfold getScene, scenes_get, w'; simpl. by rewrite lookup_insert_eq.
    + intros other Hne. unfold w'; simpl. by rewrite lookup_insert_ne.
Qed.

(** X2. In a scene whose message ids are pairwise different,
    [getMessageSnapshot] returns, for every entry of the conversation, that
    entry's files snapshot, and it leaves the world as it is; for an
    unknown scene it throws "Scene <id> not found". *)
Theorem getMessageSnapshot_returns_entry_snapshot sceneId w :
  (∀ sc e, scenes w !! sceneId = Some sc →
     NoDup (msg_id <$> conversation sc) → e ∈ conversation sc →
     getMessageSnapshot sceneId (msg_id e) w = (Return (filesSnapshot e), w)) ∧
  (∀ messageId, scenes w !! sceneId = None →
     getMessageSnapshot sceneId messageId w = (Throw (SceneNotFound sceneId), w)).
Proof.
  split.
  - intros sc e Hsc Hnd He. unfold getMessageSnapshot, m_bind, scenes_get.
    by rewrite Hsc, (find_message_unique _ _ Hnd He).
  - intros messageId Hnone. unfold getMessageSnapshot, m_bind, scenes_get.
    by rewrite Hnone.
Qed.

(** X3. [addConversationMessage] appends the message at the end of the
    conversation, sets [updatedAt] to the clock's reading and changes no
    other field of the scene, nor any other scene. Every lookup that found
    an entry before the append finds the same entry after it, also when the
    new message reuses an id; a message whose id no earlier entry carries
    is found by its id. *)
Theorem addConversationMessage_keeps_history sceneId message w sc :
  scenes w !! sceneId = Some sc →
  let sc' :=
    {| scene_id := scene_id sc; scene_name := scene_name sc; files := files sc;
       builtFiles := builtFiles sc;
       conversation := conversation sc ++ [message];
       export := export sc; snapshotExports := snapshotExports sc;
       createdAt := createdAt sc; updatedAt := clock (reads w) |} in
  let w' := {| scenes := <[sceneId := sc']> (scenes w); reads := S (reads w) |} in
  addConversationMessage clock sceneId message w = (Return sc', w') ∧
  getScene sceneId w' = (Return (Some sc'), w') ∧
  (∀ other, other ≠ sceneId → scenes w' !! other = scenes w !! other) ∧
  (∀ messageId e, find_message messageId (conversation sc) = Some e →
     getMessageSnapshot sceneId messageId w' = (Return (filesSnapshot e), w')) ∧
  ((∀ e, e ∈ conversation sc → msg_id e ≠ msg_id message) →
     getMessageSnapshot sceneId (msg_id message) w'
     = (Return (filesSnapshot message), w')).
Proof.
  intros Hsc sc' w'. split.
  { unfold addConversationMessage, m_bind, scenes_get. rewrite Hsc. reflexivity. }
  split.
  { unfold getScene, scenes_get, w'. cbn [scenes]. by rewrite lookup_insert_eq. }
  split.
  { intros other Hne. unfold w'. cbn [scenes]. by rewrite lookup_insert_ne. }
  split.
  - intros messageId e He. unfold getMessageSnapshot, m_bind, scenes_get, w'.
    cbn [scenes]. rewrite lookup_insert_eq. unfold sc'. cbn [conversation].
    by rewrite (find_message_app_l _ _ _ _ He).
  - intros Hfresh. unfold getMessageSnapshot, m_bind, scenes_get, w'.
    cbn [scenes]. rewrite lookup_insert_eq. unfold sc'. cbn [conversation].
    by rewrite (find_message_app_r _ _ Hfresh).
Qed.

End StorageMore.

Section StorageMoreInstances.
Import SceneStorage.

Lemma createFromTemplate_creates_or_fails_witness :
  "unknown-id" ≠ "default" ∧
  createFromTemplate sample_clock sample_random36 template_files "unknown-id" "Lab" built_world
  = (Throw (TemplateNotFound "unknown-id"), built_world) ∧
  ∃ sc w', createFromTemplate sample_clock sample_random36 template_files "default" "Lab"
             built_world = (Return sc, w') ∧
           files sc = template_files ∧
           scenes w' !! "scene_1" = Some built_scene.
Proof.
  assert ("unknown-id" ≠ "default") as Hne by discriminate.
  split; [exact Hne|]. split.
  - exact (proj1 (createFromTemplate_creates_or_fails sample_clock sample_random36
                    template_files "unknown-id" "Lab" built_world) Hne).
  - destruct (proj2 (createFromTemplate_creates_or_fails sample_clock sample_random36
                       template_files "default" "Lab" built_world) eq_refl)
      as (Hrun & _ & Hother).
    eexists _, _. split; [exact Hrun|]. split; [reflexivity|].
    rewrite Hother by discriminate. reflexivity.
Defined.

Lemma getMessageSnapshot_returns_entry_snapshot_witness :
  scenes built_world !! "scene_1" = Some built_scene ∧
  NoDup (msg_id <$> conversation built_scene) ∧
  second_message ∈ conversation built_scene ∧
  getMessageSnapshot "scene_1" "msg_2_bbb" built_world = (Return edited_files, built_world) ∧
  scenes built_world !! "scene_9" = None ∧
  getMessageSnapshot "scene_9" "msg_2_bbb" built_world
  = (Throw (SceneNotFound "scene_9"), built_world).
Proof.
  assert (scenes built_world !! "scene_1" = Some built_scene) as Hsc by reflexivity.
  assert (NoDup (msg_id <$> conversation built_scene)) as Hnd.
  { simpl. apply NoDup_cons. split.
    - intros Hin. apply elem_of_cons in Hin as [Heq|Hin]; [discriminate|].
      by apply elem_of_nil in Hin.
    - apply NoDup_singleton. }
  assert (second_message ∈ conversation built_scene) as Hin.
  { simpl. right. left. }
  assert (scenes built_world !! "scene_9" = None) as Hnone by reflexivity.
  destruct (getMessageSnapshot_returns_entry_snapshot "scene_1" built_world) as [Hget _].
  destruct (getMessageSnapshot_returns_entry_snapshot "scene_9" built_world) as [_ Habs].
  split; [exact Hsc|]. split; [exact Hnd|]. split; [exact Hin|].
  split; [exact (Hget built_scene second_message Hsc Hnd Hin)|].
  split; [exact Hnone|]. exact (Habs "msg_2_bbb" Hnone).
Defined.

Lemma addConversationMessage_keeps_history_witness :
  scenes built_world !! "scene_1" = Some built_scene ∧
  ∃ sc' w',
    addConversationMessage sample_clock "scene_1" third_message built_world
    = (Return sc', w') ∧
    sc' = {| scene_id := "scene_1"; scene_name := "My Scene"; files := edited_files;
             builtFiles := Some compiled_files;
             conversation := [first_message; second_message; third_message];
             export := Some sample_export; snapshotExports := ∅;
             createdAt := 0; updatedAt := 1700000000000 |} ∧
    getMessageSnapshot "scene_1" "msg_1_aaa" w' = (Return template_files, w') ∧
    getMessageSnapshot "scene_1" "msg_3_ccc" w' = (Return template_files, w').
Proof.
  assert (scenes built_world !! "scene_1" = Some built_scene) as Hsc by reflexivity.
  split; [exact Hsc|].
  destruct (addConversationMessage_keeps_history sample_clock "scene_1" third_message
              built_world built_scene Hsc)
    as (Hrun & _ & _ & Hold & Hnew).
  eexists _, _. split; [exact Hrun|]. split; [reflexivity|].
  split; [exact (Hold "msg_1_aaa" first_message eq_refl)|].
  apply Hnew. intros e He.
  apply elem_of_cons in He as [->|He]; [discriminate|].
  apply elem_of_cons in He as [->|He]; [discriminate|].
  by apply elem_of_nil in He.
Defined.

End StorageMoreInstances.

(** ** More of the export builder *)

Section NormalizePath.
Import SceneExport.

Variable toLowerCase : string → string.

(** What the statement assumes of [String.prototype.toLowerCase]:
    lower-casing twice is lower-casing once, and lower-casing brings in
    neither a backslash nor a leading slash. *)
Hypothesis toLowerCase_idempotent : ∀ s, toLowerCase (toLowerCase s) = toLowerCase s.
Hypothesis toLowerCase_no_backslash :
  ∀ s, no_backslash s = true → no_backslash (toLowerCase s) = true.
Hypothesis toLowerCase_no_slash :
  ∀ s, startsWith_slash s = false → startsWith_slash (toLowerCase s) = false.

Lemma no_backslash_fixed s :
  no_backslash s = true → string_map backslash_to_slash s = s.
Proof.
  unfold no_backslash, string_map. induction s as [|c s IH]; [done|]. simpl.
  intros [Hc Hs]%andb_prop. rewrite (IH Hs). f_equal.
  unfold backslash_to_slash. by destruct (Ascii.eqb c "\").
Qed.

Lemma strip_leading_slashes_fixed s :
  startsWith_slash s = false → strip_leading_slashes s = s.
Proof. destruct s as [|c s]; [done|]. simpl. by intros ->. Qed.

(** X4. [normalizeFilePath] returns a path without backslash and without
    leading slash that [toLowerCase] leaves as it is; it leaves every such
    path as it is; so normalizing twice is normalizing once. *)
Theorem normalizeFilePath_idempotent (filepath : string) :
  let normal p :=
    no_backslash p = true ∧ startsWith_slash p = false ∧ toLowerCase p = p in
  normal (normalizeFilePath toLowerCase filepath) ∧
  (∀ p, normal p → normalizeFilePath toLowerCase p = p) ∧
  normalizeFilePath toLowerCase (normalizeFilePath toLowerCase filepath)
  = normalizeFilePath toLowerCase filepath.
Proof.
  intros normal.
  assert (normal (normalizeFilePath toLowerCase filepath)) as Hnormal.
  { unfold normal, SceneExport.normalizeFilePath. split; [|split].
    - apply toLowerCase_no_backslash, slashed_no_backslash.
    - apply toLowerCase_no_slash, strip_leading_slashes_head.
    - apply toLowerCase_idempotent. }
  assert (∀ p, normal p → normalizeFilePath toLowerCase p = p) as Hfixed.
  { intros p (Hchars & Hhead & Hlower). unfold SceneExport.normalizeFilePath.
    by rewrite (no_backslash_fixed p Hchars), (strip_leading_slashes_fixed p Hhead). }
  split; [exact Hnormal|]. split; [exact Hfixed|]. by apply Hfixed.
Qed.

End NormalizePath.

Lemma endsWith_slash_app b : endsWith_slash (b ++ "/") = true.
Proof.
  induction b as [|c b IH]; [done|]. simpl in *.
  destruct (b ++ "/") eqn:Hb; [by destruct b|]. exact IH.
Qed.

Lemma slice_0_m1_app b : slice_0_m1 (b ++ "/") = b.
Proof.
  induction b as [|c b IH]; [done|]. simpl in *.
  destruct (b ++ "/") eqn:Hb; [by destruct b|]. by rewrite IH.
Qed.

(** X5. [createAboutResponse] drops one trailing slash of [baseUrl]: for
    [b ++ "/"] the pointer's content prefix is [b ++ "/contents/"], and
    when [b] does not itself end with a slash the whole record is the one
    built for [b]. *)
Theorem createAboutResponse_trailing_slash (sceneId entityId b : string) :
  scenesUrn (configurations (SceneExport.createAboutResponse sceneId entityId (b ++ "/")))
  = ["urn:decentraland:entity:" ++ entityId ++ "?=&baseUrl=" ++ b ++ "/contents/"] ∧
  (endsWith_slash b = false →
     SceneExport.createAboutResponse sceneId entityId (b ++ "/")
     = SceneExport.createAboutResponse sceneId entityId b).
Proof.
  unfold SceneExport.createAboutResponse.
  rewrite endsWith_slash_app, slice_0_m1_app. split; [done|]. by intros ->.
Qed.

Section ExportMore.
Import SceneExport.

Variable JSON : Type.
Variable hashV1 : string → string.
Variable JSON_parse : string → string + JSON.
Variable JSON_stringify : Entity JSON → string.
Variable toLowerCase : string → string.

Local Abbreviation normalizeFilePath := (normalizeFilePath toLowerCase).
Local Abbreviation parse_scene_json := (parse_scene_json JSON JSON_parse).
Local Abbreviation exportSceneInMemory :=
  (exportSceneInMemory JSON hashV1 JSON_parse JSON_stringify toLowerCase).

(** Every buffer stored by the loop of step 1 is stored under its own
    hash. *)
Lemma store_files_content_addressed (l : list (string * string)) (hf : HashedFiles) :
  (∀ h bytes, hf !! h = Some bytes → hashV1 bytes = h) →
  ∀ h bytes, foldl (store_file hashV1) hf l !! h = Some bytes → hashV1 bytes = h.
Proof.
  revert hf. induction l as [|e l IH]; intros hf Hhf; [done|]. simpl.
  apply IH. intros h bytes. unfold store_file.
  destruct (decide (hashV1 e.2 = h)) as [<-|Hne].
  - rewrite lookup_insert_eq. by intros [= <-].
  - rewrite lookup_insert_ne by done. apply Hhf.
Qed.

Lemma store_files_size (l : list (string * string)) (hf : HashedFiles) :
  (size (foldl (store_file hashV1) hf l) ≤ size hf + List.length l)%nat.
Proof.
  revert hf. induction l as [|e l IH]; intros hf; simpl; [lia|].
  etrans; [apply IH|]. unfold store_file. rewrite map_size_insert.
  destruct (hf !! hashV1 e.2); unfold id; lia.
Qed.

(** X6. An export that returns is closed and content-addressed: the
    manifest is stored under [entityId]; the manifest has exactly one
    entry per file, with the normalized path and the hash of the content;
    every hash of the manifest is a key of the bundle; every key is
    [entityId] or the hash of a file; every buffer of the bundle hashes to
    the key it is stored under; and the bundle has at most one entry more
    than there are files. *)
Theorem export_bundle_is_closed now sceneId (files : SceneFiles) baseUrl sceneMetadata :
  parse_scene_json files = Return sceneMetadata →
  ∃ ex manifest,
    exportSceneInMemory now sceneId files baseUrl = Return ex ∧
    manifest = make_entity JSON now (mapping_of toLowerCase hashV1 <$> Object_entries files)
                 sceneMetadata ∧
    hashedFiles ex !! entityId ex = Some (JSON_stringify manifest) ∧
    (∀ m, m ∈ entity_content manifest ↔
          ∃ p c, files !! p = Some c ∧
                 m = {| file := normalizeFilePath p; hash := hashV1 c |}) ∧
    (∀ m, m ∈ entity_content manifest → hash m ∈ dom (hashedFiles ex)) ∧
    (∀ h, h ∈ dom (hashedFiles ex) →
          h = entityId ex ∨ ∃ p c, files !! p = Some c ∧ h = hashV1 c) ∧
    (∀ h bytes, hashedFiles ex !! h = Some bytes → hashV1 bytes = h) ∧
    (size (hashedFiles ex) ≤ S (size files))%nat.
Proof.
  intros Hparse. rewrite exportSceneInMemory_eq, Hparse, hash_files_eq. simpl.
  eexists _, _. split; [reflexivity|]. split; [reflexivity|]. simpl.
  split; [apply lookup_insert_eq|].
  assert (∀ m, m ∈ mapping_of toLowerCase hashV1 <$> Object_entries files ↔
               ∃ p c, files !! p = Some c ∧
                      m = {| file := normalizeFilePath p; hash := hashV1 c |}) as Hentries.
  { intros m. rewrite list_elem_of_fmap. split.
    - intros ([p c] & -> & Hin). exists p, c. split; [|done].
      by apply elem_of_map_to_list.
    - intros (p & c & Hpc & ->). exists (p, c). split; [done|].
      by apply elem_of_map_to_list. }
  split; [exact Hentries|]. split; [|split; [|split]].
  - intros m (p & c & Hpc & ->)%Hentries. simpl.
    rewrite dom_insert_L, dom_store_files.
    apply elem_of_union_r, elem_of_union_r, elem_of_list_to_set.
    apply (list_elem_of_fmap_2 (λ e, hashV1 e.2) _ (p, c)).
    by apply elem_of_map_to_list.
  - intros h. rewrite dom_insert_L, dom_store_files, dom_empty_L.
    rewrite !elem_of_union, elem_of_singleton, elem_of_list_to_set, list_elem_of_fmap.
    intros [->|[Hempty|([p c] & -> & Hin)]]; [by left| |].
    + by apply elem_of_empty in Hempty.
    + right. exists p, c. split; [|done]. by apply elem_of_map_to_list.
  - intros h bytes.
    match goal with
    | |- <[?k := ?v]> _ !! h = _ → _ => destruct (decide (k = h)) as [<-|Hne]
    end.
    + rewrite lookup_insert_eq. by intros [= <-].
    + rewrite lookup_insert_ne by done.
      apply store_files_content_addressed. intros h' b'. by rewrite lookup_empty.
  - rewrite map_size_insert.
    pose proof (store_files_size (Object_entries files) ∅) as Hsize.
    rewrite map_size_empty in Hsize. unfold Object_entries in Hsize at 2.
    rewrite length_map_to_list in Hsize.
    match goal with |- context [match ?o with _ => _ end] => destruct o end;
      unfold id; lia.
Qed.

End ExportMore.

Section ExportMoreInstances.
Import SceneExport.

Lemma lower_ascii_idempotent c : lower_ascii (lower_ascii c) = lower_ascii c.
Proof. by destruct c as [[] [] [] [] [] [] [] []]. Qed.

Lemma lower_ascii_backslash c :
  negb (Ascii.eqb c "\") = true → negb (Ascii.eqb (lower_ascii c) "\") = true.
Proof. destruct c as [[] [] [] [] [] [] [] []]; vm_compute; congruence. Qed.

Lemma lower_ascii_slash c : Ascii.eqb (lower_ascii c) "/" = Ascii.eqb c "/".
Proof. by destruct c as [[] [] [] [] [] [] [] []]. Qed.

(** The stand-in for [toLowerCase] has the three properties. *)
Lemma ascii_toLowerCase_idempotent s :
  ascii_toLowerCase (ascii_toLowerCase s) = ascii_toLowerCase s.
Proof.
  unfold ascii_toLowerCase, string_map.
  rewrite list_ascii_of_string_of_list_ascii, List.map_map. f_equal.
  apply List.map_ext. intros c. apply lower_ascii_idempotent.
Qed.

Lemma ascii_toLowerCase_no_backslash s :
  no_backslash s = true → no_backslash (ascii_toLowerCase s) = true.
Proof.
  unfold no_backslash, ascii_toLowerCase, string_map.
  rewrite list_ascii_of_string_of_list_ascii, forallb_map_compose.
  rewrite !forallb_forall. intros Hs c Hc. apply lower_ascii_backslash, Hs, Hc.
Qed.

Lemma ascii_toLowerCase_no_slash s :
  startsWith_slash s = false → startsWith_slash (ascii_toLowerCase s) = false.
Proof.
  destruct s as [|c s]; [done|].
  unfold ascii_toLowerCase, string_map. simpl. by rewrite lower_ascii_slash.
Qed.

Lemma normalizeFilePath_idempotent_witness :
  normalizeFilePath ascii_toLowerCase "\Models\Tree.GLB" = "models/tree.glb" ∧
  normalizeFilePath ascii_toLowerCase "models/tree.glb" = "models/tree.glb".
Proof.
  split; [reflexivity|].
  exact (proj2 (proj2 (normalizeFilePath_idempotent ascii_toLowerCase
           ascii_toLowerCase_idempotent ascii_toLowerCase_no_backslash
           ascii_toLowerCase_no_slash "\Models\Tree.GLB"))).
Defined.

Lemma createAboutResponse_trailing_slash_witness :
  endsWith_slash "http://localhost:3001/scenes/scene_1" = false ∧
  createAboutResponse "scene_1" "bafk-entity" "http://localhost:3001/scenes/scene_1/"
  = sample_about.
Proof.
  assert (endsWith_slash "http://localhost:3001/scenes/scene_1" = false) as Hb
    by reflexivity.
  split; [exact Hb|].
  exact (proj2 (createAboutResponse_trailing_slash "scene_1" "bafk-entity"
                  "http://localhost:3001/scenes/scene_1") Hb).
Defined.

Lemma export_bundle_is_closed_witness :
  parse_scene_json string toy_JSON_parse twin_files = Return "{}" ∧
  ∃ ex, toy_export 1000 "scene_1" twin_files "http://localhost:3001/scenes/scene_1"
        = Return ex ∧
        (size (hashedFiles ex) ≤ 4)%nat.
Proof.
  assert (parse_scene_json string toy_JSON_parse twin_files = Return "{}")
    as Hparse by reflexivity.
  split; [exact Hparse|].
  destruct (export_bundle_is_closed string toy_hashV1 toy_JSON_parse toy_JSON_stringify
      ascii_toLowerCase
              1000 "scene_1" twin_files "http://localhost:3001/scenes/scene_1" "{}" Hparse)
    as (ex & manifest & Hrun & _ & _ & _ & _ & _ & _ & Hsize).
  exists ex. split; [exact Hrun|]. exact Hsize.
Defined.

End ExportMoreInstances.

(** ** The exporting operations of the store *)

Section StorageExportFacts.
Import SceneStorage SceneExport SceneBuild SceneStorageExport.

Variable clock : nat → Z.
Variable JSON : Type.
Variable hashV1 : string → string.
Variable JSON_parse : string → string + JSON.
Variable JSON_stringify : Entity JSON → string.
Variable toLowerCase : string → string.
Variable buildScene : string → SceneFiles → Completion BuildResult.

Local Abbreviation parse_scene_json := (parse_scene_json JSON JSON_parse).
Local Abbreviation exportSceneInMemory :=
  (exportSceneInMemory JSON hashV1 JSON_parse JSON_stringify toLowerCase).
Local Abbreviation await_export :=
  (await_export clock JSON hashV1 JSON_parse JSON_stringify toLowerCase).
Local Abbreviation exportScene :=
  (exportScene clock JSON hashV1 JSON_parse JSON_stringify toLowerCase buildScene).
Local Abbreviation exportSnapshot :=
  (exportSnapshot clock JSON hashV1 JSON_parse JSON_stringify toLowerCase).

Implicit Types (w : World) (sc : Scene) (sceneId messageId baseUrl : string).

Lemma export_record_eta (ex : ExportedScene) :
  {| entityId := entityId ex; hashedFiles := hashedFiles ex; about := about ex |} = ex.
Proof. by destruct ex. Qed.

Lemma await_export_returns sceneId (exported_files : SceneFiles) baseUrl w sceneMetadata :
  parse_scene_json exported_files = Return sceneMetadata →
  ∃ ex,
    exportSceneInMemory (clock (reads w)) sceneId exported_files baseUrl = Return ex ∧
    await_export sceneId exported_files baseUrl w
    = (Return ex, {| scenes := scenes w; reads := S (reads w) |}).
Proof.
  intros Hparse. unfold SceneStorageExport.await_export. rewrite Hparse.
  unfold m_bind, new_Date, await. rewrite exportSceneInMemory_eq, Hparse.
  by eexists.
Qed.

Lemma await_export_throws sceneId (exported_files : SceneFiles) baseUrl w error :
  parse_scene_json exported_files = Throw error →
  await_export sceneId exported_files baseUrl w = (Throw error, w).
Proof. intros Hparse. unfold SceneStorageExport.await_export. by rewrite Hparse. Qed.

Lemma await_export_cases sceneId (exported_files : SceneFiles) baseUrl w :
  (∃ ex, exportSceneInMemory (clock (reads w)) sceneId exported_files baseUrl = Return ex ∧
         await_export sceneId exported_files baseUrl w
         = (Return ex, {| scenes := scenes w; reads := S (reads w) |})) ∨
  (∃ error, await_export sceneId exported_files baseUrl w = (Throw error, w)).
Proof.
  destruct (parse_scene_json exported_files) as [meta|error] eqn:Hparse.
  - left. by eapply await_export_returns.
  - right. exists error. by apply await_export_throws.
Qed.

(** A run of [exportScene] on a scene that has built files. *)
Lemma exportScene_cached_run sceneId baseUrl w sc built sceneMetadata :
  scenes w !! sceneId = Some sc →
  builtFiles sc = Some built →
  parse_scene_json built = Return sceneMetadata →
  ∃ ex,
    exportSceneInMemory (clock (reads w)) sceneId built baseUrl = Return ex ∧
    let sc' := set_updatedAt (clock (S (reads w))) (set_export (Some ex) sc) in
    exportScene sceneId baseUrl w
    = (Return sc', {| scenes := <[sceneId := sc']> (scenes w); reads := 2 + reads w |}).
Proof.
  intros Hsc Hbuilt Hparse.
  destruct (await_export_returns sceneId built baseUrl w sceneMetadata Hparse)
    as (ex & Hex & Hrun).
  exists ex. split; [exact Hex|]. simpl.
  unfold SceneStorageExport.exportScene, m_bind at 1, scenes_get. rewrite Hsc, Hbuilt.
  unfold m_bind at 1, m_ret at 1. unfold m_bind at 1. rewrite Hrun.
  by rewrite export_record_eta.
Qed.

(** X7. When the scene already has built files, [exportScene] does not
    consult the build: whatever [buildScene] would return, it exports the
    built files (not the source files) at the clock's reading, stores the
    bundle as the live export and sets [updatedAt], and leaves files,
    built files and conversation as they were. *)
Theorem exportScene_uses_cached_build sceneId baseUrl w sc built sceneMetadata :
  scenes w !! sceneId = Some sc →
  builtFiles sc = Some built →
  parse_scene_json built = Return sceneMetadata →
  ∃ ex,
    exportSceneInMemory (clock (reads w)) sceneId built baseUrl = Return ex ∧
    let sc' := set_updatedAt (clock (S (reads w))) (set_export (Some ex) sc) in
    exportScene sceneId baseUrl w
    = (Return sc', {| scenes := <[sceneId := sc']> (scenes w); reads := 2 + reads w |}) ∧
    export sc' = Some ex ∧
    files sc' = files sc ∧ builtFiles sc' = Some built ∧
    conversation sc' = conversation sc.
Proof.
  intros Hsc Hbuilt Hparse.
  destruct (exportScene_cached_run sceneId baseUrl w sc built sceneMetadata
              Hsc Hbuilt Hparse) as (ex & Hex & Hrun).
  exists ex. split; [exact Hex|]. simpl. split; [exact Hrun|by rewrite Hbuilt].
Qed.

(** X8. When the scene has no built files, [exportScene] builds the
    source files first. If the build reports failure, it throws "Build
    failed: <stderr>"; if the build throws, it throws that error; in both
    cases the world is as before. If the build succeeds and the export of
    its output then throws, the error is thrown after the built files
    were stored on the scene: the world keeps them, with the export and
    [updatedAt] as before. *)
Theorem exportScene_failures sceneId baseUrl w sc :
  scenes w !! sceneId = Some sc →
  builtFiles sc = None →
  (∀ r, buildScene sceneId (files sc) = Return r → success r = false →
     exportScene sceneId baseUrl w = (Throw (BuildFailed (stderr r)), w)) ∧
  (∀ error, buildScene sceneId (files sc) = Throw error →
     exportScene sceneId baseUrl w = (Throw error, w)) ∧
  (∀ r error, buildScene sceneId (files sc) = Return r → success r = true →
     parse_scene_json (result_builtFiles r) = Throw error →
     exportScene sceneId baseUrl w
     = (Throw error,
        {| scenes := <[sceneId := set_builtFiles (Some (result_builtFiles r)) sc]> (scenes w);
           reads := reads w |})).
Proof.
  intros Hsc Hbuilt. split; [|split].
  - intros r Hr Hfail.
    unfold SceneStorageExport.exportScene, m_bind at 1, scenes_get. rewrite Hsc, Hbuilt.
    unfold m_bind at 1, m_bind at 1, await. by rewrite Hr, Hfail.
  - intros error Hr.
    unfold SceneStorageExport.exportScene, m_bind at 1, scenes_get. rewrite Hsc, Hbuilt.
    unfold m_bind at 1, m_bind at 1, await. by rewrite Hr.
  - intros r error Hr Hok Hparse.
    unfold SceneStorageExport.exportScene, m_bind at 1, scenes_get. rewrite Hsc, Hbuilt.
    unfold m_bind at 1, m_bind at 1, await. rewrite Hr, Hok.
    unfold m_bind at 1, assign, m_ret at 1. unfold m_bind at 1.
    by rewrite (await_export_throws _ _ _ _ _ Hparse).
Qed.

(** A run of [exportSnapshot] on an entry whose snapshot has a parsable
    descriptor. *)
Lemma exportSnapshot_run sceneId messageId baseUrl w sc e sceneMetadata :
  scenes w !! sceneId = Some sc →
  find_message messageId (conversation sc) = Some e →
  parse_scene_json (filesSnapshot e) = Return sceneMetadata →
  ∃ ex,
    exportSceneInMemory (clock (reads w)) (sceneId ++ "-" ++ messageId)
      (filesSnapshot e) baseUrl = Return ex ∧
    let sc' := set_updatedAt (clock (S (reads w)))
                 (set_snapshotExports (<[messageId := ex]> (snapshotExports sc)) sc) in
    exportSnapshot sceneId messageId baseUrl w
    = (Return sc', {| scenes := <[sceneId := sc']> (scenes w); reads := 2 + reads w |}).
Proof.
  intros Hsc Hfind Hparse.
  destruct (await_export_returns (sceneId ++ "-" ++ messageId) (filesSnapshot e)
              baseUrl w sceneMetadata Hparse) as (ex & Hex & Hrun).
  exists ex. split; [exact Hex|]. simpl.
  unfold SceneStorageExport.exportSnapshot, m_bind at 1, scenes_get.
  rewrite Hsc, Hfind. unfold m_bind at 1. rewrite Hrun.
  by rewrite export_record_eta.
Qed.

(** X9. [exportSnapshot] exports the source files of the entry's snapshot
    under the realm name of the scene and the message, stores the bundle
    in [snapshotExports] under the message id and sets [updatedAt]; the
    live export, the files, the built files and the conversation are as
    before. When no entry has the id, or the snapshot's descriptor does
    not parse, it throws and the world is as before. *)
Theorem exportSnapshot_stores_bundle sceneId messageId baseUrl w sc :
  scenes w !! sceneId = Some sc →
  (∀ e sceneMetadata,
     find_message messageId (conversation sc) = Some e →
     parse_scene_json (filesSnapshot e) = Return sceneMetadata →
     ∃ ex,
       exportSceneInMemory (clock (reads w)) (sceneId ++ "-" ++ messageId)
         (filesSnapshot e) baseUrl = Return ex ∧
       realmName (configurations (about ex)) = "scene-lab-" ++ sceneId ++ "-" ++ messageId ∧
       let sc' := set_updatedAt (clock (S (reads w)))
                    (set_snapshotExports (<[messageId := ex]> (snapshotExports sc)) sc) in
       exportSnapshot sceneId messageId baseUrl w
       = (Return sc', {| scenes := <[sceneId := sc']> (scenes w); reads := 2 + reads w |}) ∧
       snapshotExports sc' !! messageId = Some ex ∧
       export sc' = export sc ∧ files sc' = files sc ∧
       builtFiles sc' = builtFiles sc ∧ conversation sc' = conversation sc) ∧
  ((∀ e, e ∈ conversation sc → msg_id e ≠ messageId) →
     exportSnapshot sceneId messageId baseUrl w
     = (Throw (MessageNotFound messageId sceneId), w)) ∧
  (∀ e error,
     find_message messageId (conversation sc) = Some e →
     parse_scene_json (filesSnapshot e) = Throw error →
     exportSnapshot sceneId messageId baseUrl w = (Throw error, w)).
Proof.
  intros Hsc. split; [|split].
  - intros e sceneMetadata Hfind Hparse.
    destruct (exportSnapshot_run sceneId messageId baseUrl w sc e sceneMetadata
                Hsc Hfind Hparse) as (ex & Hex & Hrun).
    exists ex. split; [exact Hex|]. split.
    { rewrite exportSceneInMemory_eq, Hparse in Hex. by injection Hex as <-. }
    simpl. split; [exact Hrun|split; [apply lookup_insert_eq|done]].
  - intros Hnone.
    unfold SceneStorageExport.exportSnapshot, m_bind at 1, scenes_get.
    by rewrite Hsc, (find_message_none _ _ Hnone).
  - intros e error Hfind Hparse.
    unfold SceneStorageExport.exportSnapshot, m_bind at 1, scenes_get.
    rewrite Hsc, Hfind. unfold m_bind at 1.
    by rewrite (await_export_throws _ _ _ _ _ Hparse).
Qed.

End StorageExportFacts.

Section StorageExportInstances.
Import SceneStorage SceneExport SceneBuild SceneStorageExport.

Lemma exportScene_uses_cached_build_witness :
  scenes built_world !! "scene_1" = Some built_scene ∧
  builtFiles built_scene = Some compiled_files ∧
  parse_scene_json string toy_JSON_parse compiled_files = Return "{}" ∧
  ∃ sc' w',
    exportScene sample_clock string toy_hashV1 toy_JSON_parse toy_JSON_stringify ascii_toLowerCase
      throwing_build "scene_1" "http://localhost:3001/scenes/scene_1" built_world
    = (Return sc', w') ∧
    files sc' = edited_files ∧ builtFiles sc' = Some compiled_files.
Proof.
  assert (scenes built_world !! "scene_1" = Some built_scene) as Hsc by reflexivity.
  assert (parse_scene_json string toy_JSON_parse compiled_files = Return "{}")
    as Hparse by reflexivity.
  split; [exact Hsc|]. split; [reflexivity|]. split; [exact Hparse|].
  destruct (exportScene_uses_cached_build sample_clock string toy_hashV1 toy_JSON_parse
              toy_JSON_stringify ascii_toLowerCase throwing_build "scene_1"
              "http://localhost:3001/scenes/scene_1" built_world built_scene
              compiled_files "{}" Hsc eq_refl Hparse)
    as (ex & _ & Hrun & _ & Hfiles & Hbuilt & _).
  eexists _, _. split; [exact Hrun|]. split; [exact Hfiles|exact Hbuilt].
Defined.

Lemma exportScene_failures_witness :
  scenes unbuilt_world !! "scene_2" = Some unbuilt_scene ∧
  builtFiles unbuilt_scene = None ∧
  exportScene sample_clock string toy_hashV1 toy_JSON_parse toy_JSON_stringify ascii_toLowerCase
    failing_build "scene_2" "http://localhost:3001/scenes/scene_2" unbuilt_world
  = (Throw (BuildFailed "TS2304: Cannot find name."), unbuilt_world) ∧
  exportScene sample_clock string toy_hashV1 toy_JSON_parse toy_JSON_stringify ascii_toLowerCase
    throwing_build "scene_2" "http://localhost:3001/scenes/scene_2" unbuilt_world
  = (Throw out_of_memory, unbuilt_world) ∧
  ∃ error w',
    exportScene sample_clock string toy_hashV1 toy_JSON_parse toy_JSON_stringify ascii_toLowerCase
      empty_descriptor_build "scene_2" "http://localhost:3001/scenes/scene_2" unbuilt_world
    = (Throw error, w') ∧
    (builtFiles <$> scenes w' !! "scene_2")
    = Some (Some (result_builtFiles empty_descriptor_output)).
Proof.
  assert (scenes unbuilt_world !! "scene_2" = Some unbuilt_scene) as Hsc by reflexivity.
  split; [exact Hsc|]. split; [reflexivity|].
  split; [|split].
  - exact (proj1 (exportScene_failures sample_clock string toy_hashV1 toy_JSON_parse
                    toy_JSON_stringify ascii_toLowerCase failing_build "scene_2"
                    "http://localhost:3001/scenes/scene_2" unbuilt_world unbuilt_scene
                    Hsc eq_refl) compiler_error eq_refl eq_refl).
  - exact (proj1 (proj2 (exportScene_failures sample_clock string toy_hashV1
                    toy_JSON_parse toy_JSON_stringify ascii_toLowerCase throwing_build "scene_2"
                    "http://localhost:3001/scenes/scene_2" unbuilt_world unbuilt_scene
                    Hsc eq_refl)) out_of_memory eq_refl).
  - eexists _, _. split.
    + exact (proj2 (proj2 (exportScene_failures sample_clock string toy_hashV1
                      toy_JSON_parse toy_JSON_stringify ascii_toLowerCase empty_descriptor_build
                          "scene_2"
                      "http://localhost:3001/scenes/scene_2" unbuilt_world unbuilt_scene
                      Hsc eq_refl)) empty_descriptor_output _ eq_refl eq_refl eq_refl).
    + reflexivity.
Defined.

Lemma exportSnapshot_stores_bundle_witness :
  scenes built_world !! "scene_1" = Some built_scene ∧
  find_message "msg_1_aaa" (conversation built_scene) = Some first_message ∧
  parse_scene_json string toy_JSON_parse (filesSnapshot first_message) = Return "{}" ∧
  (∃ sc' w' ex,
     exportSnapshot sample_clock string toy_hashV1 toy_JSON_parse toy_JSON_stringify
         ascii_toLowerCase
       "scene_1" "msg_1_aaa" "http://localhost:3001/scenes/scene_1/snapshots/msg_1_aaa"
       built_world = (Return sc', w') ∧
     snapshotExports sc' !! "msg_1_aaa" = Some ex ∧
     export sc' = Some sample_export) ∧
  exportSnapshot sample_clock string toy_hashV1 toy_JSON_parse toy_JSON_stringify ascii_toLowerCase
    "scene_1" "msg_3_ccc" "http://localhost:3001/scenes/scene_1/snapshots/msg_3_ccc"
    built_world = (Throw (MessageNotFound "msg_3_ccc" "scene_1"), built_world).
Proof.
  assert (scenes built_world !! "scene_1" = Some built_scene) as Hsc by reflexivity.
  assert (find_message "msg_1_aaa" (conversation built_scene) = Some first_message)
    as Hfind by reflexivity.
  assert (parse_scene_json string toy_JSON_parse (filesSnapshot first_message)
          = Return "{}") as Hparse by reflexivity.
  split; [exact Hsc|]. split; [exact Hfind|]. split; [exact Hparse|]. split.
  - destruct (proj1 (exportSnapshot_stores_bundle sample_clock string toy_hashV1
                toy_JSON_parse toy_JSON_stringify ascii_toLowerCase "scene_1" "msg_1_aaa"
                "http://localhost:3001/scenes/scene_1/snapshots/msg_1_aaa"
                built_world built_scene Hsc) first_message "{}" Hfind Hparse)
      as (ex & _ & _ & Hrun & Hstored & Hlive & _).
    eexists _, _, ex. split; [exact Hrun|]. split; [exact Hstored|exact Hlive].
  - apply (proj1 (proj2 (exportSnapshot_stores_bundle sample_clock string toy_hashV1
                toy_JSON_parse toy_JSON_stringify ascii_toLowerCase "scene_1" "msg_3_ccc"
                "http://localhost:3001/scenes/scene_1/snapshots/msg_3_ccc"
                built_world built_scene Hsc))).
    intros e He.
    apply elem_of_cons in He as [->|He]; [discriminate|].
    apply elem_of_cons in He as [->|He]; [discriminate|].
    by apply elem_of_nil in He.
Defined.

End StorageExportInstances.

(** ** The HTTP handlers *)

Section HandlerMore.
Import SceneStorage SceneExport SceneBuild SceneStorageExport Handlers.

Variable trim : string → string.
Variable clock : nat → Z.
Variable random36 : nat → string.
Variable DEFAULT_TEMPLATE : SceneFiles.
Variable JSON : Type.
Variable hashV1 : string → string.
Variable JSON_parse : string → string + JSON.
Variable JSON_stringify : Entity JSON → string.
Variable toLowerCase : string → string.
Variable buildScene : string → SceneFiles → Completion BuildResult.

Local Abbreviation exportSceneInMemory :=
  (exportSceneInMemory JSON hashV1 JSON_parse JSON_stringify toLowerCase).
Local Abbreviation exportScene :=
  (exportScene clock JSON hashV1 JSON_parse JSON_stringify toLowerCase buildScene).
Local Abbreviation exported_scene :=
  (exported_scene clock JSON hashV1 JSON_parse JSON_stringify toLowerCase buildScene).
Local Abbreviation getRealmAboutHandler :=
  (getRealmAboutHandler clock JSON hashV1 JSON_parse JSON_stringify toLowerCase buildScene).
Local Abbreviation getContentByHashHandler :=
  (getContentByHashHandler trim clock JSON hashV1 JSON_parse JSON_stringify toLowerCase buildScene).
Local Abbreviation getSnapshotRealmAboutHandler :=
  (getSnapshotRealmAboutHandler clock JSON hashV1 JSON_parse JSON_stringify toLowerCase).
Local Abbreviation getSnapshotContentByHashHandler :=
  (getSnapshotContentByHashHandler trim).
Local Abbreviation serve_content := (serve_content trim).
Local Abbreviation getContentType := (getContentType trim).
Local Abbreviation buildSceneHandler := (buildSceneHandler clock buildScene).
Local Abbreviation createSceneHandler :=
  (createSceneHandler clock random36 DEFAULT_TEMPLATE).

Implicit Types (w : World) (sc : Scene) (sceneId messageId baseUrl hash : string).

Lemma truthy_nonempty (text : string) : text ≠ "" → truthy (Some text) = true.
Proof. intros Hne. unfold truthy. by rewrite bool_decide_eq_false_2. Qed.

(** The response of the live [/about] endpoint for a bundle. *)
Lemma exported_scene_cached sceneId w sc e :
  scenes w !! sceneId = Some sc → export sc = Some e →
  exported_scene sceneId w = (Return (inr e), w).
Proof.
  intros Hsc He. unfold Handlers.exported_scene, m_bind, getScene, scenes_get.
  by rewrite Hsc, He.
Qed.

Lemma getRealmAboutHandler_cached sceneId w sc e :
  scenes w !! sceneId = Some sc → export sc = Some e →
  getRealmAboutHandler sceneId w = (Return (about_reply "no-cache" e), w).
Proof.
  intros Hsc He. unfold Handlers.getRealmAboutHandler, try_catch, m_bind.
  by rewrite (exported_scene_cached _ _ _ _ Hsc He).
Qed.

Lemma getContentByHashHandler_cached sceneId hash w sc e :
  scenes w !! sceneId = Some sc → export sc = Some e →
  getContentByHashHandler sceneId hash w = (Return (serve_content (hashedFiles e) hash), w).
Proof.
  intros Hsc He. unfold Handlers.getContentByHashHandler, try_catch, m_bind.
  by rewrite (exported_scene_cached _ _ _ _ Hsc He).
Qed.

(** What a returning [exportScene] leaves in the store. *)
Lemma exportScene_returns sceneId baseUrl w sc' w' :
  exportScene sceneId baseUrl w = (Return sc', w') →
  scenes w' !! sceneId = Some sc' ∧
  ∃ ex built now,
    export sc' = Some ex ∧ builtFiles sc' = Some built ∧
    exportSceneInMemory now sceneId built baseUrl = Return ex.
Proof.
  unfold SceneStorageExport.exportScene, m_bind at 1, scenes_get.
  destruct (scenes w !! sceneId) as [sc|] eqn:Hsc; [|done].
  unfold m_bind at 1.
  destruct (builtFiles sc) as [built|] eqn:Hbuilt.
  - unfold m_ret at 1. unfold m_bind at 1.
    destruct (await_export_cases clock JSON hashV1 JSON_parse JSON_stringify toLowerCase
                sceneId built baseUrl w) as [(ex & Hex & ->)|(error & ->)]; [|done].
    intros [= <- <-]. simpl. split; [apply lookup_insert_eq|].
    exists ex, built, (clock (reads w)). by rewrite export_record_eta, Hbuilt.
  - unfold m_bind at 1, await.
    destruct (buildScene sceneId (files sc)) as [r|error]; [|done].
    destruct (success r); [|done].
    unfold m_bind at 1, assign, m_ret at 1. unfold m_bind at 1.
    match goal with
    | |- context [SceneStorageExport.await_export _ _ _ _ _ _ _ ?f _ ?s] =>
        destruct (await_export_cases clock JSON hashV1 JSON_parse JSON_stringify toLowerCase
                    sceneId f baseUrl s) as [(ex & Hex & ->)|(error & ->)]; [|done]
    end.
    intros [= <- <-]. simpl. split; [apply lookup_insert_eq|].
    exists ex, (result_builtFiles r), (clock (reads w)). by rewrite export_record_eta.
Qed.


(** X11. After [exportScene] returned, the [/about] endpoint serves a
    pointer made of the bundle's [entityId] and the content prefix of
    [baseUrl], and the content endpoint answers that [entityId] with
    status 200 and the manifest bytes, whose hash is the [entityId]. *)
Theorem pointer_resolves_to_manifest sceneId baseUrl w sc' w' :
  exportScene sceneId baseUrl w = (Return sc', w') →
  ∃ ex manifest,
    export sc' = Some ex ∧
    hashV1 manifest = entityId ex ∧
    getRealmAboutHandler sceneId w' = (Return (about_reply "no-cache" ex), w') ∧
    scenesUrn (configurations (about ex))
    = ["urn:decentraland:entity:" ++ entityId ex ++ "?=&baseUrl=" ++ contentFilesUrl baseUrl] ∧
    getContentByHashHandler sceneId (entityId ex) w'
    = (Return {| http_status := 200;
                 http_headers :=
                   [("Content-Type", getContentType (entityId ex) manifest);
                    ("Cache-Control", "public, max-age=31536000, immutable")];
                 http_body := ContentPayload manifest |}, w').
Proof.
  intros Hrun.
  destruct (exportScene_returns _ _ _ _ _ Hrun)
    as (Hstored & ex & built & now & Hex & _ & Hexport).
  rewrite exportSceneInMemory_eq in Hexport.
  destruct (parse_scene_json JSON JSON_parse built) as [meta|]; [|done].
  injection Hexport as <-. eexists _, _. split; [exact Hex|]. simpl.
  split; [reflexivity|]. split; [by eapply getRealmAboutHandler_cached|].
  split; [done|].
  rewrite (getContentByHashHandler_cached _ _ _ _ _ Hstored Hex).
  unfold Handlers.serve_content. simpl. by rewrite lookup_insert_eq.
Qed.

(** X12. [buildSceneHandler] answers 404 for an unknown scene. For a known
    scene, a build that reports failure gives status 500 with the build's
    [stderr] and [stdout], and a build that throws gives status 500 with
    the error's message, the world being as before in both cases. A
    successful build gives status 200 with the number of built files,
    stores the built files on the scene, keeps its files, conversation
    and export, and starts an export of the scene. *)
Theorem buildSceneHandler_outcomes sceneId w :
  (scenes w !! sceneId = None →
     buildSceneHandler sceneId w
     = (Return (reply 404 (ErrorPayload "Scene not found"), None), w)) ∧
  (∀ sc r, scenes w !! sceneId = Some sc →
     buildScene sceneId (files sc) = Return r → success r = false →
     buildSceneHandler sceneId w
     = (Return (reply 500 (BuildErrorPayload "Build failed" (stderr r) (stdout r)), None),
        w)) ∧
  (∀ sc error, scenes w !! sceneId = Some sc →
     buildScene sceneId (files sc) = Throw error →
     buildSceneHandler sceneId w
     = (Return (reply 500 (ErrorPayload (message_or error "Failed to build scene")), None),
        w)) ∧
  (∀ sc r, scenes w !! sceneId = Some sc →
     buildScene sceneId (files sc) = Return r → success r = true →
     ∃ sc' w',
       buildSceneHandler sceneId w
       = (Return (reply 200 (BuiltPayload true "Scene built successfully"
                               (size (result_builtFiles r)) (stdout r)),
                  Some (sceneId, "http://localhost:3001/scenes/" ++ sceneId)), w') ∧
       scenes w' !! sceneId = Some sc' ∧
       builtFiles sc' = Some (result_builtFiles r) ∧
       files sc' = files sc ∧ conversation sc' = conversation sc ∧
       export sc' = export sc ∧
       (∀ other, other ≠ sceneId → scenes w' !! other = scenes w !! other)).
Proof.
  split; [|split; [|split]].
  - intros Hnone. unfold Handlers.buildSceneHandler, try_catch, m_bind, getScene, scenes_get.
    by rewrite Hnone.
  - intros sc r Hsc Hr Hfail.
    unfold Handlers.buildSceneHandler, try_catch, m_bind at 1, getScene, scenes_get.
    rewrite Hsc. unfold m_bind at 1, await. by rewrite Hr, Hfail.
  - intros sc error Hsc Hr.
    unfold Handlers.buildSceneHandler, try_catch, m_bind at 1, getScene, scenes_get.
    rewrite Hsc. unfold m_bind at 1, await. by rewrite Hr.
  - intros sc r Hsc Hr Hok.
    unfold Handlers.buildSceneHandler, try_catch, m_bind at 1, getScene, scenes_get.
    rewrite Hsc. unfold m_bind at 1, await. rewrite Hr, Hok.
    unfold m_bind at 1, assign. unfold m_bind at 1, new_Date. cbn [scenes reads].
    unfold m_bind at 1. unfold m_bind at 1.
    erewrite updateScene_stored by (cbn [scenes]; apply lookup_insert_eq).
    cbv zeta. unfold stored, m_ret. cbn [scenes reads files].
    eexists _, _. split; [reflexivity|]. cbn [scenes].
    split; [apply lookup_insert_eq|]. do 4 (split; [done|]).
    intros other Hne. by rewrite !lookup_insert_ne.
Qed.

(** X13. [revertSnapshotHandler] answers every request: 400 for an empty
    message id; 500 with the store's message for an unknown scene and for
    a message id that no entry carries, the world being as before; and
    200 with the reverted scene, whose files are the entry's snapshot and
    whose conversation is unchanged, when the entry exists. *)
Theorem revertSnapshotHandler_responses sceneId messageId w :
  revertSnapshotHandler clock sceneId "" w
  = (Return (reply 400 (ErrorPayload "Message ID is required")), w) ∧
  (messageId ≠ "" → scenes w !! sceneId = None →
     revertSnapshotHandler clock sceneId messageId w
     = (Return (reply 500 (ErrorPayload ("Scene " ++ sceneId ++ " not found"))), w)) ∧
  (∀ sc, messageId ≠ "" → scenes w !! sceneId = Some sc →
     (∀ e, e ∈ conversation sc → msg_id e ≠ messageId) →
     revertSnapshotHandler clock sceneId messageId w
     = (Return (reply 500 (ErrorPayload
          ("Message " ++ messageId ++ " not found in scene " ++ sceneId))), w)) ∧
  (∀ sc e, messageId ≠ "" → scenes w !! sceneId = Some sc →
     find_message messageId (conversation sc) = Some e →
     ∃ sc' w',
       revertSnapshotHandler clock sceneId messageId w
       = (Return (reply 200
            (SceneMessagePayload sc' ("Reverted to snapshot " ++ messageId))), w') ∧
       scenes w' !! sceneId = Some sc' ∧
       files sc' = filesSnapshot e ∧ conversation sc' = conversation sc).
Proof.
  split; [done|]. split; [|split].
  - intros Hid Hnone. unfold Handlers.revertSnapshotHandler, try_catch.
    rewrite truthy_nonempty by done.
    unfold m_bind, revertToSnapshot, m_bind, scenes_get. by rewrite Hnone.
  - intros sc Hid Hsc Hnone. unfold Handlers.revertSnapshotHandler, try_catch.
    rewrite truthy_nonempty by done.
    unfold m_bind, revertToSnapshot, m_bind, scenes_get.
    by rewrite Hsc, (find_message_none _ _ Hnone).
  - intros sc e Hid Hsc Hfind. unfold Handlers.revertSnapshotHandler, try_catch.
    rewrite truthy_nonempty by done.
    unfold m_bind, revertToSnapshot, m_bind, scenes_get. rewrite Hsc, Hfind.
    eexists _, _. split; [reflexivity|]. simpl. split; [apply lookup_insert_eq|done].
Qed.

(** X14. [resetConversationHandler] answers 404 for an unknown scene,
    leaving the world as it is, and otherwise 200 with the scene after
    the reset: an empty conversation and the same files, built files and
    export. *)
Theorem resetConversationHandler_responses sceneId w :
  (scenes w !! sceneId = None →
     resetConversationHandler clock sceneId w
     = (Return (reply 404 (ErrorPayload "Scene not found")), w)) ∧
  (∀ sc, scenes w !! sceneId = Some sc →
     ∃ sc' w',
       resetConversationHandler clock sceneId w
       = (Return (reply 200
            (SceneMessagePayload sc' "Conversation reset successfully")), w') ∧
       scenes w' !! sceneId = Some sc' ∧
       conversation sc' = [] ∧ files sc' = files sc ∧
       builtFiles sc' = builtFiles sc ∧ export sc' = export sc).
Proof.
  split.
  - intros Hnone.
    unfold Handlers.resetConversationHandler, try_catch, m_bind, getScene, scenes_get.
    by rewrite Hnone.
  - intros sc Hsc.
    unfold Handlers.resetConversationHandler, try_catch, m_bind at 1, getScene, scenes_get.
    rewrite Hsc. unfold m_bind at 1, resetConversation, m_bind, scenes_get. rewrite Hsc.
    eexists _, _. split; [reflexivity|]. simpl. split; [apply lookup_insert_eq|done].
Qed.

(** X15. The snapshot realm exports lazily and once. Before a snapshot
    was exported, its content endpoint answers 404 "Snapshot not exported
    yet" and exports nothing. The first [/about] request for an entry
    whose snapshot has a parsable descriptor exports it and answers 200
    with the bundle's record; a second request gets the same answer and
    leaves the world as it is; the content endpoint then answers the
    bundle's [entityId] with the manifest; the live export is not
    touched. *)
Theorem snapshot_realm_exports_once sceneId messageId w sc e sceneMetadata :
  scenes w !! sceneId = Some sc →
  messageId ≠ "" →
  snapshotExports sc !! messageId = None →
  find_message messageId (conversation sc) = Some e →
  parse_scene_json JSON JSON_parse (filesSnapshot e) = Return sceneMetadata →
  (∀ hash, getSnapshotContentByHashHandler sceneId messageId hash w
           = (Return (reply 404 (ErrorPayload "Snapshot not exported yet")), w)) ∧
  ∃ ex sc' w' manifest,
    getSnapshotRealmAboutHandler sceneId messageId w
    = (Return (about_reply "public, max-age=3600" ex), w') ∧
    scenes w' !! sceneId = Some sc' ∧
    snapshotExports sc' !! messageId = Some ex ∧
    export sc' = export sc ∧ files sc' = files sc ∧
    getSnapshotRealmAboutHandler sceneId messageId w'
    = (Return (about_reply "public, max-age=3600" ex), w') ∧
    hashV1 manifest = entityId ex ∧
    getSnapshotContentByHashHandler sceneId messageId (entityId ex) w'
    = (Return {| http_status := 200;
                 http_headers :=
                   [("Content-Type", getContentType (entityId ex) manifest);
                    ("Cache-Control", "public, max-age=31536000, immutable")];
                 http_body := ContentPayload manifest |}, w').
Proof.
  intros Hsc Hid Hnone Hfind Hparse. split.
  { intros hash.
    unfold Handlers.getSnapshotContentByHashHandler, try_catch, m_bind, getScene, scenes_get.
    by rewrite Hsc, Hnone. }
  destruct (exportSnapshot_run clock JSON hashV1 JSON_parse JSON_stringify toLowerCase
              sceneId messageId
              ("http://localhost:3001/scenes/" ++ sceneId ++ "/snapshots/" ++ messageId)
              w sc e sceneMetadata Hsc Hfind Hparse)
    as (ex & Hex & Hrun).
  cbv zeta in Hrun.
  set (sc' := set_updatedAt (clock (S (reads w)))
                (set_snapshotExports (<[messageId := ex]> (snapshotExports sc)) sc)) in *.
  assert (snapshotExports sc' !! messageId = Some ex) as Hstored
    by apply lookup_insert_eq.
  assert (export sc' = export sc) as Hlive by done.
  assert (files sc' = files sc) as Hfiles by done.
  rewrite exportSceneInMemory_eq, Hparse in Hex. cbv zeta in Hex.
  eexists ex, _, _, _. split.
  { unfold Handlers.getSnapshotRealmAboutHandler, try_catch, m_bind at 1, getScene, scenes_get.
    rewrite Hsc, truthy_nonempty by done. rewrite Hnone. unfold m_bind at 1, m_bind at 1. rewrite
        Hrun.
    unfold m_bind at 1. cbn [scenes]. rewrite lookup_insert_eq, Hstored.
    reflexivity. }
  split; [apply lookup_insert_eq|]. split; [exact Hstored|].
  split; [exact Hlive|]. split; [exact Hfiles|]. split.
  { unfold Handlers.getSnapshotRealmAboutHandler, try_catch, m_bind at 1, getScene, scenes_get.
    cbn [scenes]. rewrite lookup_insert_eq, truthy_nonempty by done.
    rewrite Hstored. reflexivity. }
  injection Hex as <-. split; [reflexivity|].
  unfold Handlers.getSnapshotContentByHashHandler, try_catch, m_bind, getScene, scenes_get.
  cbn [scenes]. rewrite lookup_insert_eq, Hstored.
  unfold Handlers.serve_content. cbn [hashedFiles entityId]. by rewrite lookup_insert_eq.
Qed.

(** X16. [createSceneHandler] uses the template ["default"] and the name
    ["My Scene"] for the fields that the body leaves out. An unknown
    template gives status 500 with "Template <id> not found" and creates
    nothing; the default template gives status 200 with the new scene,
    which is in the store under its id and holds the template's files,
    and starts an export of it. *)
Theorem createSceneHandler_defaults name w :
  createSceneHandler None None w
  = createSceneHandler (Some "default") (Some "My Scene") w ∧
  (∀ templateId, templateId ≠ "default" →
     createSceneHandler (Some templateId) name w
     = (Return (reply 500 (ErrorPayload ("Template " ++ templateId ++ " not found")),
                None), w)) ∧
  ∃ sc w',
    createSceneHandler None name w
    = (Return (reply 200 (ScenePayload sc),
               Some (scene_id sc, "http://localhost:3001/scenes/" ++ scene_id sc)), w') ∧
    scenes w' !! scene_id sc = Some sc ∧
    scene_name sc = default "My Scene" name ∧
    files sc = DEFAULT_TEMPLATE ∧ conversation sc = [] ∧
    builtFiles sc = None ∧ export sc = None.
Proof.
  split; [done|]. split.
  - intros templateId Hne. unfold Handlers.createSceneHandler, try_catch, m_bind; simpl.
    unfold createFromTemplate, templates. by rewrite lookup_singleton_ne.
  - unfold Handlers.createSceneHandler, try_catch, m_bind at 1; simpl.
    unfold createFromTemplate, templates. rewrite lookup_singleton_eq.
    eexists _, _. split; [reflexivity|]. simpl. split; [apply lookup_insert_eq|done].
Qed.

End HandlerMore.

Section HandlerMoreInstances.
Import SceneStorage SceneExport SceneBuild SceneStorageExport Handlers.


Lemma pointer_resolves_to_manifest_witness :
  ∃ sc' w' ex,
    exportScene sample_clock string toy_hashV1 toy_JSON_parse toy_JSON_stringify ascii_toLowerCase
      throwing_build "scene_1" "http://localhost:3001/scenes/scene_1" built_world
    = (Return sc', w') ∧
    getRealmAboutHandler sample_clock string toy_hashV1 toy_JSON_parse toy_JSON_stringify
        ascii_toLowerCase
      throwing_build "scene_1" w'
    = (Return (about_reply "no-cache" ex), w').
Proof.
  destruct (exportScene_cached_run sample_clock string toy_hashV1 toy_JSON_parse
              toy_JSON_stringify ascii_toLowerCase throwing_build "scene_1"
              "http://localhost:3001/scenes/scene_1" built_world built_scene
              compiled_files "{}" eq_refl eq_refl eq_refl) as (ex0 & _ & Hrun).
  cbv zeta in Hrun.
  destruct (pointer_resolves_to_manifest ascii_trim sample_clock string toy_hashV1 toy_JSON_parse
              toy_JSON_stringify ascii_toLowerCase throwing_build "scene_1"
              "http://localhost:3001/scenes/scene_1" built_world _ _ Hrun)
    as (ex & manifest & _ & _ & Habout & _).
  eexists _, _, ex. split; [exact Hrun|exact Habout].
Defined.

Lemma buildSceneHandler_outcomes_witness :
  scenes unbuilt_world !! "scene_2" = Some unbuilt_scene ∧
  scenes unbuilt_world !! "scene_9" = None ∧
  buildSceneHandler sample_clock working_build "scene_9" unbuilt_world
  = (Return (reply 404 (ErrorPayload "Scene not found"), None), unbuilt_world) ∧
  buildSceneHandler sample_clock failing_build "scene_2" unbuilt_world
  = (Return (reply 500 (BuildErrorPayload "Build failed" "TS2304: Cannot find name." ""),
             None), unbuilt_world) ∧
  buildSceneHandler sample_clock throwing_build "scene_2" unbuilt_world
  = (Return (reply 500 (ErrorPayload "spawn ENOMEM"), None), unbuilt_world) ∧
  ∃ sc' w',
    buildSceneHandler sample_clock working_build "scene_2" unbuilt_world
    = (Return (reply 200 (BuiltPayload true "Scene built successfully" 2
                            "Build completed successfully"),
               Some ("scene_2", "http://localhost:3001/scenes/scene_2")), w') ∧
    scenes w' !! "scene_2" = Some sc' ∧
    builtFiles sc' = Some compiled_files ∧ files sc' = template_files.
Proof.
  assert (scenes unbuilt_world !! "scene_2" = Some unbuilt_scene) as Hsc by reflexivity.
  assert (scenes unbuilt_world !! "scene_9" = None) as Hnone by reflexivity.
  split; [exact Hsc|]. split; [exact Hnone|]. split; [|split; [|split]].
  - exact (proj1 (buildSceneHandler_outcomes sample_clock working_build "scene_9"
                    unbuilt_world) Hnone).
  - exact (proj1 (proj2 (buildSceneHandler_outcomes sample_clock failing_build "scene_2"
                    unbuilt_world)) unbuilt_scene compiler_error Hsc eq_refl eq_refl).
  - exact (proj1 (proj2 (proj2 (buildSceneHandler_outcomes sample_clock throwing_build
                    "scene_2" unbuilt_world))) unbuilt_scene out_of_memory Hsc eq_refl).
  - destruct (proj2 (proj2 (proj2 (buildSceneHandler_outcomes sample_clock working_build
                    "scene_2" unbuilt_world))) unbuilt_scene compiled Hsc eq_refl eq_refl)
      as (sc' & w' & Hrun & Hstored & Hbuilt & Hfiles & _).
    exists sc', w'. split; [exact Hrun|]. split; [exact Hstored|].
    split; [exact Hbuilt|exact Hfiles].
Defined.

Lemma revertSnapshotHandler_responses_witness :
  "msg_1_aaa" ≠ "" ∧
  scenes built_world !! "scene_9" = None ∧
  scenes built_world !! "scene_1" = Some built_scene ∧
  find_message "msg_1_aaa" (conversation built_scene) = Some first_message ∧
  revertSnapshotHandler sample_clock "scene_9" "msg_1_aaa" built_world
  = (Return (reply 500 (ErrorPayload "Scene scene_9 not found")), built_world) ∧
  revertSnapshotHandler sample_clock "scene_1" "msg_3_ccc" built_world
  = (Return (reply 500 (ErrorPayload "Message msg_3_ccc not found in scene scene_1")),
     built_world) ∧
  ∃ sc' w',
    revertSnapshotHandler sample_clock "scene_1" "msg_1_aaa" built_world
    = (Return (reply 200 (SceneMessagePayload sc' "Reverted to snapshot msg_1_aaa")), w') ∧
    files sc' = template_files.
Proof.
  assert ("msg_1_aaa" ≠ "") as Hid by discriminate.
  assert (scenes built_world !! "scene_9" = None) as Hnone by reflexivity.
  assert (scenes built_world !! "scene_1" = Some built_scene) as Hsc by reflexivity.
  assert (find_message "msg_1_aaa" (conversation built_scene) = Some first_message)
    as Hfind by reflexivity.
  do 4 (split; [assumption|]). split; [|split].
  - exact (proj1 (proj2 (revertSnapshotHandler_responses sample_clock "scene_9"
                    "msg_1_aaa" built_world)) Hid Hnone).
  - apply (proj1 (proj2 (proj2 (revertSnapshotHandler_responses sample_clock "scene_1"
                    "msg_3_ccc" built_world))) built_scene ltac:(discriminate) Hsc).
    intros e He.
    apply elem_of_cons in He as [->|He]; [discriminate|].
    apply elem_of_cons in He as [->|He]; [discriminate|].
    by apply elem_of_nil in He.
  - destruct (proj2 (proj2 (proj2 (revertSnapshotHandler_responses sample_clock "scene_1"
                    "msg_1_aaa" built_world))) built_scene first_message Hid Hsc Hfind)
      as (sc' & w' & Hrun & _ & Hfiles & _).
    exists sc', w'. split; [exact Hrun|exact Hfiles].
Defined.

Lemma resetConversationHandler_responses_witness :
  scenes built_world !! "scene_9" = None ∧
  scenes built_world !! "scene_1" = Some built_scene ∧
  resetConversationHandler sample_clock "scene_9" built_world
  = (Return (reply 404 (ErrorPayload "Scene not found")), built_world) ∧
  ∃ sc' w',
    resetConversationHandler sample_clock "scene_1" built_world
    = (Return (reply 200 (SceneMessagePayload sc' "Conversation reset successfully")), w') ∧
    conversation sc' = [] ∧ files sc' = edited_files.
Proof.
  assert (scenes built_world !! "scene_9" = None) as Hnone by reflexivity.
  assert (scenes built_world !! "scene_1" = Some built_scene) as Hsc by reflexivity.
  split; [exact Hnone|]. split; [exact Hsc|]. split.
  - exact (proj1 (resetConversationHandler_responses sample_clock "scene_9" built_world)
                 Hnone).
  - destruct (proj2 (resetConversationHandler_responses sample_clock "scene_1" built_world)
                    built_scene Hsc) as (sc' & w' & Hrun & _ & Hconv & Hfiles & _).
    exists sc', w'. split; [exact Hrun|]. split; [exact Hconv|exact Hfiles].
Defined.

Lemma snapshot_realm_exports_once_witness :
  scenes built_world !! "scene_1" = Some built_scene ∧
  "msg_1_aaa" ≠ "" ∧
  snapshotExports built_scene !! "msg_1_aaa" = None ∧
  find_message "msg_1_aaa" (conversation built_scene) = Some first_message ∧
  parse_scene_json string toy_JSON_parse (filesSnapshot first_message) = Return "{}" ∧
  ∃ ex w',
    getSnapshotRealmAboutHandler sample_clock string toy_hashV1 toy_JSON_parse
      toy_JSON_stringify ascii_toLowerCase "scene_1" "msg_1_aaa" built_world
    = (Return (about_reply "public, max-age=3600" ex), w') ∧
    getSnapshotRealmAboutHandler sample_clock string toy_hashV1 toy_JSON_parse
      toy_JSON_stringify ascii_toLowerCase "scene_1" "msg_1_aaa" w'
    = (Return (about_reply "public, max-age=3600" ex), w').
Proof.
  assert (scenes built_world !! "scene_1" = Some built_scene) as Hsc by reflexivity.
  assert ("msg_1_aaa" ≠ "") as Hid by discriminate.
  assert (snapshotExports built_scene !! "msg_1_aaa" = None) as Hnone by reflexivity.
  assert (find_message "msg_1_aaa" (conversation built_scene) = Some first_message)
    as Hfind by reflexivity.
  assert (parse_scene_json string toy_JSON_parse (filesSnapshot first_message)
          = Return "{}") as Hparse by reflexivity.
  do 5 (split; [assumption|]).
  destruct (snapshot_realm_exports_once ascii_trim sample_clock string toy_hashV1 toy_JSON_parse
              toy_JSON_stringify ascii_toLowerCase "scene_1" "msg_1_aaa" built_world built_scene
              first_message "{}" Hsc Hid Hnone Hfind Hparse)
    as (_ & ex & sc' & w' & manifest & Hfirst & _ & _ & _ & _ & Hsecond & _).
  exists ex, w'. split; [exact Hfirst|exact Hsecond].
Defined.

Lemma createSceneHandler_defaults_witness :
  "castle" ≠ "default" ∧
  createSceneHandler sample_clock sample_random36 template_files (Some "castle") None
    built_world
  = (Return (reply 500 (ErrorPayload "Template castle not found"), None), built_world).
Proof.
  assert ("castle" ≠ "default") as Hne by discriminate.
  split; [exact Hne|].
  exact (proj1 (proj2 (createSceneHandler_defaults sample_clock sample_random36
                  template_files None built_world)) "castle" Hne).
Defined.

End HandlerMoreInstances.

(** ** More of the build pipeline *)

Section BuildMore.
Import SceneBuild.

Variable FS : Type.
Variable Components : Type.
Variable JSON : Type.
Variable os_tmpdir : string.
Variable path_join : list string → string.
Variable path_dirname : string → string.
Variable path_extname : string → string.
Variable toLowerCase : string → string.
Variable fs_mkdtemp : string → Eff FS string.
Variable fs_mkdir : string → Eff FS unit.
Variable fs_writeFile : string → string → Eff FS unit.
Variable fs_symlink : string → string → Eff FS unit.
Variable fs_readFile : string → Eff FS string.
Variable fs_rm : string → Eff FS unit.
Variable initComponents : Eff FS Components.
Variable sdkBuildScene : Components → string → JSON → Eff FS unit.
Variable JSON_parse : string → string + JSON.

Local Abbreviation State := (BuildState FS).
Local Abbreviation keeps := (@keeps_variables FS).
Local Abbreviation write_files :=
  (write_files FS path_join path_dirname fs_mkdir fs_writeFile).
Local Abbreviation symlinkNodeModules := (symlinkNodeModules FS path_join fs_symlink).
Local Abbreviation copy_asset := (copy_asset path_extname toLowerCase).
Local Abbreviation build_steps :=
  (build_steps FS Components JSON os_tmpdir path_join path_dirname path_extname toLowerCase
     fs_mkdtemp fs_mkdir fs_writeFile fs_symlink fs_readFile initComponents
     sdkBuildScene JSON_parse).
Local Abbreviation buildScene :=
  (buildScene FS Components JSON os_tmpdir path_join path_dirname path_extname toLowerCase
     fs_mkdtemp fs_mkdir fs_writeFile fs_symlink fs_readFile fs_rm initComponents
     sdkBuildScene JSON_parse).

Lemma keeps_fs {A} (m : Eff FS A) : keeps (fs_call FS m).
Proof.
  intros st c st'. unfold fs_call. destruct (m (fs FS st)) as [c0 fs'].
  by intros [= <- <-].
Qed.

Lemma keeps_ret {A} (a : A) : keeps (m_ret a).
Proof. by intros st c st' [= <- <-]. Qed.

Lemma keeps_throw {A} (e : JsError) : keeps (throw (A := A) e).
Proof. by intros st c st' [= <- <-]. Qed.

Lemma keeps_m_bind {A B} (m : Eff State A) (k : A → Eff State B) :
  keeps m → (∀ a, keeps (k a)) → keeps (m_bind m k).
Proof.
  intros Hm Hk st c st'. unfold m_bind.
  destruct (m st) as [[a|e] st1] eqn:Hrun.
  - intros Hrun'. destruct (Hk a _ _ _ Hrun') as [-> ->]. by eapply Hm.
  - intros [= <- <-]. by eapply Hm.
Qed.

Lemma keeps_try_catch {A} (m : Eff State A) (h : JsError → Eff State A) :
  keeps m → (∀ e, keeps (h e)) → keeps (try_catch m h).
Proof.
  intros Hm Hh st c st'. unfold try_catch.
  destruct (m st) as [[a|e] st1] eqn:Hrun.
  - intros [= <- <-]. by eapply Hm.
  - intros Hrun'. destruct (Hh e _ _ _ Hrun') as [-> ->]. by eapply Hm.
Qed.

Lemma keeps_each {A} (l : list A) (f : A → Eff State unit) :
  (∀ x, keeps (f x)) → keeps (for_each l f).
Proof.
  intros Hf. induction l as [|x l IH]; simpl; [apply keeps_ret|].
  apply keeps_m_bind; [apply Hf|]. intros _. apply IH.
Qed.

Lemma keeps_writes dir (files : SceneFiles) : keeps (write_files dir files).
Proof.
  apply keeps_each. intros [filepath text].
  apply keeps_m_bind; [apply keeps_fs|]. intros _. apply keeps_fs.
Qed.

Lemma keeps_symlink dir : keeps (symlinkNodeModules dir).
Proof.
  apply keeps_m_bind.
  - intros st c st'. unfold getNodeModulesPath.
    destruct (nodeModulesPath FS st) as [p|] eqn:Hp; [destruct (truthy (Some p))|];
      by intros [= <- <-].
  - intros shared. apply keeps_try_catch; [apply keeps_fs|].
    intros e. case_bool_decide; [apply keeps_ret|apply keeps_throw].
Qed.

(** The steps that follow the creation of the directory. *)
Lemma build_steps_from_directory sceneId (files : SceneFiles) (st : State) dir fs1 :
  fs_mkdtemp (path_join [os_tmpdir; "dcl-scene-" ++ sceneId ++ "-"]) (fs FS st)
    = (Return dir, fs1) →
  ∀ c st1, build_steps sceneId files st = (c, st1) →
    nodeModulesPath FS st1 = nodeModulesPath FS st ∧ tempDir FS st1 = Some dir.
Proof.
  intros Hmk c st1. unfold SceneBuild.build_steps, m_bind at 1, fs_call at 1.
  rewrite Hmk. unfold m_bind at 1, assign_tempDir at 1.
  match goal with
  | |- ?m ?st0 = _ → _ =>
      assert (keeps m) as Hkeeps; [|intros Hrun; exact (Hkeeps st0 c st1 Hrun)]
  end.
  apply keeps_m_bind; [apply keeps_writes|]. intros _.
  apply keeps_m_bind; [apply keeps_symlink|]. intros _.
  apply keeps_m_bind; [apply keeps_fs|]. intros components.
  destruct (js_or (files !! "scene.json") (files !! "/scene.json")) as [text|];
    [|apply keeps_throw].
  destruct (truthy (Some text)); [|apply keeps_throw].
  destruct (JSON_parse text) as [msg|sceneJson]; [apply keeps_throw|].
  apply keeps_m_bind; [apply keeps_fs|]. intros _.
  apply keeps_m_bind; [|intros js; apply keeps_ret].
  apply keeps_try_catch; [apply keeps_fs|]. intros e. apply keeps_throw.
Qed.

(** X17. [buildScene] removes the directory it created on every exit
    path. When [mkdtemp] throws, nothing is removed and the failure result
    is returned on the file system as [mkdtemp] left it. When [mkdtemp]
    returns a directory, [rm] is called on that directory, on the file
    system as the steps left it, whether they returned or threw; what
    [rm] returns or throws does not change the result. *)
Theorem buildScene_removes_its_directory sceneId (files : SceneFiles) (st : State) :
  let started :=
    {| nodeModulesPath := nodeModulesPath FS st; tempDir := None; fs := fs FS st |} in
  let prefix := path_join [os_tmpdir; "dcl-scene-" ++ sceneId ++ "-"] in
  (∀ error fs1, fs_mkdtemp prefix (fs FS st) = (Throw error, fs1) →
     buildScene sceneId files st
     = (Return (build_failure error),
        {| nodeModulesPath := nodeModulesPath FS st; tempDir := None; fs := fs1 |})) ∧
  (∀ dir fs1, fs_mkdtemp prefix (fs FS st) = (Return dir, fs1) → dir ≠ "" →
     ∃ c st1,
       build_steps sceneId files started = (c, st1) ∧
       buildScene sceneId files st
       = (Return (match c with
                  | Return r => r
                  | Throw error => build_failure error
                  end),
          {| nodeModulesPath := nodeModulesPath FS st; tempDir := Some dir;
             fs := (fs_rm dir (fs FS st1)).2 |})).
Proof.
  intros started prefix. split.
  - intros error fs1 Hmk.
    unfold SceneBuild.buildScene, m_bind at 1, assign_tempDir. fold started.
    unfold try_finally, try_catch, SceneBuild.build_steps, m_bind at 1, fs_call at 1.
    fold prefix. simpl. rewrite Hmk. reflexivity.
  - intros dir fs1 Hmk Hdir.
    destruct (build_steps sceneId files started) as [c st1] eqn:Hrun.
    destruct (build_steps_from_directory sceneId files started dir fs1 Hmk c st1 Hrun)
      as [Hnmp Htemp].
    exists c, st1. split; [done|].
    unfold SceneBuild.buildScene, m_bind at 1, assign_tempDir. fold started.
    unfold try_finally, try_catch. rewrite Hrun.
    assert (cleanup FS fs_rm st1
            = (Return tt, {| nodeModulesPath := nodeModulesPath FS st; tempDir := Some dir;
                             fs := (fs_rm dir (fs FS st1)).2 |})) as Hclean.
    { unfold cleanup. rewrite Htemp, truthy_nonempty by done.
      unfold try_catch, fs_call, m_ret. rewrite Htemp, Hnmp.
      by destruct (fs_rm dir (fs FS st1)) as [[[]|e] fs2]. }
    destruct c as [r|error]; unfold m_ret; rewrite Hclean; reflexivity.
Qed.

Lemma copy_asset_cases (acc : SceneFiles) filepath content :
  let k := strip_one_slash filepath in
  (copy_asset acc (filepath, content) = <[k := content]> acc ∧
   lower_ext toLowerCase path_extname k ≠ ".ts" ∧ lower_ext toLowerCase path_extname k ≠ ".tsx" ∧
   (k = "scene.json" ∨ includes assetExtensions (lower_ext toLowerCase path_extname k) = true)) ∨
  (copy_asset acc (filepath, content) = acc ∧
   ¬ (lower_ext toLowerCase path_extname k ≠ ".ts" ∧ lower_ext toLowerCase path_extname k ≠ ".tsx" ∧
      (k = "scene.json" ∨ includes assetExtensions (lower_ext toLowerCase path_extname k) = true))).
Proof.
  intros k. unfold SceneBuild.copy_asset, lower_ext. fold k.
  destruct (bool_decide_reflect (toLowerCase (path_extname k) = ".ts")) as [Hts|Hts];
    [right; split; [reflexivity|intros (Hno & _); exact (Hno Hts)]|].
  destruct (bool_decide_reflect (toLowerCase (path_extname k) = ".tsx")) as [Htsx|Htsx];
    [right; split; [reflexivity|intros (_ & Hno & _); exact (Hno Htsx)]|].
  cbn [orb].
  destruct (bool_decide_reflect (k = "scene.json")) as [Hk|Hk].
  - left. split; [exact (f_equal (λ key, <[key := content]> acc) (eq_sym Hk))|].
    split; [exact Hts|]. split; [exact Htsx|left; exact Hk].
  - destruct (includes assetExtensions (toLowerCase (path_extname k))) eqn:Hinc.
    + left. split; [reflexivity|]. split; [exact Hts|]. split; [exact Htsx|right; reflexivity].
    + right. split; [reflexivity|]. intros (_ & _ & [Heq|Heq]); [exact (Hk Heq)|discriminate Heq].
Qed.

Lemma copy_assets_sound (l : list (string * string)) (acc : SceneFiles) k c :
  foldl copy_asset acc l !! k = Some c →
  acc !! k = Some c ∨
  ∃ filepath, (filepath, c) ∈ l ∧ k = strip_one_slash filepath ∧
    lower_ext toLowerCase path_extname k ≠ ".ts" ∧ lower_ext toLowerCase path_extname k ≠ ".tsx" ∧
    (k = "scene.json" ∨ includes assetExtensions (lower_ext toLowerCase path_extname k) = true).
Proof.
  revert acc. induction l as [|[filepath content] l IH]; intros acc; cbn [foldl]; [by left|].
  intros Hk. destruct (IH _ Hk) as [Hacc|(fp & Hin & Hrest)].
  - destruct (copy_asset_cases acc filepath content) as [(Heq & Hcond)|(Heq & _)];
      rewrite Heq in Hacc; [|by left].
    destruct (decide (strip_one_slash filepath = k)) as [<-|Hne].
    + rewrite lookup_insert_eq in Hacc. injection Hacc as <-.
      right. exists filepath. split; [left|done].
    + rewrite lookup_insert_ne in Hacc by done. by left.
  - right. exists fp. split; [by right|done].
Qed.

Lemma copy_assets_keep (l : list (string * string)) (acc : SceneFiles) k :
  is_Some (acc !! k) → is_Some (foldl copy_asset acc l !! k).
Proof.
  revert acc. induction l as [|[filepath content] l IH]; intros acc; cbn [foldl]; [done|].
  intros Hk. apply IH.
  destruct (copy_asset_cases acc filepath content) as [(-> & _)|(-> & _)]; [|done].
  destruct (decide (strip_one_slash filepath = k)) as [<-|Hne].
  - by rewrite lookup_insert_eq.
  - by rewrite lookup_insert_ne.
Qed.

Lemma copy_assets_complete (l : list (string * string)) (acc : SceneFiles) filepath content :
  (filepath, content) ∈ l →
  let k := strip_one_slash filepath in
  lower_ext toLowerCase path_extname k ≠ ".ts" → lower_ext toLowerCase path_extname k ≠ ".tsx" →
  k = "scene.json" ∨ includes assetExtensions (lower_ext toLowerCase path_extname k) = true →
  is_Some (foldl copy_asset acc l !! k).
Proof.
  intros Hin k Hts Htsx Hasset. revert acc.
  induction l as [|[fp c] l IH]; intros acc; [by apply elem_of_nil in Hin|].
  apply elem_of_cons in Hin as [[= <- <-]|Hin]; cbn [foldl].
  - apply copy_assets_keep.
    destruct (copy_asset_cases acc filepath content) as [(-> & _)|(_ & Hno)].
    + fold k. by rewrite lookup_insert_eq.
    + by destruct Hno.
  - by apply IH.
Qed.

(** What the [try] block returns when it returns. *)
Lemma build_steps_returns sceneId (files : SceneFiles) (st st' : State) r :
  build_steps sceneId files st = (Return r, st') →
  ∃ js, r = {| success := true;
               result_builtFiles :=
                 foldl copy_asset (<["bin/index.js" := js]> ∅) (Object_entries files);
               stdout := "Build completed successfully"; stderr := "" |}.
Proof.
  unfold SceneBuild.build_steps.
  repeat match goal with
  | |- context [m_bind ?m ?k ?s] =>
      unfold m_bind at 1;
      let c := fresh "c" in let s' := fresh "s" in
      destruct (m s) as [[c|c] s']; [|by intros [=]]
  end.
  destruct (js_or (files !! "scene.json") (files !! "/scene.json")) as [text|];
    [|by intros [=]].
  destruct (truthy (Some text)); [|by intros [=]].
  destruct (JSON_parse text) as [msg|sceneJson]; [by intros [=]|].
  repeat match goal with
  | |- context [m_bind ?m ?k ?s] =>
      unfold m_bind at 1;
      let c := fresh "c" in let s' := fresh "s" in
      destruct (m s) as [[c|c] s']; [|by intros [=]]
  end.
  intros [= <- _]. by eexists.
Qed.

(** X18. A build that succeeds returns the bundle and the assets, and
    no source: [bin/index.js] is present; every other key is the path,
    without one leading slash, of a scene file whose lower-cased extension
    is neither [.ts] nor [.tsx] and which is [scene.json] or has one of the
    asset extensions, with the content of such a file; and every scene
    file of that kind has its key in the output. *)
Theorem built_output_is_bundle_and_assets sceneId (files : SceneFiles) (st st' : State) r :
  buildScene sceneId files st = (Return r, st') →
  success r = true →
  stdout r = "Build completed successfully" ∧ stderr r = "" ∧
  is_Some (result_builtFiles r !! "bin/index.js") ∧
  (∀ k c, result_builtFiles r !! k = Some c →
     k = "bin/index.js" ∨
     ∃ filepath, files !! filepath = Some c ∧ k = strip_one_slash filepath ∧
       lower_ext toLowerCase path_extname k ≠ ".ts" ∧ lower_ext toLowerCase path_extname k ≠
           ".tsx" ∧
       (k = "scene.json" ∨ includes assetExtensions (lower_ext toLowerCase path_extname k) =
           true)) ∧
  (∀ filepath content, files !! filepath = Some content →
     let k := strip_one_slash filepath in
     lower_ext toLowerCase path_extname k ≠ ".ts" → lower_ext toLowerCase path_extname k ≠ ".tsx" →
     k = "scene.json" ∨ includes assetExtensions (lower_ext toLowerCase path_extname k) = true →
     is_Some (result_builtFiles r !! k)).
Proof.
  intros Hrun Hok.
  assert (∃ st0 st1, build_steps sceneId files st0 = (Return r, st1))
    as (st0 & st1 & Hsteps).
  { revert Hrun.
    unfold SceneBuild.buildScene, m_bind at 1, assign_tempDir, try_finally, try_catch.
    destruct (build_steps sceneId files _) as [[r0|error] st1] eqn:Hsteps.
    - destruct (cleanup_returns FS fs_rm st1) as [st2 ->].
      intros [= <- _]. by eexists _, _.
    - unfold m_ret. destruct (cleanup_returns FS fs_rm st1) as [st2 ->].
      intros [= <- _]. discriminate Hok. }
  destruct (build_steps_returns _ _ _ _ _ Hsteps) as [js ->]. simpl.
  split; [reflexivity|]. split; [reflexivity|]. split; [|split].
  - apply copy_assets_keep. by rewrite lookup_insert_eq.
  - intros k c Hk. destruct (copy_assets_sound _ _ _ _ Hk) as [Hacc|(fp & Hin & Hrest)].
    + left. destruct (decide ("bin/index.js" = k)) as [<-|Hne]; [done|].
      by rewrite lookup_insert_ne in Hacc.
    + right. exists fp. split; [|done]. by apply elem_of_map_to_list.
  - intros filepath content Hfile Hts Htsx Hasset.
    apply (copy_assets_complete _ _ filepath content);
      [by apply elem_of_map_to_list|exact Hts|exact Htsx|exact Hasset].
Qed.

(** X19. [symlinkNodeModules] on an initialised workspace: a link that
    already exists ([EEXIST]) is accepted, any other error of [symlink] is
    rethrown as [Failed to create symlink: ...]; the module variable is
    untouched. Without an initialised workspace it throws before any call
    into the file system. *)
Theorem symlinkNodeModules_accepts_existing_link targetDir (st : State) :
  (∀ shared error fs',
     nodeModulesPath FS st = Some shared → shared ≠ "" →
     fs_symlink shared (path_join [targetDir; "node_modules"]) (fs FS st)
       = (Throw error, fs') →
     symlinkNodeModules targetDir st
     = (if bool_decide (err_code error = Some "EEXIST") then Return tt
        else Throw (new_Error ("Failed to create symlink: " ++ String_of_error error)),
        {| nodeModulesPath := Some shared; tempDir := tempDir FS st; fs := fs' |})) ∧
  (nodeModulesPath FS st = None ∨ nodeModulesPath FS st = Some "" →
     symlinkNodeModules targetDir st
     = (Throw (new_Error
          "Build workspace not initialized. Call initializeBuildWorkspace() first."), st)).
Proof.
  split.
  - intros shared error fs' Hshared Hne Hlink.
    unfold SceneBuild.symlinkNodeModules, m_bind, getNodeModulesPath.
    rewrite Hshared, truthy_nonempty by done.
    unfold try_catch, fs_call. rewrite Hlink, Hshared.
    by case_bool_decide.
  - intros [Hnone|Hempty];
      unfold SceneBuild.symlinkNodeModules, m_bind, getNodeModulesPath.
    + by rewrite Hnone.
    + by rewrite Hempty.
Qed.

End BuildMore.

Section BuildMoreInstances.
Import SceneBuild.

Lemma toy_build_run :
  toy_build asset_files toy_workspace
  = (Return {| success := true;
               result_builtFiles :=
                 foldl (copy_asset toy_extname ascii_toLowerCase) (<["bin/index.js" :=
                     "function main(){}"]> ∅)
                   (Object_entries asset_files);
               stdout := "Build completed successfully"; stderr := "" |},
     {| nodeModulesPath := Some "/home/.dcl-scene-lab/build-workspace/node_modules";
        tempDir := Some "/tmp/dcl-scene-scene_1-Xa81Qz"; fs := 14 |}).
Proof. vm_compute. reflexivity. Qed.

Lemma buildScene_removes_its_directory_witness :
  (∃ st', buildScene nat unit string "/tmp" toy_path_join (λ p, p) toy_extname ascii_toLowerCase
            refused_mkdtemp (λ _, toy_call tt) (λ _ _, toy_call tt) (λ _ _, toy_call tt)
            (λ _, toy_call "function main(){}") failing_rm (toy_call tt)
            (λ _ _ _, toy_call tt) toy_JSON_parse "scene_1" asset_files toy_workspace
          = (Return (build_failure permission_denied), st') ∧ fs nat st' = 0) ∧
  (∃ result st',
     buildScene nat unit string "/tmp" toy_path_join (λ p, p) toy_extname ascii_toLowerCase
       toy_mkdtemp (λ _, toy_call tt) (λ _ _, toy_call tt) (λ _ _, toy_call tt)
       (λ _, toy_call "function main(){}") failing_rm (toy_call tt)
       (λ _ _ _, toy_call tt) toy_JSON_parse "scene_1" asset_files toy_workspace
     = (Return result, st') ∧
     tempDir nat st' = Some "/tmp/dcl-scene-scene_1-Xa81Qz").
Proof.
  split.
  - eexists. split.
    + exact (proj1 (buildScene_removes_its_directory nat unit string "/tmp" toy_path_join
               (λ p, p) toy_extname ascii_toLowerCase refused_mkdtemp (λ _, toy_call tt) (λ _ _,
                   toy_call tt)
               (λ _ _, toy_call tt) (λ _, toy_call "function main(){}") failing_rm
               (toy_call tt) (λ _ _ _, toy_call tt) toy_JSON_parse "scene_1" asset_files
               toy_workspace) permission_denied 0 eq_refl).
    + reflexivity.
  - destruct (proj2 (buildScene_removes_its_directory nat unit string "/tmp" toy_path_join
               (λ p, p) toy_extname ascii_toLowerCase toy_mkdtemp (λ _, toy_call tt) (λ _ _,
                   toy_call tt)
               (λ _ _, toy_call tt) (λ _, toy_call "function main(){}") failing_rm
               (toy_call tt) (λ _ _ _, toy_call tt) toy_JSON_parse "scene_1" asset_files
               toy_workspace) "/tmp/dcl-scene-scene_1-Xa81Qz" 1 eq_refl ltac:(discriminate))
      as (c & st1 & _ & Hrun).
    eexists _, _. split; [exact Hrun|reflexivity].
Defined.

Lemma built_output_is_bundle_and_assets_witness :
  ∃ r st',
    toy_build asset_files toy_workspace = (Return r, st') ∧
    success r = true ∧
    is_Some (result_builtFiles r !! "bin/index.js") ∧
    is_Some (result_builtFiles r !! "Models/Tree.GLB") ∧
    is_Some (result_builtFiles r !! "scene.json") ∧
    (∀ c, result_builtFiles r !! "src/index.ts" = Some c → False) ∧
    (∀ c, result_builtFiles r !! "README.md" = Some c → False).
Proof.
  destruct (built_output_is_bundle_and_assets nat unit string "/tmp" toy_path_join
              (λ p, p) toy_extname ascii_toLowerCase toy_mkdtemp (λ _, toy_call tt) (λ _ _,
                  toy_call tt)
              (λ _ _, toy_call tt) (λ _, toy_call "function main(){}") (λ _, toy_call tt)
              (toy_call tt) (λ _ _ _, toy_call tt) toy_JSON_parse "scene_1" asset_files
              toy_workspace _ _ toy_build_run eq_refl)
    as (_ & _ & Hjs & Hsound & Hcomplete).
  eexists _, _. split; [exact toy_build_run|]. split; [reflexivity|].
  split; [exact Hjs|]. split; [|split; [|split]].
  - exact (Hcomplete "/Models/Tree.GLB" "glTF" eq_refl ltac:(discriminate)
             ltac:(discriminate) (or_intror eq_refl)).
  - exact (Hcomplete "scene.json" "{}" eq_refl ltac:(discriminate)
             ltac:(discriminate) (or_introl eq_refl)).
  - intros c Hc. destruct (Hsound _ _ Hc) as [Hk|(fp & _ & _ & Hts & _)].
    + discriminate Hk.
    + by apply Hts.
  - intros c Hc. destruct (Hsound _ _ Hc) as [Hk|(fp & _ & _ & _ & _ & [Hk|Hasset])].
    + discriminate Hk.
    + discriminate Hk.
    + discriminate Hasset.
Defined.

Lemma symlinkNodeModules_accepts_existing_link_witness :
  symlinkNodeModules nat toy_path_join (λ _ _ calls, (Throw link_exists, S calls))
    "/tmp/dcl-scene-scene_1-Xa81Qz" toy_workspace
  = (Return tt,
     {| nodeModulesPath := Some "/home/.dcl-scene-lab/build-workspace/node_modules";
        tempDir := None; fs := 1 |}) ∧
  symlinkNodeModules nat toy_path_join (λ _ _ calls, (Throw disk_full, S calls))
    "/tmp/dcl-scene-scene_1-Xa81Qz" toy_workspace
  = (Throw (new_Error
       "Failed to create symlink: Error: ENOSPC: no space left on device, symlink"),
     {| nodeModulesPath := Some "/home/.dcl-scene-lab/build-workspace/node_modules";
        tempDir := None; fs := 1 |}) ∧
  symlinkNodeModules nat toy_path_join (λ _ _, toy_call tt)
    "/tmp/dcl-scene-scene_1-Xa81Qz" {| nodeModulesPath := None; tempDir := None; fs := 0 |}
  = (Throw (new_Error
       "Build workspace not initialized. Call initializeBuildWorkspace() first."),
     {| nodeModulesPath := None; tempDir := None; fs := 0 |}).
Proof.
  split; [|split].
  - exact (proj1 (symlinkNodeModules_accepts_existing_link nat toy_path_join
             (λ _ _ calls, (Throw link_exists, S calls)) "/tmp/dcl-scene-scene_1-Xa81Qz"
             toy_workspace) _ link_exists 1 eq_refl ltac:(discriminate) eq_refl).
  - exact (proj1 (symlinkNodeModules_accepts_existing_link nat toy_path_join
             (λ _ _ calls, (Throw disk_full, S calls)) "/tmp/dcl-scene-scene_1-Xa81Qz"
             toy_workspace) _ disk_full 1 eq_refl ltac:(discriminate) eq_refl).
  - exact (proj2 (symlinkNodeModules_accepts_existing_link nat toy_path_join
             (λ _ _, toy_call tt) "/tmp/dcl-scene-scene_1-Xa81Qz"
             {| nodeModulesPath := None; tempDir := None; fs := 0 |}) (or_introl eq_refl)).
Defined.

End BuildMoreInstances.

(** ** The shared build workspace *)

Section WorkspaceFacts.
Import SceneBuild BuildWorkspace.

Variable FS : Type.
Variable os_homedir : string.
Variable path_join : list string → string.
Variable workspace_package_json : string.
Variable fs_mkdir : string → Eff FS unit.
Variable fs_writeFile : string → string → Eff FS unit.
Variable fs_access : string → Eff FS unit.
Variable fs_rm : string → Eff FS unit.
Variable npm_install : string → Eff FS (string * string).

Local Abbreviation State := (ModuleState FS).
Local Abbreviation initializeBuildWorkspace :=
  (initializeBuildWorkspace FS os_homedir path_join workspace_package_json
     fs_mkdir fs_writeFile fs_access npm_install).
Local Abbreviation cleanupWorkspace := (cleanupWorkspace FS fs_rm).

Lemma initializeBuildWorkspace_again (st : State) modules :
  nodeModulesPath FS (build_state FS st) = Some modules → modules ≠ "" →
  initializeBuildWorkspace st = (Return modules, st).
Proof.
  intros Hset Hne. unfold BuildWorkspace.initializeBuildWorkspace.
  rewrite Hset, truthy_nonempty by exact Hne. reflexivity.
Qed.

(** X20. An installation that fails leaves the workspace marked as
    initialised. When no path is set, [mkdir] and [writeFile] return, the
    [node_modules] directory is not there and [npm install] throws, then
    [initializeBuildWorkspace] throws [Failed to initialize build
    workspace: ...], but both module variables stay assigned: a second call
    returns the [node_modules] path without touching the file system, and
    [getNodeModulesPath] returns it too. *)
Theorem failed_install_leaves_workspace_initialised (st : State)
    fs1 fs2 fs3 fs4 absent error :
  let dir := path_join [os_homedir; ".dcl-scene-lab"; "build-workspace"] in
  let modules := path_join [dir; "node_modules"] in
  nodeModulesPath FS (build_state FS st) = None →
  fs_mkdir dir (fs FS (build_state FS st)) = (Return tt, fs1) →
  fs_writeFile (path_join [dir; "package.json"]) workspace_package_json fs1
    = (Return tt, fs2) →
  fs_access modules fs2 = (Throw absent, fs3) →
  npm_install dir fs3 = (Throw error, fs4) →
  modules ≠ "" →
  let st' := {| workspaceDir := Some dir;
                build_state := {| nodeModulesPath := Some modules;
                                  tempDir := tempDir FS (build_state FS st);
                                  fs := fs4 |} |} in
  initializeBuildWorkspace st
  = (Throw (new_Error ("Failed to initialize build workspace: " ++ String_of_error error)),
     st') ∧
  initializeBuildWorkspace st' = (Return modules, st') ∧
  getNodeModulesPath FS (build_state FS st') = (Return modules, build_state FS st').
Proof.
  intros dir modules Hnone Hmkdir Hwrite Haccess Hinstall Hne st'.
  split; [|split].
  - unfold BuildWorkspace.initializeBuildWorkspace. rewrite Hnone.
    unfold try_catch, initialize_steps. fold dir. fold modules.
    unfold m_bind, assign_workspaceDir, assign_nodeModulesPath, fs_op, try_catch, throw, m_ret.
    cbn [workspaceDir build_state nodeModulesPath tempDir fs].
    rewrite Hmkdir. cbn [workspaceDir build_state nodeModulesPath tempDir fs].
    rewrite Hwrite. cbn [workspaceDir build_state nodeModulesPath tempDir fs].
    rewrite Haccess. cbn [workspaceDir build_state nodeModulesPath tempDir fs].
    rewrite Hinstall. reflexivity.
  - by apply initializeBuildWorkspace_again.
  - unfold getNodeModulesPath, st'. cbn [build_state nodeModulesPath].
    rewrite truthy_nonempty by exact Hne. reflexivity.
Qed.

(** X21. A first initialisation that finds [node_modules] in place
    returns its path without running [npm install]: the file system is as
    the [access] check left it. One that has to install returns the same
    path once [npm install] and the second [access] check return. In both
    cases [getNodeModulesPath] returns that path afterwards. *)
Theorem initializeBuildWorkspace_sets_the_path (st : State) fs1 fs2 :
  let dir := path_join [os_homedir; ".dcl-scene-lab"; "build-workspace"] in
  let modules := path_join [dir; "node_modules"] in
  let ready file_system :=
    {| workspaceDir := Some dir;
       build_state := {| nodeModulesPath := Some modules;
                         tempDir := tempDir FS (build_state FS st);
                         fs := file_system |} |} in
  nodeModulesPath FS (build_state FS st) = None →
  fs_mkdir dir (fs FS (build_state FS st)) = (Return tt, fs1) →
  fs_writeFile (path_join [dir; "package.json"]) workspace_package_json fs1
    = (Return tt, fs2) →
  modules ≠ "" →
  (∀ fs3, fs_access modules fs2 = (Return tt, fs3) →
     initializeBuildWorkspace st = (Return modules, ready fs3) ∧
     getNodeModulesPath FS (build_state FS (ready fs3))
     = (Return modules, build_state FS (ready fs3))) ∧
  (∀ absent fs3 output fs4 fs5,
     fs_access modules fs2 = (Throw absent, fs3) →
     npm_install dir fs3 = (Return output, fs4) →
     fs_access modules fs4 = (Return tt, fs5) →
     initializeBuildWorkspace st = (Return modules, ready fs5) ∧
     getNodeModulesPath FS (build_state FS (ready fs5))
     = (Return modules, build_state FS (ready fs5))).
Proof.
  intros dir modules ready Hnone Hmkdir Hwrite Hne.
  assert (∀ file_system,
    getNodeModulesPath FS (build_state FS (ready file_system))
    = (Return modules, build_state FS (ready file_system))) as Hget.
  { intros file_system. unfold getNodeModulesPath, ready.
    cbn [build_state nodeModulesPath]. rewrite truthy_nonempty by exact Hne. reflexivity. }
  split.
  - intros fs3 Haccess. split; [|apply Hget].
    unfold BuildWorkspace.initializeBuildWorkspace. rewrite Hnone.
    unfold try_catch, initialize_steps. fold dir. fold modules.
    unfold m_bind, assign_workspaceDir, assign_nodeModulesPath, fs_op, try_catch, throw, m_ret.
    cbn [workspaceDir build_state nodeModulesPath tempDir fs].
    rewrite Hmkdir. cbn [workspaceDir build_state nodeModulesPath tempDir fs].
    rewrite Hwrite. cbn [workspaceDir build_state nodeModulesPath tempDir fs].
    rewrite Haccess. reflexivity.
  - intros absent fs3 output fs4 fs5 Haccess Hinstall Hverify. split; [|apply Hget].
    unfold BuildWorkspace.initializeBuildWorkspace. rewrite Hnone.
    unfold try_catch, initialize_steps. fold dir. fold modules.
    unfold m_bind, assign_workspaceDir, assign_nodeModulesPath, fs_op, try_catch, throw, m_ret.
    cbn [workspaceDir build_state nodeModulesPath tempDir fs].
    rewrite Hmkdir. cbn [workspaceDir build_state nodeModulesPath tempDir fs].
    rewrite Hwrite. cbn [workspaceDir build_state nodeModulesPath tempDir fs].
    rewrite Haccess. cbn [workspaceDir build_state nodeModulesPath tempDir fs].
    rewrite Hinstall. cbn [workspaceDir build_state nodeModulesPath tempDir fs].
    rewrite Hverify. reflexivity.
Qed.

(** X22. [cleanupWorkspace] never throws. With a workspace directory
    set, it calls [rm] on it: when [rm] returns, both module variables are
    reset, so [getNodeModulesPath] throws from then on; when [rm] throws,
    both keep their values. Without a workspace directory it does
    nothing. *)
Theorem cleanupWorkspace_resets_or_keeps (st : State) :
  (∀ dir c fs',
     workspaceDir FS st = Some dir → dir ≠ "" →
     fs_rm dir (fs FS (build_state FS st)) = (c, fs') →
     let st' :=
       match c with
       | Return _ =>
           {| workspaceDir := None;
              build_state := {| nodeModulesPath := None;
                                tempDir := tempDir FS (build_state FS st);
                                fs := fs' |} |}
       | Throw _ =>
           {| workspaceDir := Some dir;
              build_state := {| nodeModulesPath := nodeModulesPath FS (build_state FS st);
                                tempDir := tempDir FS (build_state FS st);
                                fs := fs' |} |}
       end in
     cleanupWorkspace st = (Return tt, st') ∧
     (∀ removed, c = Return removed →
        getNodeModulesPath FS (build_state FS st')
        = (Throw (new_Error
             "Build workspace not initialized. Call initializeBuildWorkspace() first."),
           build_state FS st'))) ∧
  (workspaceDir FS st = None ∨ workspaceDir FS st = Some "" →
     cleanupWorkspace st = (Return tt, st)).
Proof.
  split.
  - intros dir c fs' Hdir Hne Hrm st'. split.
    + unfold BuildWorkspace.cleanupWorkspace. rewrite Hdir, truthy_nonempty by exact Hne.
      unfold try_catch, m_bind, fs_op, assign_workspaceDir, assign_nodeModulesPath, m_ret.
      rewrite Hrm. unfold st'. destruct c as [[]|error]; rewrite ?Hdir; reflexivity.
    + intros removed ->. reflexivity.
  - intros [Hnone|Hempty]; unfold BuildWorkspace.cleanupWorkspace.
    + rewrite Hnone. reflexivity.
    + rewrite Hempty. reflexivity.
Qed.

End WorkspaceFacts.

Section WorkspaceInstances.
Import SceneBuild BuildWorkspace.

Lemma failed_install_leaves_workspace_initialised_witness :
  toy_initialize access_after_install (λ _ calls, (Throw install_failed, S calls)) fresh_module
  = (Throw (new_Error
       "Failed to initialize build workspace: Error: Command failed: npm install"),
     ready_module 4) ∧
  toy_initialize access_after_install (λ _ calls, (Throw install_failed, S calls))
    (ready_module 4)
  = (Return "/home/.dcl-scene-lab/build-workspace/node_modules", ready_module 4) ∧
  getNodeModulesPath nat (build_state nat (ready_module 4))
  = (Return "/home/.dcl-scene-lab/build-workspace/node_modules",
     build_state nat (ready_module 4)).
Proof.
  exact (failed_install_leaves_workspace_initialised nat "/home" toy_path_join "{}"
           (λ _, toy_call tt) (λ _ _, toy_call tt) access_after_install
           (λ _ calls, (Throw install_failed, S calls)) fresh_module
           1 2 3 4 no_such_directory install_failed
           eq_refl eq_refl eq_refl eq_refl eq_refl ltac:(discriminate)).
Defined.

Lemma initializeBuildWorkspace_sets_the_path_witness :
  toy_initialize (λ _, toy_call tt) (λ _, toy_call ("", "")) fresh_module
  = (Return "/home/.dcl-scene-lab/build-workspace/node_modules", ready_module 3) ∧
  toy_initialize access_after_install (λ _, toy_call ("added 212 packages", ""))
    fresh_module
  = (Return "/home/.dcl-scene-lab/build-workspace/node_modules", ready_module 5).
Proof.
  split.
  - exact (proj1 (proj1 (initializeBuildWorkspace_sets_the_path nat "/home" toy_path_join
             "{}" (λ _, toy_call tt) (λ _ _, toy_call tt) (λ _, toy_call tt)
             (λ _, toy_call ("", "")) fresh_module 1 2
             eq_refl eq_refl eq_refl ltac:(discriminate)) 3 eq_refl)).
  - exact (proj1 (proj2 (initializeBuildWorkspace_sets_the_path nat "/home" toy_path_join
             "{}" (λ _, toy_call tt) (λ _ _, toy_call tt) access_after_install
             (λ _, toy_call ("added 212 packages", "")) fresh_module 1 2
             eq_refl eq_refl eq_refl ltac:(discriminate))
             no_such_directory 3 ("added 212 packages", "") 4 5 eq_refl eq_refl eq_refl)).
Defined.

Lemma cleanupWorkspace_resets_or_keeps_witness :
  cleanupWorkspace nat (λ _, toy_call tt) (ready_module 5)
  = (Return tt,
     {| workspaceDir := None;
        build_state := {| nodeModulesPath := None; tempDir := None; fs := 6 |} |}) ∧
  cleanupWorkspace nat failing_rm (ready_module 5) = (Return tt, ready_module 6) ∧
  cleanupWorkspace nat failing_rm fresh_module = (Return tt, fresh_module).
Proof.
  split; [|split].
  - exact (proj1 (proj1 (cleanupWorkspace_resets_or_keeps nat (λ _, toy_call tt)
             (ready_module 5)) "/home/.dcl-scene-lab/build-workspace" (Return tt) 6
             eq_refl ltac:(discriminate) eq_refl)).
  - exact (proj1 (proj1 (cleanupWorkspace_resets_or_keeps nat failing_rm
             (ready_module 5)) "/home/.dcl-scene-lab/build-workspace"
             (Throw permission_denied) 6 eq_refl ltac:(discriminate) eq_refl)).
  - exact (proj2 (cleanupWorkspace_resets_or_keeps nat failing_rm fresh_module)
             (or_introl eq_refl)).
Defined.

End WorkspaceInstances.

(** ** More of the AI prompt handler *)

Section AiHandlerMore.
Import SceneStorage SceneBuild AiHandler.
Local Open Scope nat_scope.

Variable trim : string → string.
Variable clock : nat → Z.
Variable random36 : nat → string.
Variable aiService :
  nat → string → SceneFiles → list ConversationMessage → Completion Modification.
Variable buildScene : nat → string → SceneFiles → Completion BuildResult.

Local Abbreviation prompt_missing := (prompt_missing trim).
Local Abbreviation aiPromptHandler :=
  (aiPromptHandler trim clock random36 aiService buildScene).
Local Abbreviation committed := (committed_scene clock random36).

Implicit Types (w : World) (sc : Scene) (sceneId : string).

Lemma prompt_missing_blank (text : string) :
  prompt_missing (Some text) = true ↔ text = "" ∨ trim text = "".
Proof.
  unfold prompt_missing, truthy. rewrite orb_true_iff, !negb_involutive.
  by rewrite !bool_decide_eq_true.
Qed.

(** X23. The handler checks the prompt before anything else. A request
    without a prompt, with the empty prompt or with one that [trim] empties
    is answered 400 [Prompt is required], whether or not the scene exists;
    a request with a prompt for a scene that does not exist is answered 404
    [Scene not found]. In both cases the world is unchanged and neither the
    collaborator nor the build is consulted: the answer is the same for
    every collaborator and build. *)
Theorem aiPromptHandler_validates_first sceneId (prompt : option string) w :
  (prompt = None ∨ prompt = Some "" ∨ (∃ text, prompt = Some text ∧ trim text = "") →
     aiPromptHandler sceneId prompt w
     = (Return (Some (respond 400 (ErrorBody "Prompt is required"))), w)) ∧
  (∀ text, prompt = Some text → text ≠ "" → trim text ≠ "" →
     scenes w !! sceneId = None →
     aiPromptHandler sceneId prompt w
     = (Return (Some (respond 404 (ErrorBody "Scene not found"))), w)).
Proof.
  split.
  - intros [->|[->|(text & -> & Hblank)]]; [reflexivity|reflexivity|].
    unfold AiHandler.aiPromptHandler, try_catch.
    by rewrite (proj2 (prompt_missing_blank text) (or_intror Hblank)).
  - intros text -> Htext Htrim Hnone.
    unfold AiHandler.aiPromptHandler, try_catch.
    destruct (prompt_missing (Some text)) eqn:Hmissing.
    + apply prompt_missing_blank in Hmissing as [?|?]; done.
    + unfold m_bind, getScene, scenes_get. by rewrite Hnone.
Qed.

(** X24. A build that succeeds at the first attempt: the response has
    status 200 and [buildRetries = 0] and carries the stored scene, whose
    files are the old files overlaid with the collaborator's, whose
    [builtFiles] is the build's output and whose conversation has grown by
    the user entry, with the files before the change, and the assistant
    entry, with the files after it; an export of the scene is started. *)
Theorem first_build_success_is_committed sceneId w text sc m b :
  prompt_missing (Some text) = false →
  scenes w !! sceneId = Some sc →
  aiService 0 text (files sc) (conversation sc) = Return m →
  buildScene 0 sceneId (spread2 (files sc) (modified_files m)) = Return b →
  success b = true →
  ∃ sc' w',
    aiPromptHandler sceneId (Some text) w
    = (Return (Some
         {| response := {| status := 200; body := ModifiedBody sc' (explanation m) 0 |};
            detached_export := Some (sceneId, "http://localhost:3001/scenes/" ++ sceneId) |}),
       w') ∧
    scenes w' !! sceneId = Some sc' ∧
    (∀ other, other ≠ sceneId → scenes w' !! other = scenes w !! other) ∧
    (∀ path, files sc' !! path
             = match modified_files m !! path with
               | Some changed => Some changed
               | None => files sc !! path
               end) ∧
    builtFiles sc' = Some (result_builtFiles b) ∧
    (∃ u a,
       conversation sc' = (conversation sc ++ [u; a])%list ∧
       role u = user ∧ content u = text ∧ filesSnapshot u = files sc ∧
       role a = assistant ∧ content a = explanation m ∧ filesSnapshot a = files sc').
Proof.
  intros Hprompt Hsc Hai Hb Hok.
  eexists _, _. split; [|split; [|split; [|split; [|split]]]].
  - unfold AiHandler.aiPromptHandler, try_catch. rewrite Hprompt.
    unfold m_bind at 1, getScene, scenes_get. rewrite Hsc. unfold m_bind at 1.
    change (S (S MAX_BUILD_RETRIES)) with 4.
    by rewrite (iteration_build_succeeds clock random36 aiService buildScene
                  3 _ _ _ 0 _ _ _ _ Hsc ltac:(unfold MAX_BUILD_RETRIES; lia) Hai Hb Hok).
  - apply lookup_insert_eq.
  - intros other Hne. unfold committed_world; simpl. by rewrite lookup_insert_ne.
  - intros path. unfold committed_scene, spread2; simpl.
    destruct (modified_files m !! path) as [changed|] eqn:Hpath.
    + by apply lookup_union_Some_l.
    + by apply lookup_union_r.
  - reflexivity.
  - by eexists _, _.
Qed.

(** X25. Only the last attempt is kept. When the build of the first
    attempt fails and the build of the second succeeds, the collaborator is
    asked again with the retry prompt and the same, unmodified files; the
    stored files are the old files overlaid with the second answer alone,
    so a file that only the first answer changed keeps its old content;
    the response reports [buildRetries = 1], and the user entry carries the
    original prompt, not the retry prompt. *)
Theorem retry_discards_earlier_attempt sceneId w text sc m0 b0 m1 b1 :
  prompt_missing (Some text) = false →
  scenes w !! sceneId = Some sc →
  aiService 0 text (files sc) (conversation sc) = Return m0 →
  buildScene 0 sceneId (spread2 (files sc) (modified_files m0)) = Return b0 →
  success b0 = false →
  aiService 1 (retry_prompt (stderr b0) text) (files sc) (conversation sc) = Return m1 →
  buildScene 1 sceneId (spread2 (files sc) (modified_files m1)) = Return b1 →
  success b1 = true →
  ∃ sc' w',
    aiPromptHandler sceneId (Some text) w
    = (Return (Some
         {| response := {| status := 200; body := ModifiedBody sc' (explanation m1) 1 |};
            detached_export := Some (sceneId, "http://localhost:3001/scenes/" ++ sceneId) |}),
       w') ∧
    scenes w' !! sceneId = Some sc' ∧
    (∀ path, files sc' !! path
             = match modified_files m1 !! path with
               | Some changed => Some changed
               | None => files sc !! path
               end) ∧
    builtFiles sc' = Some (result_builtFiles b1) ∧
    (∃ u a,
       conversation sc' = (conversation sc ++ [u; a])%list ∧
       content u = text ∧ filesSnapshot u = files sc ∧
       content a = explanation m1 ∧ filesSnapshot a = files sc').
Proof.
  intros Hprompt Hsc Ha0 Hb0 Hf0 Ha1 Hb1 Hok.
  eexists _, _. split; [|split; [|split; [|split]]].
  - unfold AiHandler.aiPromptHandler, try_catch. rewrite Hprompt.
    unfold m_bind at 1, getScene, scenes_get. rewrite Hsc. unfold m_bind at 1.
    change (S (S MAX_BUILD_RETRIES)) with 4.
    rewrite (iteration_build_fails_retry clock random36 aiService buildScene
               3 _ _ _ 0 _ _ _ _ ltac:(unfold MAX_BUILD_RETRIES; lia) Ha0 Hb0 Hf0).
    by rewrite (iteration_build_succeeds clock random36 aiService buildScene
                  2 _ _ _ 1 _ _ _ _ Hsc ltac:(unfold MAX_BUILD_RETRIES; lia) Ha1 Hb1 Hok).
  - apply lookup_insert_eq.
  - intros path. unfold committed_scene, spread2; simpl.
    destruct (modified_files m1 !! path) as [changed|] eqn:Hpath.
    + by apply lookup_union_Some_l.
    + by apply lookup_union_r.
  - reflexivity.
  - by eexists _, _.
Qed.

(** X26. An exception ends the request without a trace. When the
    collaborator or the build throws, at the first attempt or at a retry
    that follows a failed build, the response has status 500 with the
    error's message, or [AI prompt failed] when the message is empty, and
    the world is unchanged: no entry is appended and no file of an earlier
    attempt is stored. *)
Theorem exception_leaves_scene_untouched sceneId w text sc error :
  prompt_missing (Some text) = false →
  scenes w !! sceneId = Some sc →
  let failed :=
    (Return (Some (respond 500 (ErrorBody (failure_text error)))), w) in
  (aiService 0 text (files sc) (conversation sc) = Throw error →
     aiPromptHandler sceneId (Some text) w = failed) ∧
  (∀ m0,
     aiService 0 text (files sc) (conversation sc) = Return m0 →
     buildScene 0 sceneId (spread2 (files sc) (modified_files m0)) = Throw error →
     aiPromptHandler sceneId (Some text) w = failed) ∧
  (∀ m0 b0,
     aiService 0 text (files sc) (conversation sc) = Return m0 →
     buildScene 0 sceneId (spread2 (files sc) (modified_files m0)) = Return b0 →
     success b0 = false →
     aiService 1 (retry_prompt (stderr b0) text) (files sc) (conversation sc)
       = Throw error →
     aiPromptHandler sceneId (Some text) w = failed) ∧
  (∀ m0 b0 m1,
     aiService 0 text (files sc) (conversation sc) = Return m0 →
     buildScene 0 sceneId (spread2 (files sc) (modified_files m0)) = Return b0 →
     success b0 = false →
     aiService 1 (retry_prompt (stderr b0) text) (files sc) (conversation sc)
       = Return m1 →
     buildScene 1 sceneId (spread2 (files sc) (modified_files m1)) = Throw error →
     aiPromptHandler sceneId (Some text) w = failed).
Proof.
  intros Hprompt Hsc failed.
  assert (∀ run : M LoopExit, run w = (Throw error, w) →
    try_catch
      (let! exit := run in
       match exit with
       | Returned out => m_ret (Some out)
       | ConditionFalse =>
           m_ret (Some (respond 500 (ErrorBody "Unexpected error in build retry loop")))
       | OutOfFuel => m_ret None
       end)
      (λ error, m_ret (Some (respond 500 (ErrorBody (failure_text error))))) w
    = failed) as Hcatch.
  { intros run Hrun. unfold try_catch, m_bind. by rewrite Hrun. }
  assert (∀ c,
    retry_loop clock random36 aiService buildScene 4 sceneId text sc 0 text w = c →
    c = (Throw error, w) → aiPromptHandler sceneId (Some text) w = failed) as Hhandler.
  { intros c Hloop ->. unfold AiHandler.aiPromptHandler, try_catch. rewrite Hprompt.
    unfold m_bind at 1, getScene, scenes_get. rewrite Hsc. unfold m_bind at 1.
    change (S (S MAX_BUILD_RETRIES)) with 4. by rewrite Hloop. }
  split; [|split; [|split]].
  - intros Hai. apply (Hhandler _ eq_refl).
    exact (iteration_collaborator_throws clock random36 aiService buildScene
             3 _ _ _ 0 _ _ _ ltac:(unfold MAX_BUILD_RETRIES; lia) Hai).
  - intros m0 Hai Hb. apply (Hhandler _ eq_refl).
    exact (iteration_build_throws clock random36 aiService buildScene
             3 _ _ _ 0 _ _ _ _ ltac:(unfold MAX_BUILD_RETRIES; lia) Hai Hb).
  - intros m0 b0 Ha0 Hb0 Hf0 Ha1. apply (Hhandler _ eq_refl).
    rewrite (iteration_build_fails_retry clock random36 aiService buildScene
               3 _ _ _ 0 _ _ _ _ ltac:(unfold MAX_BUILD_RETRIES; lia) Ha0 Hb0 Hf0).
    exact (iteration_collaborator_throws clock random36 aiService buildScene
             2 _ _ _ 1 _ _ _ ltac:(unfold MAX_BUILD_RETRIES; lia) Ha1).
  - intros m0 b0 m1 Ha0 Hb0 Hf0 Ha1 Hb1. apply (Hhandler _ eq_refl).
    rewrite (iteration_build_fails_retry clock random36 aiService buildScene
               3 _ _ _ 0 _ _ _ _ ltac:(unfold MAX_BUILD_RETRIES; lia) Ha0 Hb0 Hf0).
    exact (iteration_build_throws clock random36 aiService buildScene
             2 _ _ _ 1 _ _ _ _ ltac:(unfold MAX_BUILD_RETRIES; lia) Ha1 Hb1).
Qed.

(** X27. Every accepted request can be undone. After a response with
    status 200 the conversation of the scene ends with a user entry, whose
    id is made of the clock and the random source read first, and an
    assistant entry; if no earlier entry has the user entry's id,
    [revertToSnapshot] with that id returns the scene with the files it had
    before the request. The two entries stay in the conversation. *)
Theorem accepted_request_can_be_undone sceneId (prompt : option string) w sc out w' :
  scenes w !! sceneId = Some sc →
  aiPromptHandler sceneId prompt w = (Return (Some out), w') →
  status (response out) = 200 →
  ∃ text sc' a,
    let u := user_entry clock random36 (reads w) text (files sc) in
    prompt = Some text ∧
    scenes w' !! sceneId = Some sc' ∧
    conversation sc' = (conversation sc ++ [u; a])%list ∧
    role a = assistant ∧
    ((∀ e, e ∈ conversation sc → msg_id e ≠ msg_id u) →
     ∃ restored w'',
       revertToSnapshot clock sceneId (msg_id u) w' = (Return restored, w'') ∧
       scenes w'' !! sceneId = Some restored ∧
       files restored = files sc ∧
       conversation restored = conversation sc').
Proof.
  intros Hsc Hrun Hst.
  destruct (aiPromptHandler_outcome trim clock random36 aiService buildScene sceneId prompt w)
    as (out0 & w0 & Hrun0 &
        [(_ & Hno)|(sc0 & ptext & text & merged & b & Hsc0 & -> & _ & ->)]).
  { rewrite Hrun in Hrun0. injection Hrun0 as <- <-. done. }
  rewrite Hrun in Hrun0. injection Hrun0 as _ ->.
  assert (sc0 = sc) as -> by congruence.
  exists ptext. eexists _, _. cbv zeta. split; [reflexivity|].
  split; [apply lookup_insert_eq|].
  split; [reflexivity|]. split; [reflexivity|].
  intros Hfresh. eexists _, _. split.
  - unfold revertToSnapshot, m_bind at 1, scenes_get.
    unfold committed_world at 1. cbn [scenes]. rewrite lookup_insert_eq.
    unfold committed_scene at 1. cbn [conversation].
    change (conversation sc ++ [?u; ?a])%list
      with (conversation sc ++ [u] ++ [a])%list.
    rewrite app_assoc.
    rewrite (find_message_app_l _ _ _ _ (find_message_app_r _ _ Hfresh)).
    reflexivity.
  - split; [apply lookup_insert_eq|]. split; reflexivity.
Qed.

End AiHandlerMore.

Section AiHandlerMoreInstances.
Import SceneStorage SceneBuild AiHandler.

Lemma aiPromptHandler_validates_first_witness :
  aiPromptHandler ascii_trim sample_clock sample_random36 toy_collaborator always_compiles
    "scene_9" (Some "   ") built_world
  = (Return (Some (respond 400 (ErrorBody "Prompt is required"))), built_world) ∧
  aiPromptHandler ascii_trim sample_clock sample_random36 toy_collaborator always_compiles
    "scene_9" (Some "add a cube") built_world
  = (Return (Some (respond 404 (ErrorBody "Scene not found"))), built_world).
Proof.
  split.
  - exact (proj1 (aiPromptHandler_validates_first ascii_trim sample_clock sample_random36
             toy_collaborator always_compiles "scene_9" (Some "   ") built_world)
             (or_intror (or_intror (ex_intro _ "   " (conj eq_refl eq_refl))))).
  - exact (proj2 (aiPromptHandler_validates_first ascii_trim sample_clock sample_random36
             toy_collaborator always_compiles "scene_9" (Some "add a cube") built_world)
             "add a cube" eq_refl ltac:(discriminate) ltac:(discriminate) eq_refl).
Defined.

Lemma first_build_success_is_committed_witness :
  ∃ sc' w',
    aiPromptHandler ascii_trim sample_clock sample_random36 toy_collaborator always_compiles
      "scene_1" (Some "add a cube") built_world
    = (Return (Some
         {| response := {| status := 200; body := ModifiedBody sc' "Added a cube" 0 |};
            detached_export :=
              Some ("scene_1", "http://localhost:3001/scenes/scene_1") |}), w') ∧
    files sc' !! "/src/index.ts" = Some "export function main() { cube0() }" ∧
    files sc' !! "scene.json" = Some "{}" ∧
    builtFiles sc' = Some compiled_files.
Proof.
  destruct (first_build_success_is_committed ascii_trim sample_clock sample_random36
              toy_collaborator always_compiles "scene_1" built_world "add a cube"
              built_scene (toy_modification 0) compiled
              eq_refl eq_refl eq_refl eq_refl eq_refl)
    as (sc' & w' & Hrun & _ & _ & Hfiles & Hbuilt & _).
  exists sc', w'. split; [exact Hrun|].
  split; [exact (Hfiles "/src/index.ts")|].
  split; [exact (Hfiles "scene.json")|exact Hbuilt].
Defined.

Lemma retry_discards_earlier_attempt_witness :
  ∃ sc' w',
    aiPromptHandler ascii_trim sample_clock sample_random36 fickle_collaborator
        second_build_succeeds
      "scene_1" (Some "add a cube") built_world
    = (Return (Some
         {| response := {| status := 200; body := ModifiedBody sc' "Added a cube" 1 |};
            detached_export :=
              Some ("scene_1", "http://localhost:3001/scenes/scene_1") |}), w') ∧
    files sc' !! "/src/helper.ts" = None ∧
    files sc' !! "/src/index.ts" = Some "export function main() { cube1() }".
Proof.
  destruct (retry_discards_earlier_attempt ascii_trim sample_clock sample_random36
              fickle_collaborator second_build_succeeds "scene_1" built_world "add a cube"
              built_scene helper_modification compiler_error (toy_modification 1) compiled
              eq_refl eq_refl eq_refl eq_refl eq_refl eq_refl eq_refl eq_refl)
    as (sc' & w' & Hrun & _ & Hfiles & _).
  exists sc', w'. split; [exact Hrun|].
  split; [exact (Hfiles "/src/helper.ts")|exact (Hfiles "/src/index.ts")].
Defined.

Lemma exception_leaves_scene_untouched_witness :
  aiPromptHandler ascii_trim sample_clock sample_random36 collaborator_down always_compiles
    "scene_1" (Some "add a cube") built_world
  = (Return (Some (respond 500 (ErrorBody "spawn ENOMEM"))), built_world) ∧
  aiPromptHandler ascii_trim sample_clock sample_random36 toy_collaborator build_crashes
    "scene_1" (Some "add a cube") built_world
  = (Return (Some (respond 500 (ErrorBody "spawn ENOMEM"))), built_world) ∧
  aiPromptHandler ascii_trim sample_clock sample_random36 collaborator_down_on_retry
      every_build_fails
    "scene_1" (Some "add a cube") built_world
  = (Return (Some (respond 500 (ErrorBody "spawn ENOMEM"))), built_world) ∧
  aiPromptHandler ascii_trim sample_clock sample_random36 toy_collaborator second_build_crashes
    "scene_1" (Some "add a cube") built_world
  = (Return (Some (respond 500 (ErrorBody "spawn ENOMEM"))), built_world).
Proof.
  split; [|split; [|split]].
  - exact (proj1 (exception_leaves_scene_untouched ascii_trim sample_clock sample_random36
             collaborator_down always_compiles "scene_1" built_world "add a cube"
             built_scene out_of_memory eq_refl eq_refl) eq_refl).
  - exact (proj1 (proj2 (exception_leaves_scene_untouched ascii_trim sample_clock sample_random36
             toy_collaborator build_crashes "scene_1" built_world "add a cube"
             built_scene out_of_memory eq_refl eq_refl))
             (toy_modification 0) eq_refl eq_refl).
  - exact (proj1 (proj2 (proj2 (exception_leaves_scene_untouched ascii_trim sample_clock
             sample_random36 collaborator_down_on_retry every_build_fails "scene_1"
             built_world "add a cube" built_scene out_of_memory eq_refl eq_refl)))
             (toy_modification 0) compiler_error eq_refl eq_refl eq_refl eq_refl).
  - exact (proj2 (proj2 (proj2 (exception_leaves_scene_untouched ascii_trim sample_clock
             sample_random36 toy_collaborator second_build_crashes "scene_1"
             built_world "add a cube" built_scene out_of_memory eq_refl eq_refl)))
             (toy_modification 0) compiler_error (toy_modification 1)
             eq_refl eq_refl eq_refl eq_refl eq_refl).
Defined.

Lemma first_success_run :
  let sc' := committed_scene sample_clock sample_random36 0 "add a cube" "Added a cube"
               (spread2 edited_files (modified_files (toy_modification 0)))
               (Some compiled_files) built_scene in
  aiPromptHandler ascii_trim sample_clock sample_random36 toy_collaborator always_compiles
    "scene_1" (Some "add a cube") built_world
  = (Return (Some
       {| response := {| status := 200; body := ModifiedBody sc' "Added a cube" 0 |};
          detached_export := Some ("scene_1", "http://localhost:3001/scenes/scene_1") |}),
     committed_world "scene_1" sc' built_world).
Proof. vm_compute. reflexivity. Qed.

Lemma accepted_request_can_be_undone_witness :
  ∃ w' restored w'',
    revertToSnapshot sample_clock "scene_1" "msg_1700000000000_r4nd0m1" w'
    = (Return restored, w'') ∧
    files restored = edited_files ∧
    List.length (conversation restored) = 4%nat.
Proof.
  destruct (accepted_request_can_be_undone ascii_trim sample_clock sample_random36 toy_collaborator
              always_compiles "scene_1" (Some "add a cube") built_world built_scene _ _
              eq_refl first_success_run eq_refl)
    as (text & sc' & a & _ & _ & Hconv & _ & Hundo).
  destruct Hundo as (restored & w'' & Hrevert & _ & Hfiles & Hkept).
  { intros e He. apply elem_of_cons in He as [->|He]; [discriminate|].
    apply list_elem_of_singleton in He as ->. discriminate. }
  eexists _, restored, w''. split; [exact Hrevert|]. split; [exact Hfiles|].
  rewrite Hkept, Hconv. reflexivity.
Defined.

End AiHandlerMoreInstances.
